(** * Analytic initial placement over Bookshelf files

    A shallow embedding of [task4/Program/initial_placement_fixed.py]
    (class [BookshelfParser] and the driver [InitialPlacement.run]; the file
    [Version_Python/task4/Program/initial_placement.py] is the same program
    with Chinese comments) and of the node classification of
    [Version_Python/task2/program/bookshelf_parser.py].

    Conventions of the embedding.
    - A Python [str] is a [string]; a character is a code point below 256.
    - A Python [dict] is an insertion-ordered association list ([PyDict]).
    - The node dictionaries are shared objects: [self.nodes],
      [self.fixed_nodes] and [self.movable_nodes] hold references to the same
      node, so nodes live in a store indexed by address and the three
      dictionaries map a name to an address.
    - Python numbers (an [int] promoted to [float], or a [float]) are the
      carrier of a [Number] structure that supplies the arithmetic the program
      uses, [float(s)] and the [.6f] format.  Every definition is generic in
      it; [QNumber] is the exact instance over the rationals.
    - [try ... except Exception as e: print(...)] is modelled by results that
      carry the state reached when the exception was raised, and [print] by a
      list of messages kept in the state.
    - External collaborators ([scipy.sparse.linalg.spsolve], [open] for
      writing) are fields of an [Externals] record.
    - Write-only statistics counters ([cell_count], [fixed_area], the pin
      histogram, ...) that no modelled function reads are left out. *)

From Stdlib Require Import ZArith QArith Qabs List String Ascii Bool Lia Arith.
From Stdlib Require Import DecimalString Lqa.
Import ListNotations.

Set Implicit Arguments.

Local Open Scope string_scope.
Local Open Scope list_scope.
Local Open Scope Z_scope.

(** ** Python string methods used by the parser *)

Module PyStr.

(** [str.isspace] on one character (code points below 256). *)
Definition is_space (c : ascii) : bool :=
  let n := nat_of_ascii c in
  ((9 <=? n) && (n <=? 13))%nat || ((28 <=? n) && (n <=? 32))%nat
  || (n =? 133)%nat || (n =? 160)%nat.

Fixpoint lstrip (s : string) : string :=
  match s with
  | String c s' => if is_space c then lstrip s' else s
  | EmptyString => EmptyString
  end.

Fixpoint rstrip (s : string) : string :=
  match s with
  | String c s' =>
      match rstrip s' with
      | EmptyString => if is_space c then EmptyString else String c EmptyString
      | r => String c r
      end
  | EmptyString => EmptyString
  end.

(** [s.strip()] *)
Definition strip (s : string) : string := rstrip (lstrip s).

(** [s.startswith(p)] *)
Definition startswith (s p : string) : bool := String.prefix p s.

(** [s.split()]: the maximal runs of non-blank characters.  [cur] is the
    run being read, reversed. *)
Fixpoint split_ws (s : string) (cur : list ascii) : list string :=
  let flush rest :=
    match cur with
    | [] => rest
    | _ => string_of_list_ascii (rev cur) :: rest
    end in
  match s with
  | EmptyString => flush []
  | String c s' =>
      if is_space c then flush (split_ws s' []) else split_ws s' (c :: cur)
  end.

Definition split (s : string) : list string := split_ws s [].

(** [s.split(sep)] for a one-character separator: empty fields are kept. *)
Fixpoint split_sep (sep : ascii) (s : string) (cur : list ascii) : list string :=
  match s with
  | EmptyString => [string_of_list_ascii (rev cur)]
  | String c s' =>
      if Ascii.eqb c sep
      then string_of_list_ascii (rev cur) :: split_sep sep s' []
      else split_sep sep s' (c :: cur)
  end.

Definition split_on (sep : ascii) (s : string) : list string :=
  split_sep sep s [].

Definition digit_val (c : ascii) : option Z :=
  let n := nat_of_ascii c in
  if ((48 <=? n) && (n <=? 57))%nat then Some (Z.of_nat n - 48) else None.

(** Digits with single underscores between them, as [int] accepts.
    [need] is true where a digit must come next. *)
Fixpoint int_digits (s : string) (acc : Z) (need : bool) : option Z :=
  match s with
  | EmptyString => if need then None else Some acc
  | String c s' =>
      match digit_val c with
      | Some d => int_digits s' (10 * acc + d) false
      | None =>
          if Ascii.eqb c "_" && negb need then int_digits s' acc true else None
      end
  end.

(** [int(s)]: surrounding blanks, an optional sign, decimal digits.
    [None] stands for [ValueError]. *)
Definition int (s : string) : option Z :=
  match strip s with
  | String "-" d => option_map Z.opp (int_digits d 0 true)
  | String "+" d => int_digits d 0 true
  | d => int_digits d 0 true
  end.

(** [str(n)] for a non-negative integer. *)
Definition of_nat (n : nat) : string :=
  NilZero.string_of_uint (Nat.to_uint n).

End PyStr.

(** ** Insertion-ordered dictionaries *)

Module PyDict.
Section Dict.
Variable V : Type.

Definition t := list (string * V).

(** [d.get(k)] *)
Fixpoint get (k : string) (d : t) : option V :=
  match d with
  | [] => None
  | (k', v) :: d' => if String.eqb k k' then Some v else get k d'
  end.

(** [k in d] *)
Definition contains (k : string) (d : t) : bool :=
  match get k d with Some _ => true | None => false end.

(** [d[k]] where the key is known to be present; [dflt] stands for the
    [KeyError] that the caller has excluded. *)
Definition getitem (dflt : V) (k : string) (d : t) : V :=
  match get k d with Some v => v | None => dflt end.

(** [d[k] = v]: an existing key keeps its place, a new one goes last. *)
Fixpoint set (k : string) (v : V) (d : t) : t :=
  match d with
  | [] => [(k, v)]
  | (k', v') :: d' =>
      if String.eqb k k' then (k', v) :: d' else (k', v') :: set k v d'
  end.

Definition keys (d : t) : list string := map fst d.
Definition values (d : t) : list V := map snd d.
Definition items (d : t) : list (string * V) := d.
Definition len (d : t) : nat := List.length d.
End Dict.
End PyDict.

(** ** Numbers *)

(** The arithmetic of Python numbers that the program uses.  [of_int] is
    the promotion of an [int] operand, [ltb a b] is [a < b] (and [b > a]),
    [float_of_string s] is [float(s)] with [None] for [ValueError], and
    [format_6f v] is the text of [f"{v:.6f}"]. *)
Class Number (num : Type) : Type := {
  of_int : Z -> num;
  add : num -> num -> num;
  sub : num -> num -> num;
  mul : num -> num -> num;
  div : num -> num -> num;
  neg : num -> num;
  ltb : num -> num -> bool;
  float_of_string : string -> option num;
  format_6f : num -> string
}.

(** The exact instance: rationals, decimal literals read exactly, and the
    [.6f] format rounding the exact value half to even. *)
Module QNum.

Definition is_digit (c : ascii) : bool :=
  match PyStr.digit_val c with Some _ => true | None => false end.

(** A run of digits with single underscores inside, as in a float
    literal: the value, the number of digits and what follows. *)
Fixpoint digitpart (s : string) (acc : Z) (cnt : nat) (started : bool)
  : option (Z * nat * string) :=
  match s with
  | EmptyString => if started then Some (acc, cnt, s) else None
  | String c s' =>
      match PyStr.digit_val c with
      | Some d => digitpart s' (10 * acc + d) (S cnt) true
      | None =>
          if started then
            if Ascii.eqb c "_" then
              match s' with
              | String c' _ =>
                  if is_digit c' then digitpart s' acc cnt true else None
              | EmptyString => None
              end
            else Some (acc, cnt, s)
          else None
      end
  end.

Definition starts_with_digit (s : string) : bool :=
  match s with String c _ => is_digit c | EmptyString => false end.

(** [m * 10^e] as a rational. *)
Definition scale10 (m e : Z) : Q :=
  if 0 <=? e then inject_Z (m * 10 ^ e) else Qmake m (Z.to_pos (10 ^ (- e))).

(** The exponent part of a literal ([e], a sign, digits), when present. *)
Definition exponent (s : string) : option (Z * string) :=
  match s with
  | String c s' =>
      if Ascii.eqb c "e" || Ascii.eqb c "E" then
        let '(sgn, d) :=
          match s' with
          | String "-" d => (-1, d)
          | String "+" d => (1, d)
          | d => (1, d)
          end in
        match digitpart d 0 0 false with
        | Some (e, _, rest) => Some (sgn * e, rest)
        | None => None
        end
      else Some (0, s)
  | EmptyString => Some (0, s)
  end.

(** An unsigned decimal literal: digits, an optional point and digits, an
    optional exponent; at least one digit before the exponent. *)
Definition unsigned_literal (s : string) : option Q :=
  let '(ip, has_int, after_int) :=
    if starts_with_digit s then
      match digitpart s 0 0 false with
      | Some (v, _, r) => (v, true, r)
      | None => (0, false, s)
      end
    else (0, false, s) in
  let '(fp, fcnt, has_frac, after_frac) :=
    match after_int with
    | String "." r =>
        if starts_with_digit r then
          match digitpart r 0 0 false with
          | Some (v, k, r') => (v, k, true, r')
          | None => (0, 0%nat, false, r)
          end
        else (0, 0%nat, false, r)
    | _ => (0, 0%nat, false, after_int)
    end in
  if has_int || has_frac then
    match exponent after_frac with
    | Some (e, EmptyString) =>
        Some (scale10 (ip * 10 ^ Z.of_nat fcnt + fp) (e - Z.of_nat fcnt))
    | _ => None
    end
  else None.

(** [float(s)] on decimal literals.  The literals [inf], [nan] and their
    variants have no rational value and are refused here. *)
Definition of_string (s : string) : option Q :=
  match PyStr.strip s with
  | String "-" d => option_map Qopp (unsigned_literal d)
  | String "+" d => unsigned_literal d
  | d => unsigned_literal d
  end.

(** Rounding of a non-negative rational to an integer, half to even. *)
Definition round_half_even (q : Q) : Z :=
  let n := Qnum q in
  let d := Z.pos (Qden q) in
  let fl := n / d in
  match 2 * (n mod d) ?= d with
  | Lt => fl
  | Gt => fl + 1
  | Eq => if Z.even fl then fl else fl + 1
  end.

Definition string_of_Z (z : Z) : string :=
  NilZero.string_of_int (Z.to_int z).

(** [f"{q:.6f}"] *)
Definition format (q : Q) : string :=
  let n := round_half_even (Qabs q * inject_Z 1000000) in
  let frac := string_of_Z (1000000 + n mod 1000000) in
  let sign := if Qnum q <? 0 then "-" else "" in
  let whole := string_of_Z (n / 1000000) in
  (sign ++ whole ++ "." ++ String.substring 1 6 frac)%string.

Definition lt_bool (a b : Q) : bool := negb (Qle_bool b a).

End QNum.

#[export] Instance QNumber : Number Q := {
  of_int := inject_Z;
  add := Qplus;
  sub := Qminus;
  mul := Qmult;
  div := Qdiv;
  neg := Qopp;
  ltb := QNum.lt_bool;
  float_of_string := QNum.of_string;
  format_6f := QNum.format
}.

(** ** Data model *)

(** The exceptions the modelled code can raise. *)
Inductive exn : Type :=
| FileNotFoundError
| IndexError
| ValueError
| KeyError
| SolverError
| OSError.

(** A printed line: fixed text, or the text of an [except] handler
    followed by the exception it caught. *)
Inductive message : Type :=
| Msg (text : string)
| MsgExn (text : string) (e : exn).

(** The outcome of a [try] body: it ran to its end, or raised in the state
    it had reached. *)
Inductive result (S : Type) : Type :=
| Ok (s : S)
| Raised (s : S) (e : exn).

Arguments Ok {S} s.
Arguments Raised {S} s e.

(** A pin of a net: [{'node': ..., 'type': ...}]. *)
Record pin : Type := mkPin {
  pin_node : string;
  pin_type : string
}.

(** A net: [{'name': ..., 'pins': ..., 'degree': ...}]. *)
Record net : Type := mkNet {
  net_name : string;
  net_pins : list pin;
  net_degree : nat
}.

Section Model.

Context {num : Type} `{Number num}.

(** A node object.  The key ['orientation'] exists only once [parse_pl]
    has set it. *)
Record node : Type := mkNode {
  node_name : string;
  node_width : Z;
  node_height : Z;
  node_x : num;
  node_y : num;
  node_is_fixed : bool;
  node_area : Z;
  node_orientation : option string
}.

Definition addr := nat.

(** A sparse matrix built from coordinate triplets [(row, col, value)],
    kept in the order in which the builder appended them. *)
Record sparse : Type := mkSparse {
  shape : nat;
  triplets : list (nat * nat * num)
}.

(** What the program calls outside itself: [spsolve A b] answers the
    solution vector or raises ([None]); [open_w path] tells whether
    [open(path, 'w')] succeeds; [strftime] is the text of the current
    time. *)
Record Externals : Type := mkExternals {
  spsolve : sparse -> list num -> option (list num);
  open_w : string -> bool;
  strftime : string
}.

(** The fields of a [BookshelfParser] object that the modelled methods
    read or write, the node store, the printed output and the files
    written so far (path and the strings written, in order). *)
Record Parser : Type := mkParser {
  num_modules : Z;
  num_nodes : Z;
  num_terminals : Z;
  num_nets : Z;
  num_pins : Z;
  max_net_degree : nat;
  core_lower_left : num * num;
  core_upper_right : num * num;
  store : addr -> node;
  next_addr : addr;
  nodes : PyDict.t addr;
  nets : list net;
  fixed_nodes : PyDict.t addr;
  movable_nodes : PyDict.t addr;
  stdout : list message;
  disk : list (string * list string)
}.

Definition dummy_node : node :=
  mkNode "" 0 0 (of_int 0) (of_int 0) false 0 None.

(** [BookshelfParser.__init__] *)
Definition init : Parser :=
  mkParser 0 0 0 0 0 0%nat (of_int 0, of_int 0) (of_int 0, of_int 0)
           (fun _ => dummy_node) 0%nat [] [] [] [] [] [].

(** *** Field updates *)

Definition set_num_modules (v : Z) (p : Parser) : Parser :=
  mkParser v (num_nodes p) (num_terminals p) (num_nets p) (num_pins p)
           (max_net_degree p) (core_lower_left p) (core_upper_right p)
           (store p) (next_addr p) (nodes p) (nets p) (fixed_nodes p)
           (movable_nodes p) (stdout p) (disk p).

Definition set_num_nodes (v : Z) (p : Parser) : Parser :=
  mkParser (num_modules p) v (num_terminals p) (num_nets p) (num_pins p)
           (max_net_degree p) (core_lower_left p) (core_upper_right p)
           (store p) (next_addr p) (nodes p) (nets p) (fixed_nodes p)
           (movable_nodes p) (stdout p) (disk p).

Definition set_num_terminals (v : Z) (p : Parser) : Parser :=
  mkParser (num_modules p) (num_nodes p) v (num_nets p) (num_pins p)
           (max_net_degree p) (core_lower_left p) (core_upper_right p)
           (store p) (next_addr p) (nodes p) (nets p) (fixed_nodes p)
           (movable_nodes p) (stdout p) (disk p).

Definition set_num_nets (v : Z) (p : Parser) : Parser :=
  mkParser (num_modules p) (num_nodes p) (num_terminals p) v (num_pins p)
           (max_net_degree p) (core_lower_left p) (core_upper_right p)
           (store p) (next_addr p) (nodes p) (nets p) (fixed_nodes p)
           (movable_nodes p) (stdout p) (disk p).

Definition set_num_pins (v : Z) (p : Parser) : Parser :=
  mkParser (num_modules p) (num_nodes p) (num_terminals p) (num_nets p) v
           (max_net_degree p) (core_lower_left p) (core_upper_right p)
           (store p) (next_addr p) (nodes p) (nets p) (fixed_nodes p)
           (movable_nodes p) (stdout p) (disk p).

Definition set_max_net_degree (v : nat) (p : Parser) : Parser :=
  mkParser (num_modules p) (num_nodes p) (num_terminals p) (num_nets p)
           (num_pins p) v (core_lower_left p) (core_upper_right p)
           (store p) (next_addr p) (nodes p) (nets p) (fixed_nodes p)
           (movable_nodes p) (stdout p) (disk p).

Definition set_core (ll ur : num * num) (p : Parser) : Parser :=
  mkParser (num_modules p) (num_nodes p) (num_terminals p) (num_nets p)
           (num_pins p) (max_net_degree p) ll ur
           (store p) (next_addr p) (nodes p) (nets p) (fixed_nodes p)
           (movable_nodes p) (stdout p) (disk p).

Definition set_store (s : addr -> node) (n : addr) (p : Parser) : Parser :=
  mkParser (num_modules p) (num_nodes p) (num_terminals p) (num_nets p)
           (num_pins p) (max_net_degree p) (core_lower_left p)
           (core_upper_right p) s n (nodes p) (nets p) (fixed_nodes p)
           (movable_nodes p) (stdout p) (disk p).

Definition set_nodes (d : PyDict.t addr) (p : Parser) : Parser :=
  mkParser (num_modules p) (num_nodes p) (num_terminals p) (num_nets p)
           (num_pins p) (max_net_degree p) (core_lower_left p)
           (core_upper_right p) (store p) (next_addr p) d (nets p)
           (fixed_nodes p) (movable_nodes p) (stdout p) (disk p).

Definition set_nets (l : list net) (p : Parser) : Parser :=
  mkParser (num_modules p) (num_nodes p) (num_terminals p) (num_nets p)
           (num_pins p) (max_net_degree p) (core_lower_left p)
           (core_upper_right p) (store p) (next_addr p) (nodes p) l
           (fixed_nodes p) (movable_nodes p) (stdout p) (disk p).

Definition set_fixed_nodes (d : PyDict.t addr) (p : Parser) : Parser :=
  mkParser (num_modules p) (num_nodes p) (num_terminals p) (num_nets p)
           (num_pins p) (max_net_degree p) (core_lower_left p)
           (core_upper_right p) (store p) (next_addr p) (nodes p) (nets p)
           d (movable_nodes p) (stdout p) (disk p).

Definition set_movable_nodes (d : PyDict.t addr) (p : Parser) : Parser :=
  mkParser (num_modules p) (num_nodes p) (num_terminals p) (num_nets p)
           (num_pins p) (max_net_degree p) (core_lower_left p)
           (core_upper_right p) (store p) (next_addr p) (nodes p) (nets p)
           (fixed_nodes p) d (stdout p) (disk p).

(** [print(m)] *)
Definition print (m : message) (p : Parser) : Parser :=
  mkParser (num_modules p) (num_nodes p) (num_terminals p) (num_nets p)
           (num_pins p) (max_net_degree p) (core_lower_left p)
           (core_upper_right p) (store p) (next_addr p) (nodes p) (nets p)
           (fixed_nodes p) (movable_nodes p) (stdout p ++ [m]) (disk p).

Definition set_disk (d : list (string * list string)) (p : Parser) : Parser :=
  mkParser (num_modules p) (num_nodes p) (num_terminals p) (num_nets p)
           (num_pins p) (max_net_degree p) (core_lower_left p)
           (core_upper_right p) (store p) (next_addr p) (nodes p) (nets p)
           (fixed_nodes p) (movable_nodes p) (stdout p) d.

(** Assignment to the object at address [a]. *)
Definition store_set (a : addr) (n : node) (s : addr -> node) : addr -> node :=
  fun a' => if Nat.eqb a' a then n else s a'.

Definition update_node (a : addr) (f : node -> node) (p : Parser) : Parser :=
  set_store (store_set a (f (store p a)) (store p)) (next_addr p) p.

Definition with_xy (vx vy : num) (n : node) : node :=
  mkNode (node_name n) (node_width n) (node_height n) vx vy
         (node_is_fixed n) (node_area n) (node_orientation n).

Definition with_x (v : num) (n : node) : node := with_xy v (node_y n) n.
Definition with_y (v : num) (n : node) : node := with_xy (node_x n) v n.

Definition with_orientation (o : string) (n : node) : node :=
  mkNode (node_name n) (node_width n) (node_height n) (node_x n) (node_y n)
         (node_is_fixed n) (node_area n) (Some o).

Definition with_is_fixed (b : bool) (n : node) : node :=
  mkNode (node_name n) (node_width n) (node_height n) (node_x n) (node_y n)
         b (node_area n) (node_orientation n).

(** ** [parse_nodes] *)

(** [int(line.split(':')[1].strip())] *)
Definition header_int (line : string) : exn + Z :=
  match PyStr.split_on ":" line with
  | _ :: p :: _ =>
      match PyStr.int (PyStr.strip p) with
      | Some v => inr v
      | None => inl ValueError
      end
  | _ => inl IndexError
  end.

(** The header loop: it reads [NumNodes] lines until the first
    [NumTerminals] line, where it stops. *)
Fixpoint nodes_header (lines : list string) (st : Parser) : result Parser :=
  match lines with
  | [] => Ok st
  | l :: rest =>
      let line := PyStr.strip l in
      if PyStr.startswith line "NumNodes" then
        match header_int line with
        | inr v => nodes_header rest (set_num_modules v st)
        | inl e => Raised st e
        end
      else if PyStr.startswith line "NumTerminals" then
        match header_int line with
        | inr v => Ok (set_num_terminals v st)
        | inl e => Raised st e
        end
      else nodes_header rest st
  end.

(** One node record: a fresh node object, classified by the number of
    names already in [self.nodes], then stored under its name. *)
Definition declare_node (node_name : string) (width height : Z)
           (st : Parser) : Parser :=
  let a := next_addr st in
  let fixed :=
    Z.of_nat (PyDict.len (nodes st)) >=? num_modules st - num_terminals st in
  let node :=
    mkNode node_name width height (of_int 0) (of_int 0) fixed
           (width * height) None in
  let st1 := set_store (store_set a node (store st)) (S a) st in
  let st2 :=
    if fixed
    then set_fixed_nodes (PyDict.set node_name a (fixed_nodes st1)) st1
    else set_movable_nodes (PyDict.set node_name a (movable_nodes st1)) st1 in
  set_nodes (PyDict.set node_name a (nodes st2)) st2.

(** The loop over the node records. *)
Fixpoint nodes_body (lines : list string) (node_start : bool) (st : Parser)
  : result Parser :=
  match lines with
  | [] => Ok st
  | l :: rest =>
      let line := PyStr.strip l in
      if String.eqb line "" || PyStr.startswith line "#" then
        nodes_body rest node_start st
      else if PyStr.startswith line "NumNodes"
              || PyStr.startswith line "NumTerminals" then
        nodes_body rest true st
      else if node_start then
        match PyStr.split line with
        | node_name :: p1 :: p2 :: _ =>
            match PyStr.int p1 with
            | None => Raised st ValueError
            | Some width =>
                match PyStr.int p2 with
                | None => Raised st ValueError
                | Some height =>
                    nodes_body rest node_start
                               (declare_node node_name width height st)
                end
            end
        | _ => nodes_body rest node_start st
        end
      else nodes_body rest node_start st
  end.

(** [parse_nodes]; [file] is the content of [self.nodes_file] as
    [readlines] gives it, [None] when it cannot be opened. *)
Definition parse_nodes (file : option (list string)) (st : Parser) : Parser :=
  let handler e := print (MsgExn "Error parsing .nodes file: " e) in
  match file with
  | None => handler FileNotFoundError st
  | Some lines =>
      match nodes_header lines st with
      | Raised st1 e => handler e st1
      | Ok st1 =>
          let st2 := set_num_nodes (num_modules st1 - num_terminals st1) st1 in
          match nodes_body lines false st2 with
          | Raised st3 e => handler e st3
          | Ok st3 => st3
          end
      end
  end.

(** ** [parse_nets] *)

(** The header loop: [NumNets] lines until the first [NumPins] line. *)
Fixpoint nets_header (lines : list string) (st : Parser) : result Parser :=
  match lines with
  | [] => Ok st
  | l :: rest =>
      let line := PyStr.strip l in
      if PyStr.startswith line "NumNets" then
        match header_int line with
        | inr v => nets_header rest (set_num_nets v st)
        | inl e => Raised st e
        end
      else if PyStr.startswith line "NumPins" then
        match header_int line with
        | inr v => Ok (set_num_pins v st)
        | inl e => Raised st e
        end
      else nets_header rest st
  end.

(** Saving the net being read: only when a net was opened and it has at
    least one pin. *)
Definition save_net (current_net : option string) (net_pins : list pin)
           (net_degrees : list nat) (st : Parser) : Parser * list nat :=
  match current_net, net_pins with
  | Some name, _ :: _ =>
      (set_nets (nets st ++ [mkNet name net_pins (List.length net_pins)]) st,
       net_degrees ++ [List.length net_pins])
  | _, _ => (st, net_degrees)
  end.

(** The text after the colon of a [NetDegree] line: the declared degree
    and the net name when there is one. *)
Definition net_header_fields (line : string) : exn + (Z * option string) :=
  match PyStr.split_on ":" line with
  | _ :: p :: _ =>
      match PyStr.split (PyStr.strip p) with
      | d :: more =>
          match PyStr.int d with
          | Some degree =>
              inr (degree, match more with nm :: _ => Some nm | [] => None end)
          | None => inl ValueError
          end
      | [] => inl IndexError
      end
  | _ => inl IndexError
  end.

(** The name of a net read while [k] nets are stored: its own, or
    [net_<k>]. *)
Definition net_name_or_default (o : option string) (k : nat) : string :=
  match o with
  | Some nm => nm
  | None => ("net_" ++ PyStr.of_nat k)%string
  end.

(** The declared degree (parsed, then unused) and the name of the net
    that a [NetDegree] line opens. *)
Definition net_header (line : string) (st : Parser) : exn + (Z * string) :=
  match net_header_fields line with
  | inr (degree, o) =>
      inr (degree, net_name_or_default o (List.length (nets st)))
  | inl e => inl e
  end.

(** The loop over net headers and pin lines. *)
Fixpoint nets_body (lines : list string) (current_net : option string)
         (net_pins : list pin) (net_degrees : list nat) (st : Parser)
  : result (Parser * (option string * list pin * list nat)) :=
  match lines with
  | [] => Ok (st, (current_net, net_pins, net_degrees))
  | l :: rest =>
      let line := PyStr.strip l in
      if String.eqb line "" || PyStr.startswith line "#" then
        nets_body rest current_net net_pins net_degrees st
      else if PyStr.startswith line "NumNets"
              || PyStr.startswith line "NumPins" then
        nets_body rest current_net net_pins net_degrees st
      else if PyStr.startswith line "NetDegree" then
        let '(st1, degs1) := save_net current_net net_pins net_degrees st in
        match net_header line st1 with
        | inr (_, net_name) => nets_body rest (Some net_name) [] degs1 st1
        | inl e => Raised (st1, (current_net, net_pins, degs1)) e
        end
      else
        match PyStr.split line with
        | node_name :: more =>
            let pin_type := match more with t :: _ => t | [] => "I" end in
            if PyDict.contains node_name (nodes st) then
              nets_body rest current_net
                        (net_pins ++ [mkPin node_name pin_type])
                        net_degrees st
            else nets_body rest current_net net_pins net_degrees st
        | [] => nets_body rest current_net net_pins net_degrees st
        end
  end.

(** [parse_nets] *)
Definition parse_nets (file : option (list string)) (st : Parser) : Parser :=
  let handler e := print (MsgExn "Error parsing .nets file: " e) in
  match file with
  | None => handler FileNotFoundError st
  | Some lines =>
      match nets_header lines st with
      | Raised st1 e => handler e st1
      | Ok st1 =>
          match nets_body lines None [] [] st1 with
          | Raised (st2, _) e => handler e st2
          | Ok (st2, (current_net, net_pins, net_degrees)) =>
              let '(st3, degs) :=
                save_net current_net net_pins net_degrees st2 in
              match degs with
              | [] => st3
              | _ => set_max_net_degree (fold_right Nat.max 0%nat degs) st3
              end
          end
      end
  end.

(** ** [parse_pl] *)

(** [start_line]: one past the first line that starts with the banner,
    0 when there is none.  [i] is the index of the head of [lines]. *)
Fixpoint pl_start (lines : list string) (i : nat) : nat :=
  match lines with
  | [] => 0%nat
  | l :: rest =>
      if PyStr.startswith l "UCLA pl" then S i else pl_start rest (S i)
  end.

(** The body for a record whose name is known: position and orientation
    are stored in the node that [self.nodes] holds, which is also put in
    [self.fixed_nodes] when the orientation is [F] or the name is
    already there. *)
Definition place_node (node_name : string) (vx vy : num)
           (orientation : string) (st : Parser) : Parser :=
  match PyDict.get node_name (nodes st) with
  | None => st
  | Some a =>
      let st1 :=
        update_node a (fun n => with_orientation orientation (with_xy vx vy n))
                    st in
      if String.eqb orientation "F"
         || PyDict.contains node_name (fixed_nodes st1) then
        let st2 := update_node a (with_is_fixed true) st1 in
        set_fixed_nodes (PyDict.set node_name a (fixed_nodes st2)) st2
      else st1
  end.

Fixpoint pl_body (lines : list string) (st : Parser) : result Parser :=
  match lines with
  | [] => Ok st
  | l :: rest =>
      let line := PyStr.strip l in
      if String.eqb line "" || PyStr.startswith line "#" then pl_body rest st
      else
        match PyStr.split line with
        | node_name :: p1 :: p2 :: orientation :: _ =>
            match float_of_string p1 with
            | None => Raised st ValueError
            | Some vx =>
                match float_of_string p2 with
                | None => Raised st ValueError
                | Some vy =>
                    pl_body rest (place_node node_name vx vy orientation st)
                end
            end
        | _ => pl_body rest st
        end
  end.

(** [parse_pl] *)
Definition parse_pl (file : option (list string)) (st : Parser) : Parser :=
  let handler e := print (MsgExn "Error parsing .pl file: " e) in
  match file with
  | None => handler FileNotFoundError st
  | Some lines =>
      match pl_body (skipn (pl_start lines 0) lines) st with
      | Raised st1 e => handler e st1
      | Ok st1 => st1
      end
  end.

(** ** [build_quadratic_matrix] *)

(** [enumerate(l)] *)
Definition enumerate (A : Type) (l : list A) : list (nat * A) :=
  combine (seq 0 (List.length l)) l.

(** [{node: i for i, node in enumerate(movable_nodes_list)}] *)
Definition node_to_idx (st : Parser) : PyDict.t nat :=
  fold_left (fun d '(i, nm) => PyDict.set nm i d)
            (enumerate (PyDict.keys (movable_nodes st))) [].

(** [b[i] += v] *)
Fixpoint add_at (b : list num) (i : nat) (v : num) : list num :=
  match b, i with
  | [], _ => []
  | u :: b', O => add u v :: b'
  | u :: b', S i' => u :: add_at b' i' v
  end.

(** The first loop over the pins of a net: the sums of the coordinates of
    its fixed nodes and their number. *)
Definition fixed_sums (st : Parser) (pins : list pin) : num * num * nat :=
  fold_left
    (fun '(fixed_x, fixed_y, fixed_count) p =>
       match PyDict.get (pin_node p) (fixed_nodes st) with
       | Some a =>
           (add fixed_x (node_x (store st a)),
            add fixed_y (node_y (store st a)),
            S fixed_count)
       | None => (fixed_x, fixed_y, fixed_count)
       end)
    pins (of_int 0, of_int 0, 0%nat).

(** The loop over [j] for one movable pin [i]: two triplets for each
    other pin whose node is movable. *)
Definition pair_loop (st : Parser) (weight : num) (i idx_i : nat)
           (pins : list pin) (coo : list (nat * nat * num))
  : list (nat * nat * num) :=
  fold_left
    (fun coo '(j, pin_j) =>
       if Nat.eqb i j then coo
       else if PyDict.contains (pin_node pin_j) (movable_nodes st) then
         let idx_j := PyDict.getitem 0%nat (pin_node pin_j) (node_to_idx st) in
         coo ++ [(idx_i, idx_i, weight); (idx_i, idx_j, neg weight)]
       else coo)
    (enumerate pins) coo.

(** The body of the loop over the nets. *)
Definition net_loop (st : Parser)
           (acc : list (nat * nat * num) * list num * list num) (n : net)
  : list (nat * nat * num) * list num * list num :=
  let pins := net_pins n in
  let degree := List.length pins in
  if (degree <=? 1)%nat then acc
  else
    let weight := div (of_int 1) (of_int (Z.of_nat degree - 1)) in
    let '(fixed_x, fixed_y, fixed_count) := fixed_sums st pins in
    fold_left
      (fun '(coo, b_x, b_y) '(i, pin_i) =>
         if negb (PyDict.contains (pin_node pin_i) (movable_nodes st))
         then (coo, b_x, b_y)
         else
           let idx_i :=
             PyDict.getitem 0%nat (pin_node pin_i) (node_to_idx st) in
           let coo' := pair_loop st weight i idx_i pins coo in
           if (0 <? fixed_count)%nat then
             (coo', add_at b_x idx_i (mul weight fixed_x),
              add_at b_y idx_i (mul weight fixed_y))
           else (coo', b_x, b_y))
      (enumerate pins) acc.

(** [build_quadratic_matrix]: the matrix (returned twice by the source,
    as [A_x] and [A_y]) and the two right-hand sides.  The [except]
    branch is not reachable: every key looked up in [node_to_idx] is a
    key of [self.movable_nodes]. *)
Definition build_quadratic_matrix (st : Parser)
  : sparse * list num * list num :=
  let n := PyDict.len (movable_nodes st) in
  let zeros := repeat (of_int 0) n in
  let '(coo, b_x, b_y) :=
    fold_left (net_loop st) (nets st) ([], zeros, zeros) in
  (mkSparse n coo, b_x, b_y).

(** The values that a list of triplets gives for one coordinate, in the
    order of the triplets. *)
Definition at_coord (i j : nat) (coo : list (nat * nat * num)) : list num :=
  map snd (filter (fun t => Nat.eqb (fst (fst t)) i && Nat.eqb (snd (fst t)) j)
                  coo).

(** The values of the triplets of one row, in order. *)
Definition row_values (i : nat) (coo : list (nat * nat * num)) : list num :=
  map snd (filter (fun t => Nat.eqb (fst (fst t)) i) coo).

(** The entry [(i, j)] of the matrix that [coo_matrix(...).tocsr()]
    yields: the values given for that coordinate are summed, in the
    order of the triplets; a coordinate without triplet is zero. *)
Definition contributions (A : sparse) (i j : nat) : list num :=
  at_coord i j (triplets A).

Definition sum_duplicates (l : list num) : num :=
  match l with
  | [] => of_int 0
  | v :: l' => fold_left add l' v
  end.

Definition entry (A : sparse) (i j : nat) : num :=
  sum_duplicates (contributions A i j).

(** *** The triplets, net by net

    The same triplets without the accumulator: what one pin and one net
    append. *)

Definition mov (st : Parser) (p : pin) : bool :=
  PyDict.contains (pin_node p) (movable_nodes st).

Definition idx (st : Parser) (p : pin) : nat :=
  PyDict.getitem 0%nat (pin_node p) (node_to_idx st).

Definition pair_triplets (st : Parser) (weight : num) (i : nat) (pin_i : pin)
           (pins : list pin) : list (nat * nat * num) :=
  flat_map
    (fun '(j, pin_j) =>
       if Nat.eqb i j then []
       else if mov st pin_j
            then [(idx st pin_i, idx st pin_i, weight);
                  (idx st pin_i, idx st pin_j, neg weight)]
            else [])
    (enumerate pins).

Definition net_triplets (st : Parser) (n : net) : list (nat * nat * num) :=
  let pins := net_pins n in
  if (List.length pins <=? 1)%nat then []
  else
    let weight := div (of_int 1) (of_int (Z.of_nat (List.length pins) - 1)) in
    flat_map
      (fun '(i, pin_i) =>
         if mov st pin_i then pair_triplets st weight i pin_i pins else [])
      (enumerate pins).

(** ** [solve_quadratic_placement] *)

(** The loop that copies the solution into the movable nodes. *)
Fixpoint update_positions (l : list (nat * string)) (vx vy : list num)
         (st : Parser) : result Parser :=
  match l with
  | [] => Ok st
  | (i, node_name) :: rest =>
      match PyDict.get node_name (movable_nodes st) with
      | None => Raised st KeyError
      | Some a =>
          match nth_error vx i with
          | None => Raised st IndexError
          | Some xi =>
              let st1 := update_node a (with_x xi) st in
              match nth_error vy i with
              | None => Raised st1 IndexError
              | Some yi =>
                  update_positions rest vx vy (update_node a (with_y yi) st1)
              end
          end
      end
  end.

Definition solve_quadratic_placement (ext : Externals) (st : Parser)
  : Parser * bool :=
  let '(A, b_x, b_y) := build_quadratic_matrix st in
  let movable_nodes_list := PyDict.keys (movable_nodes st) in
  let failed :=
    (print (MsgExn "Error solving linear equation system: " SolverError) st,
     false) in
  match spsolve ext A b_x with
  | None => failed
  | Some vx =>
      match spsolve ext A b_y with
      | None => failed
      | Some vy =>
          match update_positions (enumerate movable_nodes_list) vx vy st with
          | Ok st' => (st', true)
          | Raised st' e =>
              (print (MsgExn "Error solving quadratic placement: " e) st',
               false)
          end
      end
  end.

(** ** [legalize_placement] *)

(** The adjustment of the X coordinate of one node. *)
Definition clip_x (min_x max_x : num) (n : node) : node :=
  if ltb (node_x n) min_x then with_x min_x n
  else if ltb max_x (add (node_x n) (of_int (node_width n)))
       then with_x (sub max_x (of_int (node_width n))) n
       else n.

(** The adjustment of the Y coordinate of one node. *)
Definition clip_y (min_y max_y : num) (n : node) : node :=
  if ltb (node_y n) min_y then with_y min_y n
  else if ltb max_y (add (node_y n) (of_int (node_height n)))
       then with_y (sub max_y (of_int (node_height n))) n
       else n.

Definition clip (ll ur : num * num) (n : node) : node :=
  clip_y (snd ll) (snd ur) (clip_x (fst ll) (fst ur) n).

(** The loop of [legalize_placement] over the entries of
    [self.movable_nodes]. *)
Definition legalize_loop (ll ur : num * num) (l : list (string * addr))
           (s : Parser) : Parser :=
  fold_left (fun s '(_, a) => update_node a (clip ll ur) s) l s.

(** [legalize_placement]: no statement of its body can raise, so it
    prints nothing and answers [True]. *)
Definition legalize_placement (st : Parser) : Parser * bool :=
  (legalize_loop (core_lower_left st) (core_upper_right st)
                 (PyDict.items (movable_nodes st)) st,
   true).

(** How often the loop visits the node at [a]. *)
Definition visits (a : addr) (l : list (string * addr)) : nat :=
  count_occ Nat.eq_dec (map snd l) a.

(** A node fits the core in X: neither [max_x < min_x + width] nor
    [max_x - width < min_x]; likewise in Y with its height. *)
Definition fits_x (min_x max_x : num) (n : node) : Prop :=
  ltb max_x (add min_x (of_int (node_width n))) = false
  /\ ltb (sub max_x (of_int (node_width n))) min_x = false.

Definition fits_y (min_y max_y : num) (n : node) : Prop :=
  ltb max_y (add min_y (of_int (node_height n))) = false
  /\ ltb (sub max_y (of_int (node_height n))) min_y = false.

Definition fits_core (ll ur : num * num) (n : node) : Prop :=
  fits_x (fst ll) (fst ur) n /\ fits_y (snd ll) (snd ur) n.

(** ** [write_placement_result] *)

Definition nl : string := String (ascii_of_nat 10) EmptyString.
Definition tab : string := String (ascii_of_nat 9) EmptyString.

(** [f"{name}\t{x:.6f}\t{y:.6f}\t: {o}\n"] *)
Definition pl_line (name : string) (n : node) (o : string) : string :=
  (name ++ tab ++ format_6f (node_x n) ++ tab ++ format_6f (node_y n)
        ++ tab ++ ": " ++ o ++ nl)%string.

(** The strings written to the output file, in order. *)
Definition placement_text (ext : Externals) (st : Parser) : list string :=
  ["UCLA pl 1.0" ++ nl;
   "# Generated by Initial Placement Program" ++ nl;
   "# Date: " ++ strftime ext ++ nl ++ nl]%string
    ++ map (fun '(node_name, a) => pl_line node_name (store st a) "F")
           (PyDict.items (fixed_nodes st))
    ++ map (fun '(node_name, a) => pl_line node_name (store st a) "N")
           (PyDict.items (movable_nodes st)).

Definition write_placement_result (ext : Externals) (output_file : string)
           (st : Parser) : Parser * bool :=
  if open_w ext output_file then
    (set_disk (PyDict.set output_file (placement_text ext st) (disk st)) st,
     true)
  else
    (print (MsgExn "Error writing initial placement results: " OSError) st,
     false).

(** ** [InitialPlacement.run] *)

(** [run] from the state that [parse_all] has left in [self.parser];
    [output_pl_file] is the joined output path.  The messages carry the
    fixed part of each printed line.  The statistics and the picture
    that follow the write are printing and plotting only. *)
Definition run (ext : Externals) (output_pl_file : string) (parsed : Parser)
  : Parser * bool :=
  let st0 :=
    print (Msg "Calculating initial placement using quadratic solver...")
          parsed in
  let '(st1, success) := solve_quadratic_placement ext st0 in
  if negb success then
    (print (Msg "Quadratic solver solution failed") st1, false)
  else
    let st2 :=
      print (Msg "Legalizing initial placement...")
            (print (Msg "Quadratic solver solution completed") st1) in
    let '(st3, success) := legalize_placement st2 in
    if negb success then
      (print (Msg "Initial placement legalization failed") st3, false)
    else
      let st4 := print (Msg "Initial placement legalization completed") st3 in
      let '(st5, success) := write_placement_result ext output_pl_file st4 in
      if negb success then
        (print (Msg "Failed to write initial placement results") st5, false)
      else
        (print (Msg "Initial Placement Statistics:")
               (print (Msg "Initial placement results written") st5),
         true).

End Model.

Arguments node num : clear implicits.
Arguments sparse num : clear implicits.
Arguments Externals num : clear implicits.
Arguments Parser num : clear implicits.

(** ** The older parser: [parse_nodes_file]

    [Version_Python/task2/program/bookshelf_parser.py] reads the same
    [.nodes] files with regular expressions and marks terminals in a loop of
    its own. *)

Module Task2.

Record node_info : Type := mkInfo {
  width : Z;
  height : Z;
  is_terminal : bool
}.

(** [self.stats] (the three counters of the nodes file) and
    [self.nodes_info]. *)
Record Parser : Type := mkParser {
  total_nodes : Z;
  terminal_nodes : Z;
  non_terminal_nodes : Z;
  nodes_info : PyDict.t node_info
}.

Definition init : Parser := mkParser 0 0 0 [].

(** The longest prefix whose characters satisfy [p], and the rest. *)
Fixpoint span (p : ascii -> bool) (s : string) : string * string :=
  match s with
  | EmptyString => (EmptyString, EmptyString)
  | String c s' =>
      if p c then let '(a, b) := span p s' in (String c a, b)
      else (EmptyString, s)
  end.

Fixpoint drop (n : nat) (s : string) : string :=
  match n, s with
  | S n', String _ s' => drop n' s'
  | _, _ => s
  end.

(** [key in s] *)
Fixpoint has_substring (key s : string) : bool :=
  String.prefix key s
  || match s with
     | String _ s' => has_substring key s'
     | EmptyString => false
     end.

(** A match of [\s*:\s*(\d+)] at the head of [s]: the digits. *)
Definition colon_digits (s : string) : option string :=
  match snd (span PyStr.is_space s) with
  | String ":" r =>
      match fst (span QNum.is_digit (snd (span PyStr.is_space r))) with
      | EmptyString => None
      | ds => Some ds
      end
  | _ => None
  end.

(** [re.search(key + r'\s*:\s*(\d+)', s)]: group 1 of the leftmost
    match. *)
Fixpoint search_header (key s : string) : option string :=
  let here :=
    if String.prefix key s then colon_digits (drop (String.length key) s)
    else None in
  match here with
  | Some ds => Some ds
  | None =>
      match s with
      | String _ s' => search_header key s'
      | EmptyString => None
      end
  end.

(** [re.compile(r'^\s*(\S+)\s+(\d+)\s+(\d+)').match(s)]: the three
    groups. *)
Definition node_pattern (s : string) : option (string * string * string) :=
  let s0 := snd (span PyStr.is_space s) in
  let '(name, s1) := span (fun c => negb (PyStr.is_space c)) s0 in
  let '(w1, s2) := span PyStr.is_space s1 in
  let '(d1, s3) := span QNum.is_digit s2 in
  let '(w2, s4) := span PyStr.is_space s3 in
  let d2 := fst (span QNum.is_digit s4) in
  match name, w1, d1, w2, d2 with
  | String _ _, String _ _, String _ _, String _ _, String _ _ =>
      Some (name, d1, d2)
  | _, _, _, _, _ => None
  end.

(** The stripped lines that are neither empty nor comments. *)
Definition data_lines (lines : list string) : list string :=
  map PyStr.strip
      (filter (fun l => negb (PyStr.startswith (PyStr.strip l) "#")
                        && negb (String.eqb (PyStr.strip l) ""))
              lines).

(** [int(re.search(...).group(1))]; a failed search raises on
    [.group]. *)
Definition header_value (key line : string) : option Z :=
  match search_header key line with
  | Some ds => PyStr.int ds
  | None => None
  end.

Fixpoint read_counts (ls : list string) (st : Parser) : option Parser :=
  match ls with
  | [] => Some st
  | line :: rest =>
      if has_substring "NumNodes" line then
        match header_value "NumNodes" line with
        | Some v =>
            read_counts rest
              (mkParser v (terminal_nodes st) (non_terminal_nodes st)
                        (nodes_info st))
        | None => None
        end
      else if has_substring "NumTerminals" line then
        match header_value "NumTerminals" line with
        | Some v =>
            read_counts rest
              (mkParser (total_nodes st) v (non_terminal_nodes st)
                        (nodes_info st))
        | None => None
        end
      else read_counts rest st
  end.

Fixpoint read_nodes (ls : list string) (d : PyDict.t node_info)
  : option (PyDict.t node_info) :=
  match ls with
  | [] => Some d
  | line :: rest =>
      match node_pattern line with
      | Some (name, w, h) =>
          match PyStr.int w, PyStr.int h with
          | Some wv, Some hv =>
              read_nodes rest (PyDict.set name (mkInfo wv hv false) d)
          | _, _ => None
          end
      | None => read_nodes rest d
      end
  end.

(** The marking loop: the first [terminal_nodes] entries of
    [self.nodes_info] become terminals. *)
Fixpoint mark_terminals (limit terminal_count : Z) (d : PyDict.t node_info)
  : PyDict.t node_info :=
  match d with
  | [] => []
  | (name, i) :: d' =>
      if terminal_count <? limit then
        (name, mkInfo (width i) (height i) true)
          :: mark_terminals limit (terminal_count + 1) d'
      else d
  end.

(** [parse_nodes_file]; [None] when the body raises (the handler prints
    and raises again). *)
Definition parse_nodes_file (lines : list string) (st : Parser)
  : option Parser :=
  let dl := data_lines lines in
  match read_counts dl st with
  | None => None
  | Some st1 =>
      let non_terminal := total_nodes st1 - terminal_nodes st1 in
      match read_nodes dl (nodes_info st1) with
      | None => None
      | Some d =>
          Some (mkParser (total_nodes st1) (terminal_nodes st1) non_terminal
                         (mark_terminals (terminal_nodes st1) 0 d))
      end
  end.

End Task2.

(** ** The nets file read block by block

    A second description of what [parse_nets] stores, by net block rather
    than line by line, against which the loop is compared. *)

(** The lines that the loop passes over: empty, comment and count lines. *)
Definition nets_ignored (line : string) : bool :=
  String.eqb line "" || PyStr.startswith line "#"
  || (PyStr.startswith line "NumNets" || PyStr.startswith line "NumPins").

(** The pin lines (stripped) from the head of [lines] to the next
    [NetDegree] line. *)
Fixpoint block_pins (lines : list string) : list string :=
  match lines with
  | [] => []
  | l :: rest =>
      let line := PyStr.strip l in
      if nets_ignored line then block_pins rest
      else if PyStr.startswith line "NetDegree" then []
      else line :: block_pins rest
  end.

(** The net blocks of a file: each [NetDegree] line with its pin lines. *)
Fixpoint net_blocks (lines : list string) : list (string * list string) :=
  match lines with
  | [] => []
  | l :: rest =>
      let line := PyStr.strip l in
      if nets_ignored line then net_blocks rest
      else if PyStr.startswith line "NetDegree"
           then (line, block_pins rest) :: net_blocks rest
           else net_blocks rest
  end.

(** The pins of the pin lines whose node name is a key of [d]. *)
Definition known_pins (d : PyDict.t addr) (pin_lines : list string) : list pin :=
  flat_map
    (fun line =>
       match PyStr.split line with
       | node_name :: more =>
           if PyDict.contains node_name d
           then [mkPin node_name (match more with t :: _ => t | [] => "I" end)]
           else []
       | [] => []
       end)
    pin_lines.

(** The nets stored for a list of blocks, after those of [acc]: a block
    with no known pin stores nothing; the others store their known pins
    and the number of them as degree. *)
Definition stored_nets (d : PyDict.t addr) (blocks : list (string * list string))
           (acc : list net) : list net :=
  fold_left
    (fun acc '(header, pin_lines) =>
       match known_pins d pin_lines, net_header_fields header with
       | p :: ps, inr (_, o) =>
           acc ++ [mkNet (net_name_or_default o (List.length acc)) (p :: ps)
                         (List.length (p :: ps))]
       | _, _ => acc
       end)
    blocks acc.

(** The sum of the stored degrees. *)
Definition sum_degrees (l : list net) : nat :=
  fold_right (fun n s => (net_degree n + s)%nat) 0%nat l.

(** Every [NetDegree] line of the file can be read. *)
Definition net_headers_ok (lines : list string) : Prop :=
  Forall (fun b => exists r, net_header_fields (fst b) = inr r)
         (net_blocks lines).

(** A pin line whose node name is not a key of [d]. *)
Definition dangling_pin_line (d : PyDict.t addr) (l : string) : bool :=
  let line := PyStr.strip l in
  negb (nets_ignored line) && negb (PyStr.startswith line "NetDegree")
  && match PyStr.split line with
     | node_name :: _ => negb (PyDict.contains node_name d)
     | [] => false
     end.

(** ** The node records of a nodes file

    The names of the records that the loop of [parse_nodes] declares, in
    file order: the lines after the first count line that are neither
    empty, comments nor count lines and have at least three fields. *)
Fixpoint node_records (lines : list string) (node_start : bool) : list string :=
  match lines with
  | [] => []
  | l :: rest =>
      let line := PyStr.strip l in
      if String.eqb line "" || PyStr.startswith line "#" then
        node_records rest node_start
      else if PyStr.startswith line "NumNodes"
              || PyStr.startswith line "NumTerminals" then
        node_records rest true
      else if node_start then
        match PyStr.split line with
        | node_name :: _ :: _ :: _ => node_name :: node_records rest node_start
        | _ => node_records rest node_start
        end
      else node_records rest node_start
  end.

(** What holds between the records declared so far, [done], and the
    state; [c] is [NumNodes - NumTerminals]: the first [c] records are
    the movable nodes, the others the fixed ones, and the flag of each
    node says so. *)
Definition classified {num : Type} `{Number num}
           (c : Z) (done : list string) (st : Parser num) : Prop :=
  num_modules st - num_terminals st = c
  /\ PyDict.keys (nodes st) = done
  /\ PyDict.keys (movable_nodes st) = firstn (Z.to_nat c) done
  /\ PyDict.keys (fixed_nodes st) = skipn (Z.to_nat c) done
  /\ (forall name a, In (name, a) (PyDict.items (movable_nodes st)) ->
        (a < next_addr st)%nat /\ node_is_fixed (store st a) = false)
  /\ (forall name a, In (name, a) (PyDict.items (fixed_nodes st)) ->
        (a < next_addr st)%nat /\ node_is_fixed (store st a) = true).

(** ** The placement file as the specification words it

    One line per node in the order of [self.nodes] (the order of
    declaration), a fixed node keeping the orientation read from the input
    and carrying [/FIXED], a movable node written with [N]. *)

Section WriterSpec.
Context {num : Type} `{Number num}.




End WriterSpec.

(** ** Concrete designs *)

Module Scenario.

(** Boundary scenario 1: movable cell [a], terminal [t] at (10, 20), one
    two-pin net. *)
Definition nodes_file : list string :=
  ["UCLA nodes 1.0"; "NumNodes : 2"; "NumTerminals : 1";
   "  a 1 1"; "  t 1 1 terminal"].

Definition nets_file : list string :=
  ["UCLA nets 1.0"; "NumNets : 1"; "NumPins : 2";
   "NetDegree : 2 n0"; "  a I : 0 0"; "  t O : 0 0"].

Definition pl_file : list string :=
  ["UCLA pl 1.0"; ""; "a 0 0 : N"; "t 10 20 : N /FIXED"].

Definition parse (nodes_f nets_f pl_f : list string) : Parser Q :=
  parse_pl (Some pl_f) (parse_nets (Some nets_f) (parse_nodes (Some nodes_f) init)).

Definition two_pin : Parser Q :=
  set_core (0, 0)%Q (100, 100)%Q (parse nodes_file nets_file pl_file).

(** An orphan component: two movable cells joined by a net, no fixed
    pin. *)
Definition orphan : Parser Q :=
  set_core (0, 0)%Q (100, 100)%Q
    (parse ["NumNodes : 2"; "NumTerminals : 0"; "a 1 1"; "b 1 1"]
           ["NumNets : 1"; "NumPins : 2"; "NetDegree : 2 n0"; "a I"; "b O"]
           ["UCLA pl 1.0"; "a 0 0 : N"; "b 0 0 : N"]).


Definition solver_at (v : Q) : Externals Q :=
  mkExternals (fun _ b => Some (map (fun _ => v) b)) (fun _ => true)
              "2024-01-01 00:00:00".


(** Scenario 1 with the solver answering 150 for the cell, outside the
    core. *)
Definition placed_outside : Parser Q :=
  fst (solve_quadratic_placement (solver_at 150) two_pin).

(** A net block with a pin on an undeclared node [ghost], and a block
    with no declared node at all. *)
Definition dangling_nets_file : list string :=
  ["UCLA nets 1.0"; "NumNets : 2"; "NumPins : 5";
   "NetDegree : 3 n0"; "  a I"; "  ghost O"; "  t O";
   "NetDegree : 2 n1"; "  ghost I"; "  phantom O"].

Definition after_nodes : Parser Q :=
  parse_nodes (Some nodes_file) init.




(** Two cells and one terminal, the terminal declared last. *)
Definition three_nodes_file : list string :=
  ["UCLA nodes 1.0"; "# two cells, one terminal"; "";
   "NumNodes : 3"; "NumTerminals : 1";
   "  a 4 2"; "  b 6 2"; "  t 1 1 terminal"].

(** The headers in the other order. *)
Definition nodes_file_swapped : list string :=
  ["UCLA nodes 1.0"; "NumTerminals : 1"; "NumNodes : 2";
   "  a 1 1"; "  t 1 1 terminal"].

End Scenario.

(** ** States reached by the program

    The states that a [BookshelfParser] object goes through: the fresh
    object, then any sequence of calls of its methods, on any files and
    with any behaviour of the solver and of the file system.  [set_core]
    stands for the assignment of the core region by [parse_scl]. *)

Inductive reachable {num : Type} `{Number num} : Parser num -> Prop :=
| reach_init : reachable init
| reach_parse_nodes file st :
    reachable st -> reachable (parse_nodes file st)
| reach_parse_nets file st :
    reachable st -> reachable (parse_nets file st)
| reach_parse_pl file st :
    reachable st -> reachable (parse_pl file st)
| reach_set_core ll ur st :
    reachable st -> reachable (set_core ll ur st)
| reach_solve ext st :
    reachable st -> reachable (fst (solve_quadratic_placement ext st))
| reach_legalize st :
    reachable st -> reachable (fst (legalize_placement st))
| reach_write ext output_file st :
    reachable st -> reachable (fst (write_placement_result ext output_file st))
| reach_run ext output_pl_file st :
    reachable st -> reachable (fst (run ext output_pl_file st)).

(** The entries of a dictionary refer to allocated nodes that carry the
    name they are stored under, and no key occurs twice. *)
Definition dict_ok {num : Type} `{Number num}
           (st : Parser num) (d : PyDict.t addr) : Prop :=
  NoDup (PyDict.keys d)
  /\ forall k a, In (k, a) (PyDict.items d) ->
                 (a < next_addr st)%nat /\ node_name (store st a) = k.

(** What the methods keep true of the object. *)
Definition well_formed {num : Type} `{Number num} (st : Parser num) : Prop :=
  dict_ok st (nodes st)
  /\ dict_ok st (fixed_nodes st)
  /\ dict_ok st (movable_nodes st)
  /\ (forall k, PyDict.contains k (movable_nodes st) = true
                \/ PyDict.contains k (fixed_nodes st) = true ->
                PyDict.contains k (nodes st) = true)
  /\ Forall (fun n => net_degree n = List.length (net_pins n)
                      /\ net_pins n <> []
                      /\ Forall (fun p => PyDict.contains (pin_node p) (nodes st)
                                          = true) (net_pins n))
            (nets st).

(** The state in which a [try] body ended, normally or not. *)
Definition state_of (S : Type) (r : result S) : S :=
  match r with
  | Ok s => s
  | Raised s _ => s
  end.

(** From [st] to [st'] no node was freed or renamed. *)
Definition names_kept {num : Type} `{Number num} (st st' : Parser num) : Prop :=
  (next_addr st <= next_addr st')%nat
  /\ forall a, (a < next_addr st)%nat ->
               node_name (store st' a) = node_name (store st a).

(** ** The records of a placement file *)

(** The four fields that the loop of [parse_pl] reads from a line: none
    for an empty line, a comment and a line of fewer than four fields. *)
Definition pl_record (l : string) : option (string * string * string * string) :=
  let line := PyStr.strip l in
  if String.eqb line "" || PyStr.startswith line "#" then None
  else
    match PyStr.split line with
    | node_name :: p1 :: p2 :: orientation :: _ =>
        Some (node_name, p1, p2, orientation)
    | _ => None
    end.

(** The name that a line gives a position to, when it is a record. *)
Definition pl_record_name (l : string) : option string :=
  match pl_record l with
  | Some (node_name, _, _, _) => Some node_name
  | None => None
  end.

(** From [st] to [st'] the node objects, the three dictionaries, the core
    region and the files are the same. *)
Definition same_objects {num : Type} (st st' : Parser num) : Prop :=
  nodes st' = nodes st /\ fixed_nodes st' = fixed_nodes st
  /\ movable_nodes st' = movable_nodes st
  /\ store st' = store st /\ next_addr st' = next_addr st
  /\ core_lower_left st' = core_lower_left st
  /\ core_upper_right st' = core_upper_right st
  /\ disk st' = disk st.

(** ** [print_placement_statistics]: the nodes out of bounds *)



(** ** [parse_scl] *)

Module Scl.

(** What [parse_scl] asks of the numbers beyond [Number]: [is_zero v] is
    [v == 0] and [above_neg_inf v] is [v > float('-inf')]. *)
Class RowNumber (num : Type) `{Number num} : Type := {
  is_zero : num -> bool;
  above_neg_inf : num -> bool
}.

Arguments RowNumber num {_}.

#[global] Instance QRowNumber : RowNumber Q := {
  is_zero := fun v => Qeq_bool v 0;
  above_neg_inf := fun _ => true
}.

Section Rows.
Context {num : Type} `{RowNumber num}.

(** The fields of the object that only [parse_scl] writes.  [site_step]
    is [None] while it is the integer 0 that [__init__] gave it. *)
Record Rows : Type := mkRows {
  row_number : Z;
  row_height : Z;
  site_step : option num;
  core_area : num
}.

Definition init : Rows := mkRows 0 0 None (of_int 0).

(** The four bounds that [parse_scl] keeps while it reads; [None] while a
    bound still is the infinity it starts with.  [min_x], [min_y] and
    [max_y] only ever take integers read from the file. *)
Record bounds : Type := mkBounds {
  min_x : option Z;
  max_x : option num;
  min_y : option Z;
  max_y : option Z
}.

(** [row_info]: the keys ['y'] and ['height'], the only ones read back. *)
Record row_info : Type := mkRowInfo {
  info_y : option Z;
  info_height : option Z
}.

(** [min(m, v)] and [max(m, v)] on integers, [m] starting at an
    infinity: the first argument is kept unless the second is strictly
    beyond it. *)
Definition min_int (m : option Z) (v : Z) : option Z :=
  match m with
  | None => Some v
  | Some m' => if v <? m' then Some v else Some m'
  end.

Definition max_int (m : option Z) (v : Z) : option Z :=
  match m with
  | None => Some v
  | Some m' => if m' <? v then Some v else Some m'
  end.

(** [max(max_x, v)] for a number [v]: a value is stored only when it is
    strictly above the one held, so that it is above minus infinity. *)
Definition max_num (m : option num) (v : num) : option num :=
  match m with
  | None => if above_neg_inf v then Some v else None
  | Some m' => if ltb m' v then Some v else Some m'
  end.

(** [float(row_line.split(':')[1].strip())] *)
Definition colon_float (row_line : string) : exn + num :=
  match PyStr.split_on ":" row_line with
  | _ :: p :: _ =>
      match float_of_string (PyStr.strip p) with
      | Some v => inr v
      | None => inl ValueError
      end
  | _ => inl IndexError
  end.

(** The body of the [SubrowOrigin] branch up to [num_sites]: nothing when
    the line has fewer than three fields between colons, otherwise
    [int(parts[1].strip().split()[0])] and
    [int(parts[2].strip().split()[1])]. *)
Definition subrow (row_line : string) : exn + option (Z * Z) :=
  match PyStr.split_on ":" row_line with
  | _ :: p1 :: p2 :: _ =>
      match nth_error (PyStr.split (PyStr.strip p1)) 0 with
      | None => inl IndexError
      | Some f1 =>
          match PyStr.int f1 with
          | None => inl ValueError
          | Some x_origin =>
              match nth_error (PyStr.split (PyStr.strip p2)) 1 with
              | None => inl IndexError
              | Some f2 =>
                  match PyStr.int f2 with
                  | None => inl ValueError
                  | Some num_sites => inr (Some (x_origin, num_sites))
                  end
              end
          end
      end
  | _ => inr None
  end.

(** [x_origin + num_sites * self.site_step - 1] *)
Definition row_end (x_origin num_sites : Z) (rows : Rows) : num :=
  match site_step rows with
  | None => of_int (x_origin + num_sites * 0 - 1)
  | Some s => sub (add (of_int x_origin) (mul (of_int num_sites) s)) (of_int 1)
  end.

Definition set_row_number (v : Z) (r : Rows) : Rows :=
  mkRows v (row_height r) (site_step r) (core_area r).

Definition set_row_height (v : Z) (r : Rows) : Rows :=
  mkRows (row_number r) v (site_step r) (core_area r).

Definition set_site_step (v : num) (r : Rows) : Rows :=
  mkRows (row_number r) (row_height r) (Some v) (core_area r).

Definition set_core_area (v : num) (r : Rows) : Rows :=
  mkRows (row_number r) (row_height r) (site_step r) v.

(** The [while] loop over the lines that follow a [CoreRow Horizontal]
    line, up to the first line that starts with [End]; every [except]
    clause of its body is [pass]. *)
Fixpoint row_block (lines : list string) (info : row_info) (b : bounds)
         (rows : Rows) : bounds * Rows :=
  match lines with
  | [] => (b, rows)
  | l :: rest =>
      let row_line := PyStr.strip l in
      if PyStr.startswith row_line "End" then (b, rows)
      else if PyStr.startswith row_line "Coordinate" then
        match header_int row_line with
        | inr y_coord =>
            row_block rest (mkRowInfo (Some y_coord) (info_height info))
                      (mkBounds (min_x b) (max_x b)
                                (min_int (min_y b) y_coord) (max_y b))
                      rows
        | inl _ => row_block rest info b rows
        end
      else if PyStr.startswith row_line "Height" then
        match header_int row_line with
        | inr height =>
            row_block rest (mkRowInfo (info_y info) (Some height)) b
                      (if row_height rows =? 0
                       then set_row_height height rows else rows)
        | inl _ => row_block rest info b rows
        end
      else if PyStr.startswith row_line "Sitewidth" then
        match colon_float row_line with
        | inr site_width =>
            row_block rest info b
                      (if match site_step rows with
                          | None => true
                          | Some s => is_zero s
                          end
                       then set_site_step site_width rows else rows)
        | inl _ => row_block rest info b rows
        end
      else if PyStr.startswith row_line "SubrowOrigin" then
        match subrow row_line with
        | inr (Some (x_origin, num_sites)) =>
            let b1 :=
              mkBounds (min_int (min_x b) x_origin)
                       (max_num (max_x b) (row_end x_origin num_sites rows))
                       (min_y b) (max_y b) in
            let b2 :=
              match info_y info, info_height info with
              | Some y, Some h =>
                  mkBounds (min_x b1) (max_x b1) (min_y b1)
                           (max_int (max_y b1) (y + h - 1))
              | _, _ => b1
              end in
            row_block rest info b2 rows
        | _ => row_block rest info b rows
        end
      else row_block rest info b rows
  end.

(** The [for] loop over all lines; at a [CoreRow Horizontal] line the
    block that follows is read, and the loop goes on with the next
    line. *)
Fixpoint scl_lines (lines : list string) (b : bounds) (rows : Rows)
         (st : Parser num) : bounds * Rows * Parser num :=
  match lines with
  | [] => (b, rows, st)
  | l :: rest =>
      let line := PyStr.strip l in
      if PyStr.startswith line "NumRows" then
        match header_int line with
        | inr v => scl_lines rest b (set_row_number v rows) st
        | inl _ =>
            scl_lines rest b rows
                      (print (Msg "Warning: Unable to parse row number") st)
        end
      else if PyStr.startswith line "CoreRow Horizontal" then
        let '(b1, rows1) := row_block rest (mkRowInfo None None) b rows in
        scl_lines rest b1 rows1 st
      else scl_lines rest b rows st
  end.

(** The core region after the loop: the bounds when all four were set,
    the default otherwise. *)
Definition core_of (b : bounds) : (num * num) * (num * num) :=
  match min_x b, min_y b, max_x b, max_y b with
  | Some x0, Some y0, Some x1, Some y1 =>
      ((of_int x0, of_int y0), (x1, of_int y1))
  | _, _, _, _ => ((of_int 0, of_int 0), (of_int 10000, of_int 10000))
  end.

(** [parse_scl]; [file] is the content of [self.scl_file], [None] when
    it cannot be opened. *)
Definition parse_scl (file : option (list string)) (rows : Rows)
           (st : Parser num) : Rows * Parser num :=
  match file with
  | None =>
      (rows, print (MsgExn "Error parsing .scl file: " FileNotFoundError) st)
  | Some lines =>
      let '(b, rows1, st1) :=
        scl_lines lines (mkBounds None None None None) rows st in
      let '(ll, ur) := core_of b in
      let width := add (sub (fst ur) (fst ll)) (of_int 1) in
      let height := add (sub (snd ur) (snd ll)) (of_int 1) in
      (set_core_area (mul width height) rows1, set_core ll ur st1)
  end.

(** A [SubrowOrigin] line as the Bookshelf format writes it,
    [SubrowOrigin : x NumSites : n]: after the second colon there is one
    field at most. *)
Definition count_after_colon (l : string) : Prop :=
  PyStr.startswith (PyStr.strip l) "SubrowOrigin" = true ->
  (List.length
     (PyStr.split (PyStr.strip (nth 2 (PyStr.split_on ":" (PyStr.strip l)) "")))
   <= 1)%nat.

End Rows.

Arguments Rows num : clear implicits.
Arguments bounds num : clear implicits.

(** A rows file of two rows in the usual layout. *)
Definition two_rows : list string :=
  ["UCLA scl 1.0"; ""; "NumRows : 2"; "";
   "CoreRow Horizontal";
   "  Coordinate    :   18";
   "  Height        :   12";
   "  Sitewidth     :    1";
   "  Sitespacing   :    1";
   "  SubrowOrigin  :   18  NumSites  :  100";
   "End";
   "CoreRow Horizontal";
   "  Coordinate    :   30";
   "  Height        :   12";
   "  Sitewidth     :    1";
   "  Sitespacing   :    1";
   "  SubrowOrigin  :   18  NumSites  :  100";
   "End"].

(** The same rows with a second field after the second colon of the
    [SubrowOrigin] lines. *)
Definition two_rows_counted : list string :=
  ["CoreRow Horizontal";
   "  Coordinate : 18"; "  Height : 12"; "  Sitewidth : 1";
   "  SubrowOrigin : 18 NumSites : n 100";
   "End";
   "CoreRow Horizontal";
   "  Coordinate : 30"; "  Height : 12"; "  Sitewidth : 1";
   "  SubrowOrigin : 18 NumSites : n 100";
   "End"].

End Scl.

(** ** [__init__], [parse_aux], [parse_all] and the whole run *)

Module Files.

(** [os.path.basename(p)]: what follows the last slash. *)
Definition basename (p : string) : string :=
  last (PyStr.split_on "/" p) "".

Fixpoint ends_with_slash (s : string) : bool :=
  match s with
  | EmptyString => false
  | String c EmptyString => Ascii.eqb c "/"
  | String _ s' => ends_with_slash s'
  end.

(** [os.path.join(a, b)] *)
Definition join (a b : string) : string :=
  if PyStr.startswith b "/" then b
  else if String.eqb a "" || ends_with_slash a then (a ++ b)%string
  else (a ++ "/" ++ b)%string.

(** The file names that the object holds. *)
Record paths : Type := mkPaths {
  directory : string;
  aux_file : string;
  nodes_file : string;
  nets_file : string;
  pl_file : string;
  scl_file : string;
  wts_file : string
}.

(** The file names that [BookshelfParser.__init__] sets. *)
Definition init_paths (directory : string) : paths :=
  let name ext := join directory (basename directory ++ ext)%string in
  mkPaths directory (name ".aux") (name ".nodes") (name ".nets") (name ".pl")
          (name ".scl") (name ".wts").

(** The files that can be opened for reading, with their lines. *)
Definition file_system : Type := string -> option (list string).

Section Parse.
Context {num : Type} `{Scl.RowNumber num}.

(** [parse_aux]: the first line of the file decides; the five names
    are taken by position. *)
Definition parse_aux (fs : file_system) (p : paths) (st : Parser num)
  : paths * Parser num :=
  let handler e := print (MsgExn "Error parsing .aux file: " e) in
  match fs (aux_file p) with
  | None => (p, handler FileNotFoundError st)
  | Some lines =>
      let line := PyStr.strip (hd "" lines) in
      if Task2.has_substring "RowBasedPlacement" line then
        match PyStr.split_on ":" line with
        | _ :: names :: _ =>
            match PyStr.split (PyStr.strip names) with
            | f0 :: f1 :: f2 :: f3 :: f4 :: _ =>
                (mkPaths (directory p) (aux_file p)
                         (join (directory p) f0) (join (directory p) f1)
                         (join (directory p) f3) (join (directory p) f4)
                         (join (directory p) f2),
                 st)
            | _ => (p, st)
            end
        | _ => (p, handler IndexError st)
        end
      else (p, st)
  end.

(** [parse_all] *)
Definition parse_all (fs : file_system) (p : paths) (rows : Scl.Rows num)
           (st : Parser num) : paths * Scl.Rows num * Parser num :=
  let '(p1, st1) := parse_aux fs p st in
  let st2 := parse_nodes (fs (nodes_file p1)) st1 in
  let st3 := parse_nets (fs (nets_file p1)) st2 in
  let '(rows1, st4) := Scl.parse_scl (fs (scl_file p1)) rows st3 in
  let st5 := parse_pl (fs (pl_file p1)) st4 in
  (p1, rows1, st5).



End Parse.

(** A design directory with the four files of scenario 1, named by its
    [.aux] file. *)
Definition design (path : string) : option (list string) :=
  if String.eqb path "bench/d/d.aux" then
    Some ["RowBasedPlacement : a.nodes a.nets a.wts a.pl a.scl"]
  else if String.eqb path "bench/d/a.nodes" then Some Scenario.nodes_file
  else if String.eqb path "bench/d/a.nets" then Some Scenario.nets_file
  else if String.eqb path "bench/d/a.pl" then Some Scenario.pl_file
  else if String.eqb path "bench/d/a.scl" then Some Scl.two_rows
  else None.

End Files.

(** A field as [split()] yields it: not empty and without blanks. *)
Definition is_token (s : string) : bool :=
  negb (String.eqb s "")
  && forallb (fun c => negb (PyStr.is_space c)) (list_ascii_of_string s).

(** * Properties *)

Local Open Scope nat_scope.

(** ** The clipper *)

Section Clipper.
Context {num : Type} `{Number num}.

Lemma clip_width ll ur (n : node num) : node_width (clip ll ur n) = node_width n.
Proof.
  unfold clip, clip_y, clip_x.
  repeat match goal with |- context [if ?b then _ else _] => destruct b end;
    reflexivity.
Qed.

Lemma clip_height ll ur (n : node num) : node_height (clip ll ur n) = node_height n.
Proof.
  unfold clip, clip_y, clip_x.
  repeat match goal with |- context [if ?b then _ else _] => destruct b end;
    reflexivity.
Qed.

Lemma clip_fits ll ur (n : node num) : fits_core ll ur n -> fits_core ll ur (clip ll ur n).
Proof.
  unfold fits_core, fits_x, fits_y.
  now rewrite clip_width, clip_height.
Qed.

Lemma with_xy_eta (n : node num) : with_xy (node_x n) (node_y n) n = n.
Proof. now destruct n. Qed.





Lemma iter_clip_fits ll ur k (n : node num) :
  fits_core ll ur n -> fits_core ll ur (Nat.iter k (clip ll ur) n).
Proof.
  intros Hf. induction k; cbn; [assumption | now apply clip_fits].
Qed.


Lemma legalize_loop_store ll ur l : forall s a,
  store (legalize_loop ll ur l s) a
  = Nat.iter (visits a l) (clip ll ur) (store s a).
Proof.
  induction l as [|[nm a0] l IH]; intros s a; [reflexivity |].
  change (legalize_loop ll ur ((nm, a0) :: l) s)
    with (legalize_loop ll ur l (update_node a0 (clip ll ur) s)).
  rewrite IH. unfold visits; cbn [map snd count_occ].
  destruct (Nat.eq_dec a0 a) as [->|Hne].
  - fold (visits a l). rewrite Nat.iter_succ_r.
    cbn. unfold store_set. now rewrite Nat.eqb_refl.
  - fold (visits a l). cbn. unfold store_set.
    destruct (Nat.eqb_spec a a0); [congruence | reflexivity].
Qed.



End Clipper.


(** ** The clipper over the rationals *)


Lemma Q_ltb_false (a b : Q) : ltb a b = false <-> (b <= a)%Q.
Proof.
  cbn. unfold QNum.lt_bool. rewrite negb_false_iff. apply Qle_bool_iff.
Qed.

Lemma Q_ltb_true (a b : Q) : ltb a b = true <-> (a < b)%Q.
Proof.
  cbn. unfold QNum.lt_bool. rewrite negb_true_iff.
  split; intros Hlt.
  - apply Qnot_le_lt. intros Hle. apply Qle_bool_iff in Hle. congruence.
  - destruct (Qle_bool b a) eqn:E; [| reflexivity].
    apply Qle_bool_iff in E. exfalso. exact (Qlt_not_le _ _ Hlt E).
Qed.

(** Over the rationals a node fits the core exactly when the interval
    [[min, max - size]] is not empty. *)
Lemma fits_x_Q (min_x max_x : Q) (n : node Q) :
  (min_x <= max_x - inject_Z (node_width n))%Q -> fits_x min_x max_x n.
Proof.
  intros Hle. split; apply Q_ltb_false; cbn; lra.
Qed.

Lemma fits_y_Q (min_y max_y : Q) (n : node Q) :
  (min_y <= max_y - inject_Z (node_height n))%Q -> fits_y min_y max_y n.
Proof.
  intros Hle. split; apply Q_ltb_false; cbn; lra.
Qed.











(** ** The assembled system of scenario 1 *)

(** C1 at its own example.  For the single two-pin net joining the movable
    cell [a] to the terminal [t] at (10, 20), [build_quadratic_matrix]
    appends no triplet: the matrix is the 1x1 zero matrix, not [[1]],
    while [bx = [10]] and [by = [20]]; no position of [a] solves the
    system. *)
Theorem two_pin_net_system :
  let st := Scenario.two_pin in
  let '(A, b_x, b_y) := build_quadratic_matrix st in
  PyDict.items (movable_nodes st) = [("a", 0)]
  /\ PyDict.items (fixed_nodes st) = [("t", 1)]
  /\ (node_x (store st 1%nat) == 10 /\ node_y (store st 1%nat) == 20)%Q
  /\ map net_pins (nets st) = [[mkPin "a" "I"; mkPin "t" "O"]]
  /\ shape A = 1
  /\ triplets A = []
  /\ (entry A 0 0 == 0)%Q
  /\ ~ (entry A 0 0 == 1)%Q
  /\ Forall2 Qeq b_x [10%Q]
  /\ Forall2 Qeq b_y [20%Q]
  /\ forall x : Q, ~ (entry A 0 0 * x == 10)%Q.
Proof.
  vm_compute build_quadratic_matrix. cbn zeta beta iota.
  repeat split; try (vm_compute; discriminate);
    try (repeat constructor; vm_compute; reflexivity).
Qed.

(** ** Failure of the solver *)

Section Solver.
Context {num : Type} `{Number num}.



End Solver.



(** ** Symmetry of the assembled matrix *)

Section Matrix.
Context {num : Type} `{Number num}.



Lemma flat_map_ext_in (A B : Type) (f g : A -> list B) l :
  (forall x, In x l -> f x = g x) -> flat_map f l = flat_map g l.
Proof.
  induction l as [|x l IH]; intros Hext; [reflexivity |].
  cbn. rewrite (Hext x (or_introl eq_refl)), IH; [reflexivity |].
  intros y Hy. apply Hext. now right.
Qed.

Lemma flat_map_nil (A B : Type) (l : list A) :
  flat_map (fun _ : A => @nil B) l = [].
Proof. induction l; [reflexivity | assumption]. Qed.





Variable st : Parser num.

Lemma pair_loop_spec weight i pin_i pins : forall coo,
  pair_loop st weight i (idx st pin_i) pins coo
  = coo ++ pair_triplets st weight i pin_i pins.
Proof.
  unfold pair_loop, pair_triplets.
  induction (enumerate pins) as [|[j pin_j] l IH]; intros coo.
  - cbn. now rewrite app_nil_r.
  - cbn [fold_left flat_map]. rewrite IH.
    destruct (Nat.eqb i j); [reflexivity |].
    fold (mov st pin_j). destruct (mov st pin_j); [| reflexivity].
    now rewrite <- app_assoc.
Qed.

Lemma net_loop_triplets (n : net) coo b_x b_y :
  fst (fst (net_loop st (coo, b_x, b_y) n)) = coo ++ net_triplets st n.
Proof.
  unfold net_loop, net_triplets.
  destruct (List.length (net_pins n) <=? 1); [cbn; now rewrite app_nil_r |].
  destruct (fixed_sums st (net_pins n)) as [[fixed_x fixed_y] fixed_count].
  set (weight := div (of_int 1) (of_int (Z.of_nat (List.length (net_pins n)) - 1))).
  generalize (enumerate (net_pins n)). intros l.
  revert coo b_x b_y.
  induction l as [|[i pin_i] l IH]; intros coo b_x b_y.
  - cbn. now rewrite app_nil_r.
  - cbn [fold_left flat_map]. fold (mov st pin_i).
    destruct (mov st pin_i); cbn [negb].
    + fold (idx st pin_i). rewrite pair_loop_spec.
      destruct (0 <? fixed_count); rewrite IH; now rewrite <- app_assoc.
    + now rewrite IH.
Qed.

Lemma build_triplets :
  triplets (fst (fst (build_quadratic_matrix st)))
  = flat_map (net_triplets st) (nets st).
Proof.
  unfold build_quadratic_matrix.
  set (zeros := repeat (of_int 0) (PyDict.len (movable_nodes st))).
  assert (Hgen : forall l coo b_x b_y,
             fst (fst (fold_left (net_loop st) l (coo, b_x, b_y)))
             = coo ++ flat_map (net_triplets st) l).
  { induction l as [|n l IH]; intros coo b_x b_y.
    - cbn. now rewrite app_nil_r.
    - cbn [fold_left flat_map].
      pose proof (net_loop_triplets n coo b_x b_y) as Hn.
      destruct (net_loop st (coo, b_x, b_y) n) as [[coo' bx'] by'].
      cbn in Hn. subst coo'. rewrite IH. now rewrite <- app_assoc. }
  specialize (Hgen (nets st) [] zeros zeros).
  destruct (fold_left (net_loop st) (nets st) ([], zeros, zeros))
    as [[coo b_x] b_y].
  exact Hgen.
Qed.




End Matrix.


(** ** The nets file *)

Section Nets.
Context {num : Type} `{Number num}.

Lemma save_net_nodes cur pins degs (st : Parser num) :
  nodes (fst (save_net cur pins degs st)) = nodes st.
Proof. unfold save_net. now destruct cur, pins. Qed.

Lemma save_net_stdout cur pins degs (st : Parser num) :
  stdout (fst (save_net cur pins degs st)) = stdout st.
Proof. unfold save_net. now destruct cur, pins. Qed.

Lemma save_net_nets name pins degs (st : Parser num) :
  nets (fst (save_net (Some name) pins degs st))
  = match pins with
    | [] => nets st
    | _ :: _ => nets st ++ [mkNet name pins (List.length pins)]
    end.
Proof. unfold save_net. now destruct pins. Qed.

Lemma nets_header_frame lines : forall (st st1 : Parser num),
  nets_header lines st = Ok st1 ->
  nodes st1 = nodes st /\ nets st1 = nets st /\ stdout st1 = stdout st.
Proof.
  induction lines as [|l lines IH]; intros st st1 Hh; cbn in Hh.
  - now inversion Hh.
  - destruct (PyStr.startswith (PyStr.strip l) "NumNets").
    + destruct (header_int (PyStr.strip l)); [discriminate |].
      apply IH in Hh. exact Hh.
    + destruct (PyStr.startswith (PyStr.strip l) "NumPins").
      * destruct (header_int (PyStr.strip l)); [discriminate |].
        now inversion Hh.
      * now apply IH.
Qed.

(** The count lines are not pin lines: dropping the dangling pin lines
    leaves the header loop as it was. *)
Lemma nets_header_without_dangling d lines : forall st : Parser num,
  nets_header (filter (fun l => negb (dangling_pin_line d l)) lines) st
  = nets_header lines st.
Proof.
  induction lines as [|l lines IH]; intros st; [reflexivity |].
  cbn [filter]. destruct (dangling_pin_line d l) eqn:Ed; cbn [negb].
  - unfold dangling_pin_line, nets_ignored in Ed.
    apply andb_prop in Ed. destruct Ed as [Ed _].
    apply andb_prop in Ed. destruct Ed as [Ed _].
    apply negb_true_iff in Ed. apply orb_false_elim in Ed.
    destruct Ed as [_ Ed]. apply orb_false_elim in Ed.
    destruct Ed as [E1 E2].
    rewrite IH. cbn [nets_header]. now rewrite E1, E2.
  - cbn [nets_header].
    destruct (PyStr.startswith (PyStr.strip l) "NumNets").
    + destruct (header_int (PyStr.strip l)); [reflexivity | apply IH].
    + destruct (PyStr.startswith (PyStr.strip l) "NumPins");
        [reflexivity | apply IH].
Qed.

(** The loop passes over a dangling pin line without any effect. *)
Lemma nets_body_dangling l lines cur pins degs (st : Parser num) :
  dangling_pin_line (nodes st) l = true ->
  nets_body (l :: lines) cur pins degs st = nets_body lines cur pins degs st.
Proof.
  intros Ed. unfold dangling_pin_line, nets_ignored in Ed.
  apply andb_prop in Ed. destruct Ed as [Ed Ek].
  apply andb_prop in Ed. destruct Ed as [Ed En].
  apply negb_true_iff in Ed. apply orb_false_elim in Ed.
  destruct Ed as [E0 E1]. apply negb_true_iff in En.
  cbn [nets_body]. rewrite E0, E1, En.
  destruct (PyStr.split (PyStr.strip l)) as [|node_name more];
    [discriminate |].
  apply negb_true_iff in Ek. now rewrite Ek.
Qed.

Lemma nets_body_without_dangling lines : forall cur pins degs (st : Parser num),
  nets_body (filter (fun l => negb (dangling_pin_line (nodes st) l)) lines)
            cur pins degs st
  = nets_body lines cur pins degs st.
Proof.
  induction lines as [|l lines IH]; intros cur pins degs st; [reflexivity |].
  cbn [filter]. destruct (dangling_pin_line (nodes st) l) eqn:Ed; cbn [negb].
  - rewrite IH. symmetry. now apply nets_body_dangling.
  - cbn [nets_body].
    destruct (String.eqb (PyStr.strip l) "" || PyStr.startswith (PyStr.strip l) "#");
      [apply IH |].
    destruct (PyStr.startswith (PyStr.strip l) "NumNets"
              || PyStr.startswith (PyStr.strip l) "NumPins"); [apply IH |].
    destruct (PyStr.startswith (PyStr.strip l) "NetDegree").
    + pose proof (save_net_nodes cur pins degs st) as Hn.
      destruct (save_net cur pins degs st) as [st1 degs1]. cbn in Hn.
      destruct (net_header (PyStr.strip l) st1) as [e | [dg nm]];
        [reflexivity |].
      rewrite <- Hn. apply IH.
    + destruct (PyStr.split (PyStr.strip l)) as [|node_name more]; [apply IH |].
      destruct (PyDict.contains node_name (nodes st)); apply IH.
Qed.

End Nets.

(** C5 (as amended).  A pin line that names a node absent from the design
    is dropped silently: [parse_nets] leaves exactly the state it leaves
    for the file without those lines, so such a line raises nothing and
    prints nothing. *)
Theorem dangling_pins_are_dropped
        {num : Type} `{Number num} (lines : list string) (st : Parser num) :
  parse_nets (Some lines) st
  = parse_nets
      (Some (filter (fun l => negb (dangling_pin_line (nodes st) l)) lines)) st.
Proof.
  unfold parse_nets. rewrite nets_header_without_dangling.
  destruct (nets_header lines st) as [st1 | st1 e] eqn:Eh; [| reflexivity].
  destruct (nets_header_frame _ _ Eh) as (Hn & _ & _).
  rewrite <- Hn. now rewrite nets_body_without_dangling.
Qed.

(** C5, the claim as stated, fails: the second pin line of the block [n0]
    names [ghost], which the design does not declare, and the line is a
    dangling pin line; yet [parse_nets] prints no error and stores the net
    with its two declared pins. *)
Lemma dangling_pin_is_not_fatal :
  let st := Scenario.after_nodes in
  let st' := parse_nets (Some Scenario.dangling_nets_file) st in
  PyDict.keys (nodes st) = ["a"; "t"]
  /\ nth_error Scenario.dangling_nets_file 5 = Some "  ghost O"
  /\ dangling_pin_line (nodes st) "  ghost O" = true
  /\ stdout st' = []
  /\ nets st' = [mkNet "n0" [mkPin "a" "I"; mkPin "t" "O"] 2].
Proof. vm_compute. repeat split. Qed.

Section NetBlocks.
Context {num : Type} `{Number num}.

Lemma known_pins_cons d line lines :
  known_pins d (line :: lines)
  = match PyStr.split line with
    | node_name :: more =>
        if PyDict.contains node_name d
        then [mkPin node_name (match more with t :: _ => t | [] => "I" end)]
        else []
    | [] => []
    end ++ known_pins d lines.
Proof. reflexivity. Qed.

Lemma stored_nets_cons d hd pl blocks acc :
  stored_nets d ((hd, pl) :: blocks) acc
  = stored_nets d blocks
      match known_pins d pl, net_header_fields hd with
      | p :: ps, inr (_, o) =>
          acc ++ [mkNet (net_name_or_default o (List.length acc)) (p :: ps)
                        (List.length (p :: ps))]
      | _, _ => acc
      end.
Proof. reflexivity. Qed.

Lemma net_headers_ok_tail l lines :
  net_headers_ok (l :: lines) -> net_headers_ok lines.
Proof.
  unfold net_headers_ok. cbn [net_blocks].
  destruct (nets_ignored (PyStr.strip l)); [trivial |].
  destruct (PyStr.startswith (PyStr.strip l) "NetDegree"); [| trivial].
  intros Hok. now inversion Hok.
Qed.

(** The loop and the blocks agree: with [pins] the known pins read so
    far in the open block, the nets stored once the last block is saved
    are those of the remaining blocks, after the nets of the open block
    completed by its remaining pin lines. *)
Lemma nets_body_blocks lines : forall cur pins degs (st : Parser num),
  net_headers_ok lines ->
  exists st' cur' pins' degs',
    nets_body lines cur pins degs st = Ok (st', (cur', pins', degs'))
    /\ nodes st' = nodes st
    /\ stdout st' = stdout st
    /\ nets (fst (save_net cur' pins' degs' st'))
       = stored_nets (nodes st) (net_blocks lines)
           (nets (fst (save_net cur
                                (pins ++ known_pins (nodes st) (block_pins lines))
                                degs st))).
Proof.
  induction lines as [|l lines IH]; intros cur pins degs st Hok.
  - exists st, cur, pins, degs. cbn. now rewrite app_nil_r.
  - pose proof (net_headers_ok_tail Hok) as Hok'.
    cbn [nets_body net_blocks block_pins]. unfold nets_ignored.
    destruct (String.eqb (PyStr.strip l) "" || PyStr.startswith (PyStr.strip l) "#")
      eqn:E0; cbn [orb]; [now apply IH |].
    destruct (PyStr.startswith (PyStr.strip l) "NumNets"
              || PyStr.startswith (PyStr.strip l) "NumPins") eqn:E1;
      [now apply IH |].
    destruct (PyStr.startswith (PyStr.strip l) "NetDegree") eqn:E2.
    + (* a header: the open block is saved and the next one opened *)
      assert (Hhd : exists r, net_header_fields (PyStr.strip l) = inr r).
      { unfold net_headers_ok in Hok. cbn [net_blocks] in Hok.
        unfold nets_ignored in Hok. rewrite E0, E1, E2 in Hok.
        now inversion Hok. }
      destruct Hhd as [[dg o] Hhd].
      cbn [known_pins flat_map]. rewrite app_nil_r.
      pose proof (save_net_nodes cur pins degs st) as Hn.
      pose proof (save_net_stdout cur pins degs st) as Hs.
      destruct (save_net cur pins degs st) as [st1 degs1]. cbn [fst] in *.
      unfold net_header. rewrite Hhd.
      destruct (IH (Some (net_name_or_default o (List.length (nets st1))))
                   [] degs1 st1 Hok')
        as (st' & cur' & pins' & degs' & Hb & Hn' & Hs' & Hnets).
      exists st', cur', pins', degs'.
      split; [exact Hb |]. split; [congruence |]. split; [congruence |].
      rewrite Hnets, Hn. cbn [app].
      rewrite save_net_nets.
      unfold stored_nets at 2. cbn [fold_left]. rewrite Hhd.
      fold (stored_nets (nodes st) (net_blocks lines)).
      now destruct (known_pins (nodes st) (block_pins lines)).
    + (* a pin line *)
      rewrite known_pins_cons.
      destruct (PyStr.split (PyStr.strip l)) as [|node_name more].
      * now apply IH.
      * destruct (PyDict.contains node_name (nodes st)).
        -- destruct (IH cur
                        (pins ++ [mkPin node_name
                                        match more with t :: _ => t | [] => "I" end])
                        degs st Hok')
             as (st' & cur' & pins' & degs' & Hb & Hn' & Hs' & Hnets).
           exists st', cur', pins', degs'.
           repeat (split; [assumption |]).
           rewrite Hnets. now rewrite <- app_assoc.
        -- now apply IH.
Qed.

Lemma set_max_net_degree_nets v (st : Parser num) :
  nets (set_max_net_degree v st) = nets st.
Proof. reflexivity. Qed.

Lemma parse_nets_stored lines (st st1 : Parser num) :
  nets_header lines st = Ok st1 ->
  net_headers_ok lines ->
  nets (parse_nets (Some lines) st)
  = stored_nets (nodes st) (net_blocks lines) (nets st)
  /\ stdout (parse_nets (Some lines) st) = stdout st.
Proof.
  intros Hh Hok. unfold parse_nets. rewrite Hh.
  destruct (nets_header_frame _ _ Hh) as (Hn1 & Hnets1 & Hs1).
  destruct (nets_body_blocks None [] [] st1 Hok)
    as (st' & cur' & pins' & degs' & Hb & Hn' & Hs' & Hnets).
  rewrite Hb.
  pose proof (save_net_stdout cur' pins' degs' st') as Hs''.
  destruct (save_net cur' pins' degs' st') as [st3 degs]. cbn [fst] in *.
  assert (Hgoal : nets st3 = stored_nets (nodes st) (net_blocks lines) (nets st)
                  /\ stdout st3 = stdout st).
  { split; [| congruence]. rewrite Hnets. unfold save_net. cbn [fst].
    now rewrite Hn1, Hnets1. }
  destruct degs; exact Hgoal.
Qed.

End NetBlocks.

(** C10.  For a nets file whose count lines and [NetDegree] lines can be
    read, the nets that [parse_nets] adds are those of [stored_nets]: one
    net for each block that has a pin line naming a declared node, with
    those pins only and their number as degree (the declared degree is
    read and dropped), and nothing for a block without such a line.  So
    there are files for which fewer nets than [NumNets] are stored and
    the stored degrees sum to less than [NumPins], without any error. *)
Theorem stored_degree_counts_known_pins
        {num : Type} `{Number num} (lines : list string) (st st1 : Parser num) :
  nets_header lines st = Ok st1 ->
  net_headers_ok lines ->
  nets (parse_nets (Some lines) st)
  = stored_nets (nodes st) (net_blocks lines) (nets st)
  /\ Forall (fun n => net_degree n = List.length (net_pins n)
                      /\ net_pins n <> []
                      /\ Forall (fun p => PyDict.contains (pin_node p) (nodes st)
                                          = true) (net_pins n))
            (skipn (List.length (nets st)) (nets (parse_nets (Some lines) st)))
  /\ exists (lines0 : list string) (st0 : Parser num),
       let st' := parse_nets (Some lines0) st0 in
       stdout st' = stdout st0
       /\ (Z.of_nat (List.length (nets st')) < num_nets st')%Z
       /\ (Z.of_nat (sum_degrees (nets st')) < num_pins st')%Z.
Proof.
  intros Hh Hok.
  destruct (parse_nets_stored _ Hh Hok) as [Hnets _].
  split; [exact Hnets |]. split.
  - rewrite Hnets. clear Hnets Hh Hok st1.
    assert (Hgen : forall blocks acc,
               exists added,
                 stored_nets (nodes st) blocks acc = acc ++ added
                 /\ Forall (fun n => net_degree n = List.length (net_pins n)
                                     /\ net_pins n <> []
                                     /\ Forall (fun p => PyDict.contains
                                                           (pin_node p) (nodes st)
                                                         = true) (net_pins n))
                           added).
    { induction blocks as [|[hd pl] blocks IH]; intros acc.
      - exists []. cbn. now rewrite app_nil_r.
      - rewrite stored_nets_cons.
        destruct (known_pins (nodes st) pl) as [|p ps] eqn:Ek; [apply IH |].
        destruct (net_header_fields hd) as [e | [dg o]]; [apply IH |].
        destruct (IH (acc ++ [mkNet (net_name_or_default o (List.length acc))
                                    (p :: ps) (List.length (p :: ps))]))
          as (added & Heq & Hall).
        eexists. split; [rewrite Heq, <- app_assoc; reflexivity |].
        constructor; [| exact Hall]. cbn [net_degree net_pins].
        split; [reflexivity |]. split; [discriminate |].
        rewrite <- Ek. clear. unfold known_pins.
        apply Forall_forall. intros q Hq. apply in_flat_map in Hq.
        destruct Hq as (line & _ & Hq).
        destruct (PyStr.split line) as [|node_name more]; [destruct Hq |].
        destruct (PyDict.contains node_name (nodes st)) eqn:Ec; [| destruct Hq].
        destruct Hq as [<- | []]. exact Ec. }
    destruct (Hgen (net_blocks lines) (nets st)) as (added & -> & Hall).
    rewrite skipn_app, Nat.sub_diag, skipn_all. exact Hall.
  - exists Scenario.dangling_nets_file,
           (parse_nodes (Some Scenario.nodes_file) init).
    vm_compute. repeat split.
Qed.

Lemma stored_degree_counts_known_pins_witness :
  let lines := Scenario.dangling_nets_file in
  let st := Scenario.after_nodes in
  nets_header lines st = Ok (set_num_pins 5 (set_num_nets 2 st))
  /\ net_headers_ok lines
  /\ net_blocks lines
     = [("NetDegree : 3 n0", ["a I"; "ghost O"; "t O"]);
        ("NetDegree : 2 n1", ["ghost I"; "phantom O"])]
  /\ nets (parse_nets (Some lines) st)
     = stored_nets (nodes st) (net_blocks lines) (nets st)
  /\ nets (parse_nets (Some lines) st)
     = [mkNet "n0" [mkPin "a" "I"; mkPin "t" "O"] 2].
Proof.
  cbn zeta.
  assert (Hh : nets_header Scenario.dangling_nets_file Scenario.after_nodes
               = Ok (set_num_pins 5 (set_num_nets 2 Scenario.after_nodes)))
    by reflexivity.
  assert (Hok : net_headers_ok Scenario.dangling_nets_file).
  { unfold net_headers_ok.
    repeat (constructor; [eexists; vm_compute; reflexivity |]).
    constructor. }
  split; [exact Hh |]. split; [exact Hok |]. split; [reflexivity |].
  split; [| reflexivity].
  exact (proj1 (@stored_degree_counts_known_pins
                  Q QNumber Scenario.dangling_nets_file Scenario.after_nodes
                  _ Hh Hok)).
Defined.

(** ** Dictionaries *)

Section DictFacts.
Variable V : Type.

Lemma get_set_same k (v : V) d : PyDict.get k (PyDict.set k v d) = Some v.
Proof.
  induction d as [|[k' v'] d IH]; cbn.
  - now rewrite String.eqb_refl.
  - destruct (String.eqb k k') eqn:E; cbn; now rewrite E.
Qed.

Lemma get_set_other k k' (v : V) d :
  k <> k' -> PyDict.get k (PyDict.set k' v d) = PyDict.get k d.
Proof.
  intros Hne. induction d as [|[k0 v0] d IH]; cbn.
  - destruct (String.eqb_spec k k'); [contradiction | reflexivity].
  - destruct (String.eqb_spec k' k0) as [-> | Hk]; cbn.
    + destruct (String.eqb_spec k k0); [contradiction | reflexivity].
    + destruct (String.eqb k k0); [reflexivity | exact IH].
Qed.

Lemma contains_set k k' (v : V) d :
  PyDict.contains k (PyDict.set k' v d)
  = String.eqb k k' || PyDict.contains k d.
Proof.
  unfold PyDict.contains.
  destruct (String.eqb_spec k k') as [-> | Hne].
  - now rewrite get_set_same.
  - now rewrite get_set_other.
Qed.


Lemma contains_get k d :
  PyDict.contains k d = true -> exists v : V, PyDict.get k d = Some v.
Proof.
  unfold PyDict.contains. destruct (PyDict.get k d); [eauto | discriminate].
Qed.

End DictFacts.

(** ** The placement file: reading *)

Section Placement.
Context {num : Type} `{Number num}.

(** [place_node] changes neither [self.nodes] nor [self.movable_nodes],
    and takes no key out of [self.fixed_nodes]. *)
Lemma place_node_frame node_name vx vy o (st : Parser num) :
  nodes (place_node node_name vx vy o st) = nodes st
  /\ movable_nodes (place_node node_name vx vy o st) = movable_nodes st
  /\ stdout (place_node node_name vx vy o st) = stdout st
  /\ forall k, PyDict.contains k (fixed_nodes st) = true ->
               PyDict.contains k (fixed_nodes (place_node node_name vx vy o st))
               = true.
Proof.
  unfold place_node.
  destruct (PyDict.get node_name (nodes st)) as [a |]; [| tauto].
  cbn [update_node set_store fixed_nodes].
  destruct (String.eqb o "F" || PyDict.contains node_name (fixed_nodes st));
    cbn; repeat split; try tauto.
  intros k Hk. rewrite contains_set, Hk. apply orb_true_r.
Qed.


Lemma pl_body_frame lines : forall (st st' : Parser num),
  pl_body lines st = Ok st' ->
  nodes st' = nodes st
  /\ movable_nodes st' = movable_nodes st
  /\ stdout st' = stdout st
  /\ forall k, PyDict.contains k (fixed_nodes st) = true ->
               PyDict.contains k (fixed_nodes st') = true.
Proof.
  induction lines as [|l lines IH]; intros st st' Hb; cbn in Hb.
  - inversion Hb; subst. tauto.
  - destruct (String.eqb (PyStr.strip l) "" || PyStr.startswith (PyStr.strip l) "#");
      [now apply IH |].
    destruct (PyStr.split (PyStr.strip l)) as [|nm [|p1 [|p2 [|o rest]]]];
      try (now apply IH).
    destruct (float_of_string p1) as [vx |]; [| discriminate].
    destruct (float_of_string p2) as [vy |]; [| discriminate].
    apply IH in Hb. destruct Hb as (Hn & Hm & Hs & Hf).
    destruct (place_node_frame nm vx vy o st) as (Hn' & Hm' & Hs' & Hf').
    repeat split; try congruence. intros k Hk. apply Hf, Hf', Hk.
Qed.


(** ** The placement file: writing *)




End Placement.






(** ** The nodes file *)

Section Nodes.
Context {num : Type} `{Number num}.

Lemma set_new (V : Type) k (v : V) d :
  ~ In k (PyDict.keys d) -> PyDict.set k v d = d ++ [(k, v)].
Proof.
  induction d as [|[k' v'] d IH]; intros Hn; [reflexivity |].
  cbn in Hn |- *.
  destruct (String.eqb_spec k k') as [-> | Hne]; [tauto |].
  rewrite IH; [reflexivity | tauto].
Qed.

Lemma store_set_old (s : addr -> node num) a n a' :
  a' < a -> store_set a n s a' = s a'.
Proof.
  intros Hlt. unfold store_set.
  destruct (Nat.eqb_spec a' a); [lia | reflexivity].
Qed.

Lemma store_set_new (s : addr -> node num) a n : store_set a n s a = n.
Proof. unfold store_set. now rewrite Nat.eqb_refl. Qed.

(** Entries that were classified stay so when a node is allocated at
    [next_addr]. *)
Lemma flags_kept (d : PyDict.t addr) (s : addr -> node num) nx n b :
  (forall name a, In (name, a) d -> a < nx /\ node_is_fixed (s a) = b) ->
  forall name a, In (name, a) d ->
    a < S nx /\ node_is_fixed (store_set nx n s a) = b.
Proof.
  intros Hd name a Hin. destruct (Hd name a Hin) as [Hlt Hfl].
  split; [lia |]. now rewrite store_set_old.
Qed.

Lemma flags_added (d : PyDict.t addr) (s : addr -> node num) nx n nm b :
  node_is_fixed n = b ->
  (forall name a, In (name, a) d -> a < nx /\ node_is_fixed (s a) = b) ->
  forall name a, In (name, a) (d ++ [(nm, nx)]) ->
    a < S nx /\ node_is_fixed (store_set nx n s a) = b.
Proof.
  intros Hn Hd name a Hin. apply in_app_or in Hin.
  destruct Hin as [Hin | [Heq | []]].
  - now apply (flags_kept d s n Hd name).
  - inversion Heq; subst. split; [lia |]. now rewrite store_set_new.
Qed.

Lemma declare_node_classified c done name w h (st : Parser num) :
  classified c done st -> ~ In name done ->
  classified c (done ++ [name]) (declare_node name w h st).
Proof.
  intros (Hc & Hn & Hm & Hf & Hmf & Hff) Hnew.
  assert (Hlen : PyDict.len (nodes st) = List.length done).
  { unfold PyDict.len. rewrite <- Hn. unfold PyDict.keys.
    now rewrite length_map. }
  assert (Hnn : ~ In name (PyDict.keys (nodes st))) by now rewrite Hn.
  assert (Hnm : ~ In name (PyDict.keys (movable_nodes st))).
  { rewrite Hm. intros Hi. apply Hnew.
    rewrite <- (firstn_skipn (Z.to_nat c) done). apply in_or_app. now left. }
  assert (Hnf : ~ In name (PyDict.keys (fixed_nodes st))).
  { rewrite Hf. intros Hi. apply Hnew.
    rewrite <- (firstn_skipn (Z.to_nat c) done). apply in_or_app. now right. }
  unfold declare_node. rewrite Hlen, Hc.
  destruct (Z.of_nat (List.length done) >=? c)%Z eqn:Eg.
  - (* at or past the movable prefix: fixed *)
    assert (Hk : Z.to_nat c <= List.length done) by lia.
    unfold classified. cbn.
    rewrite !set_new by assumption.
    unfold PyDict.keys in *. rewrite !map_app, Hn, Hm, Hf. cbn [map fst].
    rewrite firstn_app, skipn_app.
    replace (Z.to_nat c - List.length done) with 0 by lia. cbn [firstn skipn].
    rewrite app_nil_r.
    split; [exact Hc |]. split; [reflexivity |]. split; [reflexivity |].
    split; [reflexivity |]. split.
    + now apply flags_kept.
    + now apply flags_added.
  - (* inside the movable prefix: movable *)
    assert (Hk : List.length done < Z.to_nat c) by lia.
    unfold classified. cbn.
    rewrite !set_new by assumption.
    unfold PyDict.keys in *. rewrite !map_app, Hn, Hm, Hf. cbn [map fst].
    rewrite firstn_app, skipn_app.
    replace (Z.to_nat c - List.length done)
      with (S (Z.to_nat c - List.length done - 1)) by lia.
    cbn [firstn skipn]. rewrite firstn_nil, skipn_nil, app_nil_r.
    split; [exact Hc |]. split; [reflexivity |]. split; [reflexivity |].
    split; [reflexivity |]. split.
    + now apply flags_added.
    + now apply flags_kept.
Qed.

Lemma nodes_header_frame lines : forall (st st1 : Parser num),
  nodes_header lines st = Ok st1 ->
  nodes st1 = nodes st /\ movable_nodes st1 = movable_nodes st
  /\ fixed_nodes st1 = fixed_nodes st /\ store st1 = store st
  /\ next_addr st1 = next_addr st.
Proof.
  induction lines as [|l lines IH]; intros st st1 Hh; cbn in Hh.
  - inversion Hh; subst. tauto.
  - destruct (PyStr.startswith (PyStr.strip l) "NumNodes").
    + destruct (header_int (PyStr.strip l)); [discriminate |].
      apply IH in Hh. exact Hh.
    + destruct (PyStr.startswith (PyStr.strip l) "NumTerminals").
      * destruct (header_int (PyStr.strip l)); [discriminate |].
        inversion Hh; subst. cbn. tauto.
      * now apply IH.
Qed.

(** The loop over the records keeps the classification: each record is
    declared after those before it. *)
Lemma nodes_body_classified c lines :
  forall node_start done (st st3 : Parser num),
  classified c done st ->
  nodes_body lines node_start st = Ok st3 ->
  NoDup (done ++ node_records lines node_start) ->
  classified c (done ++ node_records lines node_start) st3.
Proof.
  induction lines as [|l lines IH]; intros node_start done st st3 Hcl Hb Hnd.
  - cbn in Hb |- *. inversion Hb; subst. now rewrite app_nil_r.
  - cbn [nodes_body node_records] in Hb, Hnd |- *.
    destruct (String.eqb (PyStr.strip l) "" || PyStr.startswith (PyStr.strip l) "#");
      [now eapply IH; eauto |].
    destruct (PyStr.startswith (PyStr.strip l) "NumNodes"
              || PyStr.startswith (PyStr.strip l) "NumTerminals");
      [now eapply IH; eauto |].
    destruct node_start; [| now eapply IH; eauto].
    destruct (PyStr.split (PyStr.strip l)) as [|name [|p1 [|p2 more]]];
      try (now eapply IH; eauto).
    destruct (PyStr.int p1) as [w |]; [| discriminate].
    destruct (PyStr.int p2) as [h |]; [| discriminate].
    assert (Hnew : ~ In name done).
    { intros Hi. apply NoDup_remove_2 in Hnd. apply Hnd.
      apply in_or_app. now left. }
    replace (done ++ name :: node_records lines true)
      with ((done ++ [name]) ++ node_records lines true) in Hnd |- *
      by now rewrite <- app_assoc.
    eapply IH; [| exact Hb | exact Hnd].
    now apply declare_node_classified.
Qed.

End Nodes.

(** The newer parser on a well-formed file.  When the count lines are
    read ([NumNodes] before [NumTerminals]), no record raises and the
    declared names are distinct, [parse_nodes] classifies the first
    [NumNodes - NumTerminals] records as movable and all later ones as
    fixed, with [is_fixed] set accordingly; when the file declares
    [NumNodes] records, exactly [NumTerminals] of them are fixed. *)
Lemma parse_nodes_classifies_by_position
      {num : Type} `{Number num} (lines : list string) (st1 st3 : Parser num) :
  nodes_header lines init = Ok st1 ->
  nodes_body lines false
             (set_num_nodes (num_modules st1 - num_terminals st1) st1) = Ok st3 ->
  NoDup (node_records lines false) ->
  parse_nodes (Some lines) init = st3
  /\ classified (num_modules st1 - num_terminals st1)
                (node_records lines false) st3
  /\ (Z.of_nat (List.length (node_records lines false)) = num_modules st1 ->
      (0 <= num_terminals st1 <= num_modules st1)%Z ->
      Z.of_nat (PyDict.len (fixed_nodes st3)) = num_terminals st1).
Proof.
  intros Hh Hb Hnd.
  split; [unfold parse_nodes; now rewrite Hh, Hb |].
  destruct (nodes_header_frame _ _ Hh) as (Hn & Hm & Hf & Hs & Hx).
  assert (Hcl : classified (num_modules st1 - num_terminals st1)
                           (node_records lines false) st3).
  { change (node_records lines false) with ([] ++ node_records lines false).
    eapply nodes_body_classified; [| exact Hb | exact Hnd].
    unfold classified. cbn. rewrite Hn, Hm, Hf. cbn.
    rewrite firstn_nil, skipn_nil.
    repeat split; try reflexivity; contradiction. }
  split; [exact Hcl |].
  intros Hcount Hrange.
  destruct Hcl as (_ & _ & _ & Hfk & _).
  unfold PyDict.len. unfold PyDict.keys in Hfk.
  rewrite <- (length_map fst), Hfk, length_skipn. lia.
Qed.

Lemma parse_nodes_classifies_by_position_witness :
  let lines := Scenario.three_nodes_file in
  let st3 : Parser Q := parse_nodes (Some lines) init in
  NoDup (node_records lines false)
  /\ node_records lines false = ["a"; "b"; "t"]
  /\ classified 2 ["a"; "b"; "t"] st3
  /\ PyDict.keys (movable_nodes st3) = ["a"; "b"]
  /\ PyDict.keys (fixed_nodes st3) = ["t"].
Proof.
  cbn zeta.
  set (st1 := set_num_terminals 1 (set_num_modules 3 (init (num := Q)))).
  assert (Hh : nodes_header Scenario.three_nodes_file init = Ok st1)
    by (vm_compute; reflexivity).
  assert (Hb : nodes_body Scenario.three_nodes_file false
                 (set_num_nodes (num_modules st1 - num_terminals st1) st1)
               = Ok (parse_nodes (Some Scenario.three_nodes_file) init))
    by (vm_compute; reflexivity).
  assert (Hrec : node_records Scenario.three_nodes_file false = ["a"; "b"; "t"])
    by (vm_compute; reflexivity).
  assert (Hnd : NoDup (node_records Scenario.three_nodes_file false)).
  { rewrite Hrec. repeat constructor; cbn; intuition discriminate. }
  destruct (@parse_nodes_classifies_by_position
              Q QNumber Scenario.three_nodes_file st1 _ Hh Hb Hnd)
    as (_ & Hcl & _).
  split; [exact Hnd |]. split; [exact Hrec |].
  split; [rewrite Hrec in Hcl; exact Hcl |].
  split; vm_compute; reflexivity.
Defined.

(** C6 on the older parser.  For a file that declares the cells [a] and
    [b] and then the terminal [t] ([NumNodes : 3], [NumTerminals : 1]),
    [parse_nodes_file] marks the first declaration, [a], as the terminal
    and leaves [b] and [t] unmarked, whereas [parse_nodes] on the same
    file makes [a] and [b] movable and the last declaration, [t], the
    fixed node. *)
Theorem older_parser_marks_first_declarations :
  let lines := Scenario.three_nodes_file in
  let st : Parser Q := parse_nodes (Some lines) init in
  node_records lines false = ["a"; "b"; "t"]
  /\ option_map
       (fun p => (Task2.total_nodes p, Task2.terminal_nodes p,
                  map (fun e => (fst e, Task2.is_terminal (snd e)))
                      (Task2.nodes_info p)))
       (Task2.parse_nodes_file lines Task2.init)
     = Some (3%Z, 1%Z, [("a", true); ("b", false); ("t", false)])
  /\ (num_modules st, num_terminals st) = (3%Z, 1%Z)
  /\ PyDict.items (movable_nodes st) = [("a", 0); ("b", 1)]
  /\ PyDict.items (fixed_nodes st) = [("t", 2)]
  /\ map (fun a => node_is_fixed (store st a)) [0; 1; 2] = [false; false; true].
Proof. vm_compute. repeat split. Qed.

(** ** The index of a movable node *)

Section Index.
Context {num : Type} `{Number num}.

Lemma contains_in_keys (V : Type) k (d : PyDict.t V) :
  PyDict.contains k d = true -> In k (PyDict.keys d).
Proof.
  unfold PyDict.contains.
  induction d as [|[k' v] d IH]; cbn; [discriminate |].
  destruct (String.eqb_spec k k') as [-> | Hne]; [now left |].
  intros Hc. right. now apply IH.
Qed.

Lemma enumerate_names (l : list string) s :
  map snd (combine (seq s (List.length l)) l) = l.
Proof.
  revert s. induction l as [|x l IH]; intros s; [reflexivity |].
  cbn. now rewrite IH.
Qed.

Lemma index_dict_contains (l : list (nat * string)) : forall d k,
  PyDict.contains k d = true \/ In k (map snd l) ->
  PyDict.contains k (fold_left (fun d '(i, nm) => PyDict.set nm i d) l d)
  = true.
Proof.
  induction l as [|[i nm] l IH]; intros d k Hk; cbn.
  - destruct Hk as [Hk | []]. exact Hk.
  - apply IH. rewrite contains_set.
    destruct Hk as [Hk | [Hk | Hk]].
    + left. rewrite Hk. apply orb_true_r.
    + left. cbn in Hk. subst. now rewrite String.eqb_refl.
    + now right.
Qed.

(** Every key of [self.movable_nodes] is a key of [node_to_idx]: the
    lookups of [build_quadratic_matrix] cannot raise. *)
Lemma node_to_idx_defined (st : Parser num) k :
  PyDict.contains k (movable_nodes st) = true ->
  exists i, PyDict.get k (node_to_idx st) = Some i.
Proof.
  intros Hk. apply contains_get. unfold node_to_idx.
  apply index_dict_contains. right. unfold enumerate.
  rewrite enumerate_names. now apply contains_in_keys.
Qed.

End Index.

(** ** The rows of the assembled matrix *)

Lemma row_values_app (i : nat) (coo1 coo2 : list (nat * nat * Q)) :
  row_values i (coo1 ++ coo2) = row_values i coo1 ++ row_values i coo2.
Proof. unfold row_values. now rewrite filter_app, map_app. Qed.

Lemma sum_app (l1 l2 : list Q) :
  (fold_right Qplus 0 (l1 ++ l2)
   == fold_right Qplus 0 l1 + fold_right Qplus 0 l2)%Q.
Proof.
  induction l1 as [|v l1 IH]; cbn; [lra |]. rewrite IH. lra.
Qed.

Lemma row_sum_flat_map (A : Type) (f : A -> list (nat * nat * Q)) i l :
  (forall x, In x l -> (fold_right Qplus 0 (row_values i (f x)) == 0)%Q) ->
  (fold_right Qplus 0 (row_values i (flat_map f l)) == 0)%Q.
Proof.
  induction l as [|x l IH]; intros Hz; [reflexivity |].
  cbn [flat_map]. rewrite row_values_app, sum_app.
  rewrite (Hz x (or_introl eq_refl)), IH; [lra |].
  intros y Hy. apply Hz. now right.
Qed.

(** Whatever the design, the values that [build_quadratic_matrix] puts
    in a row cancel: each [weight] on the diagonal comes with a
    [-weight] in the same row and nothing is added for a fixed
    neighbour.  The matrix therefore maps the all-ones vector to zero
    and is singular as soon as there is a movable node. *)
Lemma assembled_matrix_rows_sum_to_zero (st : Parser Q) (i : nat) :
  (fold_right Qplus 0
     (row_values i (triplets (fst (fst (build_quadratic_matrix st))))) == 0)%Q.
Proof.
  rewrite build_triplets. apply row_sum_flat_map. intros n _.
  unfold net_triplets.
  destruct (List.length (net_pins n) <=? 1); [reflexivity |].
  apply row_sum_flat_map. intros [k pin_k] _.
  destruct (mov st pin_k); [| reflexivity].
  unfold pair_triplets. apply row_sum_flat_map. intros [j pin_j] _.
  destruct (Nat.eqb k j); [reflexivity |].
  destruct (mov st pin_j); [| reflexivity].
  unfold row_values. cbn [filter fst snd].
  destruct (Nat.eqb (idx st pin_k) i); cbn; [| reflexivity].
  lra.
Qed.

(** ** What every reachable state satisfies *)

Section DictMore.
Variable V : Type.

Lemma in_set k (v : V) d k' v' :
  In (k', v') (PyDict.set k v d) -> (k' = k /\ v' = v) \/ In (k', v') d.
Proof.
  induction d as [|[k0 v0] d IH]; cbn.
  - intros [[= <- <-] | []]. now left.
  - destruct (String.eqb_spec k k0) as [-> | Hne]; cbn.
    + intros [[= <- <-] | Hin]; [now left | right; now right].
    + intros [Heq | Hin]; [right; now left |].
      destruct (IH Hin) as [Hl | Hr]; [now left | right; now right].
Qed.

Lemma keys_set k (v : V) d :
  PyDict.keys (PyDict.set k v d)
  = if PyDict.contains k d then PyDict.keys d else PyDict.keys d ++ [k].
Proof.
  unfold PyDict.contains, PyDict.keys.
  induction d as [|[k0 v0] d IH]; cbn; [reflexivity |].
  destruct (String.eqb_spec k k0) as [-> | Hne]; cbn; [reflexivity |].
  rewrite IH. now destruct (PyDict.get k d).
Qed.

Lemma in_keys_contains k (d : PyDict.t V) :
  In k (PyDict.keys d) -> PyDict.contains k d = true.
Proof.
  unfold PyDict.contains.
  induction d as [|[k0 v0] d IH]; cbn; [intros [] |].
  destruct (String.eqb_spec k k0) as [-> | Hne]; [reflexivity |].
  intros [Heq | Hin]; [congruence | now apply IH].
Qed.

Lemma contains_false_not_in k (d : PyDict.t V) :
  PyDict.contains k d = false -> ~ In k (PyDict.keys d).
Proof.
  intros Hc Hin. apply in_keys_contains in Hin. congruence.
Qed.

Lemma keys_set_nodup k (v : V) d :
  NoDup (PyDict.keys d) -> NoDup (PyDict.keys (PyDict.set k v d)).
Proof.
  intros Hnd. rewrite keys_set.
  destruct (PyDict.contains k d) eqn:Ec; [exact Hnd |].
  apply NoDup_app; [exact Hnd | repeat constructor; intros [] |].
  intros x Hx [<- | []]. now apply (contains_false_not_in _ _ Ec).
Qed.

(** With distinct keys, [get] answers the value of the entry. *)
Lemma in_get k (v : V) d :
  NoDup (PyDict.keys d) -> In (k, v) (PyDict.items d) ->
  PyDict.get k d = Some v.
Proof.
  induction d as [|[k0 v0] d IH]; cbn; [intros _ [] |].
  intros Hnd [[= -> ->] | Hin].
  - now rewrite String.eqb_refl.
  - inversion Hnd; subst.
    destruct (String.eqb_spec k k0) as [-> | Hne]; [| now apply IH].
    exfalso. apply H1. unfold PyDict.keys.
    change k0 with (fst (k0, v)). now apply in_map.
Qed.

Lemma get_in k (v : V) d :
  PyDict.get k d = Some v -> In (k, v) (PyDict.items d).
Proof.
  induction d as [|[k0 v0] d IH]; cbn; [discriminate |].
  destruct (String.eqb_spec k k0) as [-> | Hne].
  - intros [= ->]. now left.
  - intros Hg. right. now apply IH.
Qed.

End DictMore.

Section Invariant.
Context {num : Type} `{Number num}.

Lemma names_kept_refl (st : Parser num) : names_kept st st.
Proof. split; [lia | reflexivity]. Qed.

Lemma dict_ok_kept (st st' : Parser num) d :
  names_kept st st' -> dict_ok st d -> dict_ok st' d.
Proof.
  intros [Hle Hnm] [Hnd Hd]. split; [exact Hnd |].
  intros k a Hin. destruct (Hd k a Hin) as [Hlt Hk].
  split; [lia |]. now rewrite Hnm.
Qed.

Lemma dict_ok_set (st : Parser num) d k a :
  dict_ok st d -> a < next_addr st -> node_name (store st a) = k ->
  dict_ok st (PyDict.set k a d).
Proof.
  intros [Hnd Hd] Hlt Hk. split; [now apply keys_set_nodup |].
  intros k' a' Hin. apply in_set in Hin.
  destruct Hin as [[-> ->] | Hin]; [now split | now apply Hd].
Qed.

Lemma contains_set_mono (V : Type) k k' (v : V) d :
  PyDict.contains k d = true -> PyDict.contains k (PyDict.set k' v d) = true.
Proof. intros Hc. rewrite contains_set, Hc. apply orb_true_r. Qed.

(** A step that leaves the dictionaries and the nets alone and keeps the
    names keeps the state well formed. *)
Lemma well_formed_kept (st st' : Parser num) :
  nodes st' = nodes st -> fixed_nodes st' = fixed_nodes st ->
  movable_nodes st' = movable_nodes st -> nets st' = nets st ->
  names_kept st st' ->
  well_formed st -> well_formed st'.
Proof.
  intros Hn Hf Hm Hnets Hk (H1 & H2 & H3 & H4 & H5).
  unfold well_formed. rewrite Hn, Hf, Hm, Hnets.
  split; [exact (dict_ok_kept Hk H1) |].
  split; [exact (dict_ok_kept Hk H2) |].
  split; [exact (dict_ok_kept Hk H3) |].
  split; assumption.
Qed.

Lemma well_formed_update_node (st : Parser num) a f :
  (forall n, node_name (f n) = node_name n) ->
  well_formed st -> well_formed (update_node a f st).
Proof.
  intros Hf. apply well_formed_kept; try reflexivity.
  split; [cbn; lia |]. intros a' _. cbn. unfold store_set.
  destruct (Nat.eqb_spec a' a) as [-> | _]; [apply Hf | reflexivity].
Qed.

Lemma well_formed_declare_node (st : Parser num) name w h :
  well_formed st -> well_formed (declare_node name w h st).
Proof.
  intros (H1 & H2 & H3 & H4 & H5).
  set (fixed := (Z.of_nat (PyDict.len (nodes st))
                 >=? num_modules st - num_terminals st)%Z).
  set (node := mkNode name w h (of_int 0) (of_int 0) fixed (w * h) None).
  set (st1 := set_store (store_set (next_addr st) node (store st))
                        (S (next_addr st)) st).
  assert (Hk : names_kept st st1).
  { split; [cbn; lia |]. intros a Ha. cbn. now rewrite store_set_old. }
  assert (Hnew : next_addr st < next_addr st1
                 /\ node_name (store st1 (next_addr st)) = name).
  { split; [cbn; lia |]. cbn. now rewrite store_set_new. }
  destruct Hnew as [Hlt Hname].
  pose proof (dict_ok_kept Hk H1) as H1'.
  pose proof (dict_ok_kept Hk H2) as H2'.
  pose proof (dict_ok_kept Hk H3) as H3'.
  unfold declare_node. fold fixed. fold node. fold st1.
  destruct fixed.
  - unfold well_formed. cbn [nodes fixed_nodes movable_nodes nets
                             set_nodes set_fixed_nodes].
    split; [now apply (dict_ok_set (st := st1)) |].
    split; [now apply (dict_ok_set (st := st1)) |].
    split; [exact H3' |]. split.
    + intros k Hk'. rewrite contains_set in *.
      destruct (String.eqb k name); [reflexivity |]. cbn in *.
      destruct Hk' as [Hk' | Hk']; apply H4; [now left | now right].
    + eapply Forall_impl; [| exact H5]. cbn. intros n (Hd & Hp & Hkn).
      repeat split; try assumption.
      eapply Forall_impl; [| exact Hkn]. cbn. intros p Hp'.
      now apply contains_set_mono.
  - unfold well_formed. cbn [nodes fixed_nodes movable_nodes nets
                             set_nodes set_movable_nodes].
    split; [now apply (dict_ok_set (st := st1)) |].
    split; [exact H2' |].
    split; [now apply (dict_ok_set (st := st1)) |]. split.
    + intros k Hk'. rewrite contains_set in *.
      destruct (String.eqb k name); [reflexivity |]. cbn in *.
      destruct Hk' as [Hk' | Hk']; apply H4; [now left | now right].
    + eapply Forall_impl; [| exact H5]. cbn. intros n (Hd & Hp & Hkn).
      repeat split; try assumption.
      eapply Forall_impl; [| exact Hkn]. cbn. intros p Hp'.
      now apply contains_set_mono.
Qed.

Lemma well_formed_place_node (st : Parser num) name vx vy o :
  well_formed st -> well_formed (place_node name vx vy o st).
Proof.
  intros Hwf. unfold place_node.
  destruct (PyDict.get name (nodes st)) as [a |] eqn:Eg; [| exact Hwf].
  set (st1 := update_node a (fun n => with_orientation o (with_xy vx vy n)) st).
  assert (Hwf1 : well_formed st1)
    by (apply well_formed_update_node; [reflexivity | exact Hwf]).
  destruct (String.eqb o "F" || PyDict.contains name (fixed_nodes st1));
    [| exact Hwf1].
  set (st2 := update_node a (with_is_fixed true) st1).
  assert (Hwf2 : well_formed st2)
    by (apply well_formed_update_node; [reflexivity | exact Hwf1]).
  destruct Hwf2 as (H1 & H2 & H3 & H4 & H5).
  assert (Hin : In (name, a) (PyDict.items (nodes st2)))
    by (apply get_in; exact Eg).
  destruct (proj2 H1 name a Hin) as [Hlt Hname].
  unfold well_formed. cbn [nodes fixed_nodes movable_nodes nets set_fixed_nodes].
  split; [exact H1 |]. split; [now apply dict_ok_set |].
  split; [exact H3 |]. split; [| exact H5].
  intros k Hk. rewrite contains_set in Hk.
  destruct (String.eqb_spec k name) as [Heq | Hne].
  - rewrite Heq. unfold PyDict.contains. change (nodes st2) with (nodes st).
    now rewrite Eg.
  - cbn in Hk. now apply H4.
Qed.

Lemma well_formed_save_net (st : Parser num) cur pins degs :
  Forall (fun p => PyDict.contains (pin_node p) (nodes st) = true) pins ->
  well_formed st -> well_formed (fst (save_net cur pins degs st)).
Proof.
  intros Hp Hwf. unfold save_net.
  destruct cur as [name |]; [| exact Hwf].
  destruct pins as [|p ps]; [exact Hwf |].
  destruct Hwf as (H1 & H2 & H3 & H4 & H5).
  unfold well_formed. cbn [fst nodes fixed_nodes movable_nodes nets set_nets].
  split; [exact H1 |]. split; [exact H2 |]. split; [exact H3 |].
  split; [exact H4 |].
  apply Forall_app. split; [exact H5 |].
  constructor; [| constructor]. cbn.
  split; [reflexivity |]. split; [discriminate | exact Hp].
Qed.

End Invariant.

Section Reachable.
Context {num : Type} `{Number num}.

Lemma well_formed_init : well_formed (init (num := num)).
Proof.
  unfold well_formed, dict_ok. cbn.
  repeat split; try constructor; try contradiction.
  intros k [Hk | Hk]; discriminate.
Qed.

Lemma well_formed_nodes_header lines : forall st : Parser num,
  well_formed st -> well_formed (state_of (nodes_header lines st)).
Proof.
  induction lines as [|l lines IH]; intros st Hwf; cbn; [exact Hwf |].
  destruct (PyStr.startswith (PyStr.strip l) "NumNodes").
  - destruct (header_int (PyStr.strip l)); [exact Hwf |].
    apply IH. exact Hwf.
  - destruct (PyStr.startswith (PyStr.strip l) "NumTerminals");
      [| now apply IH].
    destruct (header_int (PyStr.strip l)); exact Hwf.
Qed.

Lemma well_formed_nodes_body lines : forall node_start (st : Parser num),
  well_formed st -> well_formed (state_of (nodes_body lines node_start st)).
Proof.
  induction lines as [|l lines IH]; intros node_start st Hwf; cbn;
    [exact Hwf |].
  destruct (String.eqb (PyStr.strip l) "" || PyStr.startswith (PyStr.strip l) "#");
    [now apply IH |].
  destruct (PyStr.startswith (PyStr.strip l) "NumNodes"
            || PyStr.startswith (PyStr.strip l) "NumTerminals");
    [now apply IH |].
  destruct node_start; [| now apply IH].
  destruct (PyStr.split (PyStr.strip l)) as [|name [|p1 [|p2 more]]];
    try (now apply IH).
  destruct (PyStr.int p1) as [w |]; [| exact Hwf].
  destruct (PyStr.int p2) as [h |]; [| exact Hwf].
  apply IH. now apply well_formed_declare_node.
Qed.

Lemma well_formed_parse_nodes file (st : Parser num) :
  well_formed st -> well_formed (parse_nodes file st).
Proof.
  intros Hwf. unfold parse_nodes. destruct file as [lines |]; [| exact Hwf].
  pose proof (well_formed_nodes_header lines Hwf) as H1.
  destruct (nodes_header lines st) as [st1 | st1 e]; [| exact H1].
  cbn in H1.
  pose proof (well_formed_nodes_body lines false
                (st := set_num_nodes (num_modules st1 - num_terminals st1) st1)
                H1) as H2.
  destruct (nodes_body lines false _) as [st3 | st3 e]; exact H2.
Qed.

Lemma well_formed_nets_header lines : forall st : Parser num,
  well_formed st -> well_formed (state_of (nets_header lines st)).
Proof.
  induction lines as [|l lines IH]; intros st Hwf; cbn; [exact Hwf |].
  destruct (PyStr.startswith (PyStr.strip l) "NumNets").
  - destruct (header_int (PyStr.strip l)); [exact Hwf |].
    apply IH. exact Hwf.
  - destruct (PyStr.startswith (PyStr.strip l) "NumPins"); [| now apply IH].
    destruct (header_int (PyStr.strip l)); exact Hwf.
Qed.

(** The loop of [parse_nets] keeps the state well formed and collects
    only pins of declared nodes; it never touches the nodes. *)
Lemma well_formed_nets_body lines : forall cur pins degs (st : Parser num),
  well_formed st ->
  Forall (fun p => PyDict.contains (pin_node p) (nodes st) = true) pins ->
  let r := state_of (nets_body lines cur pins degs st) in
  well_formed (fst r)
  /\ nodes (fst r) = nodes st
  /\ Forall (fun p => PyDict.contains (pin_node p) (nodes st) = true)
            (snd (fst (snd r))).
Proof.
  induction lines as [|l lines IH]; intros cur pins degs st Hwf Hp;
    cbn [nets_body]; [cbn; auto |].
  destruct (String.eqb (PyStr.strip l) "" || PyStr.startswith (PyStr.strip l) "#");
    [now apply IH |].
  destruct (PyStr.startswith (PyStr.strip l) "NumNets"
            || PyStr.startswith (PyStr.strip l) "NumPins"); [now apply IH |].
  destruct (PyStr.startswith (PyStr.strip l) "NetDegree").
  - pose proof (well_formed_save_net cur degs Hp Hwf) as Hwf1.
    pose proof (save_net_nodes cur pins degs st) as Hn.
    destruct (save_net cur pins degs st) as [st1 degs1]. cbn [fst] in *.
    destruct (net_header (PyStr.strip l) st1) as [e | [dg nm]].
    + cbn. auto.
    + rewrite <- Hn. apply IH; [exact Hwf1 | constructor].
  - destruct (PyStr.split (PyStr.strip l)) as [|node_name more];
      [now apply IH |].
    destruct (PyDict.contains node_name (nodes st)) eqn:Ec; [| now apply IH].
    apply IH; [exact Hwf |]. apply Forall_app. split; [exact Hp |].
    constructor; [exact Ec | constructor].
Qed.

Lemma well_formed_parse_nets file (st : Parser num) :
  well_formed st -> well_formed (parse_nets file st).
Proof.
  intros Hwf. unfold parse_nets. destruct file as [lines |]; [| exact Hwf].
  pose proof (well_formed_nets_header lines Hwf) as H1.
  destruct (nets_header lines st) as [st1 | st1 e]; [| exact H1].
  cbn in H1.
  destruct (@well_formed_nets_body lines None [] [] st1 H1 (Forall_nil _))
    as (H2 & Hn & Hp).
  destruct (nets_body lines None [] [] st1)
    as [[st2 [[cur pins] degs]] | [st2 [[cur pins] degs]] e];
    cbn in H2, Hn, Hp; [| exact H2].
  rewrite <- Hn in Hp.
  pose proof (well_formed_save_net cur degs Hp H2) as H3.
  destruct (save_net cur pins degs st2) as [st3 degs3]. cbn in H3.
  destruct degs3; exact H3.
Qed.

Lemma well_formed_pl_body lines : forall st : Parser num,
  well_formed st -> well_formed (state_of (pl_body lines st)).
Proof.
  induction lines as [|l lines IH]; intros st Hwf; cbn; [exact Hwf |].
  destruct (String.eqb (PyStr.strip l) "" || PyStr.startswith (PyStr.strip l) "#");
    [now apply IH |].
  destruct (PyStr.split (PyStr.strip l)) as [|nm [|p1 [|p2 [|o rest]]]];
    try (now apply IH).
  destruct (float_of_string p1) as [vx |]; [| exact Hwf].
  destruct (float_of_string p2) as [vy |]; [| exact Hwf].
  apply IH. now apply well_formed_place_node.
Qed.

Lemma well_formed_parse_pl file (st : Parser num) :
  well_formed st -> well_formed (parse_pl file st).
Proof.
  intros Hwf. unfold parse_pl. destruct file as [lines |]; [| exact Hwf].
  pose proof (well_formed_pl_body (skipn (pl_start lines 0) lines) Hwf) as H1.
  destruct (pl_body _ st) as [st1 | st1 e]; exact H1.
Qed.

Lemma well_formed_update_positions l vx vy : forall st : Parser num,
  well_formed st -> well_formed (state_of (update_positions l vx vy st)).
Proof.
  induction l as [|[i name] l IH]; intros st Hwf; cbn; [exact Hwf |].
  destruct (PyDict.get name (movable_nodes st)) as [a |]; [| exact Hwf].
  destruct (nth_error vx i) as [xi |]; [| exact Hwf].
  assert (H1 : well_formed (update_node a (with_x xi) st))
    by (apply well_formed_update_node; [reflexivity | exact Hwf]).
  destruct (nth_error vy i) as [yi |]; [| exact H1].
  apply IH. apply well_formed_update_node; [reflexivity | exact H1].
Qed.

Lemma well_formed_solve ext (st : Parser num) :
  well_formed st -> well_formed (fst (solve_quadratic_placement ext st)).
Proof.
  intros Hwf. unfold solve_quadratic_placement.
  destruct (build_quadratic_matrix st) as [[A b_x] b_y].
  destruct (spsolve ext A b_x) as [vx |]; [| exact Hwf].
  destruct (spsolve ext A b_y) as [vy |]; [| exact Hwf].
  pose proof (well_formed_update_positions
                (enumerate (PyDict.keys (movable_nodes st))) vx vy Hwf) as H1.
  destruct (update_positions _ vx vy st) as [st' | st' e]; exact H1.
Qed.

Lemma clip_name ll ur (n : node num) : node_name (clip ll ur n) = node_name n.
Proof.
  unfold clip, clip_y, clip_x.
  repeat match goal with |- context [if ?b then _ else _] => destruct b end;
    reflexivity.
Qed.

Lemma well_formed_legalize_loop ll ur l : forall st : Parser num,
  well_formed st -> well_formed (legalize_loop ll ur l st).
Proof.
  induction l as [|[nm a] l IH]; intros st Hwf; [exact Hwf |].
  change (legalize_loop ll ur ((nm, a) :: l) st)
    with (legalize_loop ll ur l (update_node a (clip ll ur) st)).
  apply IH. apply well_formed_update_node; [apply clip_name | exact Hwf].
Qed.

Lemma well_formed_write ext output_file (st : Parser num) :
  well_formed st ->
  well_formed (fst (write_placement_result ext output_file st)).
Proof.
  intros Hwf. unfold write_placement_result.
  destruct (open_w ext output_file); exact Hwf.
Qed.

Lemma well_formed_run ext output_pl_file (st : Parser num) :
  well_formed st -> well_formed (fst (run ext output_pl_file st)).
Proof.
  intros Hwf. unfold run.
  pose proof (well_formed_solve ext
                (st := print (Msg "Calculating initial placement using quadratic solver...") st)
                Hwf) as H1.
  destruct (solve_quadratic_placement ext _) as [st1 success].
  cbn [fst] in H1. destruct success; cbn [negb]; [| exact H1].
  unfold legalize_placement.
  match goal with
  | |- context [legalize_loop ?ll ?ur ?l ?s] =>
      pose proof (well_formed_legalize_loop ll ur l (st := s) H1) as H2;
      set (st3 := legalize_loop ll ur l s) in *
  end.
  cbn [negb].
  pose proof (well_formed_write ext output_pl_file
                (st := print (Msg "Initial placement legalization completed") st3)
                H2) as H3.
  destruct (write_placement_result ext output_pl_file _) as [st5 ok].
  cbn [fst] in H3. destruct ok; exact H3.
Qed.

End Reachable.

Lemma well_formed_set_core
      {num : Type} `{Number num} ll ur (st : Parser num) :
  well_formed st -> well_formed (set_core ll ur st).
Proof.
  apply well_formed_kept; try reflexivity.
  split; [cbn; lia | intros a _; reflexivity].
Qed.

Lemma two_pin_well_formed : well_formed Scenario.two_pin.
Proof.
  unfold Scenario.two_pin, Scenario.parse.
  apply well_formed_set_core.
  apply well_formed_parse_pl, well_formed_parse_nets, well_formed_parse_nodes.
  apply well_formed_init.
Qed.

(** Every state that the program can reach is well formed: each
    dictionary has distinct keys and refers to allocated nodes that
    carry the name they are stored under; every movable or fixed name is
    a declared name; and every stored net has at least one pin, has the
    number of its pins as degree and only pins on declared nodes. *)
Theorem reachable_well_formed
        {num : Type} `{Number num} (st : Parser num) :
  reachable st -> well_formed st.
Proof.
  induction 1.
  - apply well_formed_init.
  - now apply well_formed_parse_nodes.
  - now apply well_formed_parse_nets.
  - now apply well_formed_parse_pl.
  - exact IHreachable.
  - now apply well_formed_solve.
  - unfold legalize_placement. cbn [fst]. now apply well_formed_legalize_loop.
  - now apply well_formed_write.
  - now apply well_formed_run.
Qed.

(** ** The shape of the assembled system *)

Section Shape.
Context {num : Type} `{Number num}.

Lemma index_dict_values (l : list (nat * string)) bound : forall d k i,
  (forall e, In e l -> fst e < bound) ->
  (forall k' i', In (k', i') (PyDict.items d) -> i' < bound) ->
  In (k, i)
     (PyDict.items (fold_left (fun d '(i, nm) => PyDict.set nm i d) l d)) ->
  i < bound.
Proof.
  induction l as [|[j nm] l IH]; intros d k i Hl Hd Hin; cbn in Hin.
  - exact (Hd k i Hin).
  - apply (IH (PyDict.set nm j d) k i); [| | exact Hin].
    + intros e He. apply Hl. now right.
    + intros k' i' Hin'. apply in_set in Hin'.
      destruct Hin' as [[_ ->] | Hin'];
        [exact (Hl (j, nm) (or_introl eq_refl)) | exact (Hd k' i' Hin')].
Qed.

(** The index of a movable pin is below the number of movable nodes. *)
Lemma idx_below (st : Parser num) (p : pin) :
  mov st p = true -> idx st p < PyDict.len (movable_nodes st).
Proof.
  intros Hm. destruct (node_to_idx_defined st _ Hm) as [i Hi].
  unfold idx, PyDict.getitem. rewrite Hi. apply get_in in Hi.
  unfold node_to_idx in Hi.
  eapply (@index_dict_values
            (enumerate (PyDict.keys (movable_nodes st)))
            (PyDict.len (movable_nodes st)) [] (pin_node p) i);
    [| intros k' i' [] | exact Hi].
  intros [j nm] He. unfold enumerate in He. apply in_combine_l in He.
  apply in_seq in He. cbn. unfold PyDict.keys, PyDict.len in *.
  rewrite length_map in He. lia.
Qed.

Lemma add_at_length (b : list num) i v :
  List.length (add_at b i v) = List.length b.
Proof.
  revert i. induction b as [|u b IH]; intros [|i]; cbn; auto.
Qed.

Lemma net_loop_lengths (st : Parser num) n coo b_x b_y :
  List.length (snd (fst (net_loop st (coo, b_x, b_y) n))) = List.length b_x
  /\ List.length (snd (net_loop st (coo, b_x, b_y) n)) = List.length b_y.
Proof.
  unfold net_loop.
  destruct (List.length (net_pins n) <=? 1); [cbn; auto |].
  destruct (fixed_sums st (net_pins n)) as [[fixed_x fixed_y] fixed_count].
  generalize (enumerate (net_pins n)). intros l. revert coo b_x b_y.
  induction l as [|[i pin_i] l IH]; intros coo b_x b_y; [cbn; auto |].
  cbn [fold_left].
  destruct (negb (PyDict.contains (pin_node pin_i) (movable_nodes st)));
    [apply IH |].
  destruct (0 <? fixed_count); [| apply IH].
  match goal with
  | |- context [fold_left _ l (?c, add_at b_x ?k ?u, add_at b_y ?k ?w)] =>
      destruct (IH c (add_at b_x k u) (add_at b_y k w)) as [Hx Hy]
  end.
  rewrite Hx, Hy, !add_at_length. auto.
Qed.

Lemma build_lengths (st : Parser num) :
  shape (fst (fst (build_quadratic_matrix st))) = PyDict.len (movable_nodes st)
  /\ List.length (snd (fst (build_quadratic_matrix st)))
     = PyDict.len (movable_nodes st)
  /\ List.length (snd (build_quadratic_matrix st))
     = PyDict.len (movable_nodes st).
Proof.
  unfold build_quadratic_matrix.
  set (n := PyDict.len (movable_nodes st)).
  assert (Hgen : forall l coo b_x b_y,
             List.length (snd (fst (fold_left (net_loop st) l (coo, b_x, b_y))))
             = List.length b_x
             /\ List.length (snd (fold_left (net_loop st) l (coo, b_x, b_y)))
                = List.length b_y).
  { induction l as [|m l IH]; intros coo b_x b_y; [cbn; auto |].
    cbn [fold_left].
    destruct (net_loop_lengths st m coo b_x b_y) as [Hx Hy].
    destruct (net_loop st (coo, b_x, b_y) m) as [[coo' bx'] by'].
    cbn in Hx, Hy. destruct (IH coo' bx' by') as [Hx' Hy']. split; congruence. }
  destruct (Hgen (nets st) [] (repeat (of_int 0) n) (repeat (of_int 0) n))
    as [Hx Hy].
  destruct (fold_left (net_loop st) (nets st) _) as [[coo b_x] b_y].
  cbn in *. rewrite repeat_length in Hx, Hy. auto.
Qed.

Lemma net_triplets_in_shape (st : Parser num) n r c v :
  In (r, c, v) (net_triplets st n) ->
  r < PyDict.len (movable_nodes st) /\ c < PyDict.len (movable_nodes st).
Proof.
  unfold net_triplets.
  destruct (List.length (net_pins n) <=? 1); [intros [] |].
  intros Hin. apply in_flat_map in Hin. destruct Hin as ([i pin_i] & _ & Hin).
  destruct (mov st pin_i) eqn:Ei; [| destruct Hin].
  unfold pair_triplets in Hin. apply in_flat_map in Hin.
  destruct Hin as ([j pin_j] & _ & Hin).
  destruct (Nat.eqb i j); [destruct Hin |].
  destruct (mov st pin_j) eqn:Ej; [| destruct Hin].
  pose proof (idx_below st pin_i Ei). pose proof (idx_below st pin_j Ej).
  destruct Hin as [[= <- <- _] | [[= <- <- _] | []]]; auto.
Qed.

End Shape.

(** The system that [build_quadratic_matrix] returns is consistent in
    size: with [n] the number of movable nodes, the matrix has shape
    [n], both right-hand sides have [n] entries, and every triplet has
    its row and its column below [n]. *)
Theorem assembled_system_fits_its_shape
        {num : Type} `{Number num} (st : Parser num) :
  let A := fst (fst (build_quadratic_matrix st)) in
  let n := PyDict.len (movable_nodes st) in
  shape A = n
  /\ List.length (snd (fst (build_quadratic_matrix st))) = n
  /\ List.length (snd (build_quadratic_matrix st)) = n
  /\ forall r c v, In (r, c, v) (triplets A) -> r < n /\ c < n.
Proof.
  cbn zeta. destruct (build_lengths st) as (Hs & Hx & Hy).
  split; [exact Hs |]. split; [exact Hx |]. split; [exact Hy |].
  intros r c v Hin. rewrite build_triplets in Hin. apply in_flat_map in Hin.
  destruct Hin as (m & _ & Hin). now apply (net_triplets_in_shape st m r c v).
Qed.

(** ** Rows follow the order of the movable nodes *)

Section RowOrder.
Context {num : Type} `{Number num}.

Lemma index_dict_other (l : list (nat * string)) : forall d k,
  ~ In k (map snd l) ->
  PyDict.get k (fold_left (fun d '(i, nm) => PyDict.set nm i d) l d)
  = PyDict.get k d.
Proof.
  induction l as [|[j nm] l IH]; intros d k Hn; [reflexivity |].
  cbn [fold_left]. rewrite IH.
  - apply get_set_other. intros ->. apply Hn. now left.
  - intros Hin. apply Hn. now right.
Qed.

Lemma index_dict_position (names : list string) : forall s d i k,
  NoDup names -> nth_error names i = Some k ->
  PyDict.get k
    (fold_left (fun d '(i, nm) => PyDict.set nm i d)
               (combine (seq s (List.length names)) names) d)
  = Some (s + i).
Proof.
  induction names as [|x names IH]; intros s d i k Hnd Hi;
    [destruct i; discriminate |].
  inversion Hnd; subst. cbn [List.length seq combine fold_left].
  destruct i as [|i]; cbn in Hi.
  - inversion Hi; subst. rewrite index_dict_other.
    + rewrite get_set_same. f_equal. lia.
    + now rewrite enumerate_names.
  - rewrite (IH (S s) _ i k H3 Hi). f_equal. lia.
Qed.

End RowOrder.

(** The matrix row of a movable node is its position in
    [self.movable_nodes]: when the keys are distinct, as in every
    reachable state, [node_to_idx] maps the [i]-th key to [i]. *)
Theorem node_to_idx_is_position
        {num : Type} `{Number num} (st : Parser num) (i : nat) (k : string) :
  NoDup (PyDict.keys (movable_nodes st)) ->
  nth_error (PyDict.keys (movable_nodes st)) i = Some k ->
  PyDict.get k (node_to_idx st) = Some i.
Proof.
  intros Hnd Hi. unfold node_to_idx, enumerate.
  now rewrite (@index_dict_position _ 0 [] i k Hnd Hi).
Qed.

Lemma node_to_idx_is_position_witness :
  NoDup (PyDict.keys (movable_nodes Scenario.orphan))
  /\ nth_error (PyDict.keys (movable_nodes Scenario.orphan)) 1 = Some "b"
  /\ PyDict.get "b" (node_to_idx Scenario.orphan) = Some 1.
Proof.
  assert (Hnd : NoDup (PyDict.keys (movable_nodes Scenario.orphan))).
  { vm_compute. repeat constructor; cbn; intuition discriminate. }
  assert (Hi : nth_error (PyDict.keys (movable_nodes Scenario.orphan)) 1
               = Some "b") by (vm_compute; reflexivity).
  split; [exact Hnd |]. split; [exact Hi |].
  exact (@node_to_idx_is_position Q QNumber Scenario.orphan 1 "b" Hnd Hi).
Defined.

(** ** Designs without fixed pins, designs without movable pairs *)

Section Degenerate.
Context {num : Type} `{Number num}.

Lemma fixed_sums_none (st : Parser num) pins :
  Forall (fun p => PyDict.contains (pin_node p) (fixed_nodes st) = false) pins ->
  fixed_sums st pins = (of_int 0, of_int 0, 0).
Proof.
  unfold fixed_sums. generalize (of_int 0, of_int 0, 0).
  induction pins as [|p pins IH]; intros acc Hall; [reflexivity |].
  inversion Hall; subst. cbn [fold_left]. destruct acc as [[fx fy] fc].
  unfold PyDict.contains in H2.
  destruct (PyDict.get (pin_node p) (fixed_nodes st)); [discriminate |].
  now apply IH.
Qed.

Lemma net_loop_no_fixed (st : Parser num) n coo b_x b_y :
  Forall (fun p => PyDict.contains (pin_node p) (fixed_nodes st) = false)
         (net_pins n) ->
  snd (fst (net_loop st (coo, b_x, b_y) n)) = b_x
  /\ snd (net_loop st (coo, b_x, b_y) n) = b_y.
Proof.
  intros Hall. unfold net_loop.
  destruct (List.length (net_pins n) <=? 1); [cbn; auto |].
  rewrite (fixed_sums_none st Hall).
  generalize (enumerate (net_pins n)). intros l. revert coo.
  induction l as [|[i pin_i] l IH]; intros coo; [cbn; auto |].
  cbn [fold_left].
  destruct (negb (PyDict.contains (pin_node pin_i) (movable_nodes st)));
    apply IH.
Qed.

(** Two different positions of a list whose elements satisfy [f] give
    at least two elements that satisfy it. *)
Lemma two_positions (A : Type) (f : A -> bool) (l : list A) : forall s i j u v,
  In (i, u) (combine (seq s (List.length l)) l) ->
  In (j, v) (combine (seq s (List.length l)) l) ->
  i <> j -> f u = true -> f v = true ->
  2 <= List.length (filter f l).
Proof.
  induction l as [|x l IH]; intros s i j u v Hi Hj Hne Hu Hv; [destruct Hi |].
  cbn in Hi, Hj.
  assert (Hone : forall k w, In (k, w) (combine (seq (S s) (List.length l)) l) ->
                             f w = true -> 1 <= List.length (filter f l)).
  { intros k w Hin Hw. apply in_combine_r in Hin.
    assert (Hf : In w (filter f l)) by (apply filter_In; auto).
    destruct (filter f l); [destruct Hf | cbn; lia]. }
  assert (Hlt : forall k w, In (k, w) (combine (seq (S s) (List.length l)) l) ->
                            S s <= k).
  { intros k w Hin. apply in_combine_l in Hin. apply in_seq in Hin. lia. }
  cbn [filter].
  destruct Hi as [Hi | Hi], Hj as [Hj | Hj].
  - inversion Hi; inversion Hj; subst. contradiction.
  - inversion Hi; subst. rewrite Hu. cbn. specialize (Hone _ _ Hj Hv). lia.
  - inversion Hj; subst. rewrite Hv. cbn. specialize (Hone _ _ Hi Hu). lia.
  - specialize (IH _ _ _ _ _ Hi Hj Hne Hu Hv). destruct (f x); cbn; lia.
Qed.

Lemma net_triplets_single (st : Parser num) n :
  List.length (filter (mov st) (net_pins n)) <= 1 -> net_triplets st n = [].
Proof.
  intros Hle. unfold net_triplets.
  destruct (List.length (net_pins n) <=? 1); [reflexivity |].
  transitivity (flat_map (fun _ : nat * pin => @nil (nat * nat * num))
                         (enumerate (net_pins n))); [| apply flat_map_nil].
  apply flat_map_ext_in. intros [i pin_i] Hi.
  destruct (mov st pin_i) eqn:Ei; [| reflexivity].
  unfold pair_triplets.
  transitivity (flat_map (fun _ : nat * pin => @nil (nat * nat * num))
                         (enumerate (net_pins n))); [| apply flat_map_nil].
  apply flat_map_ext_in. intros [j pin_j] Hj.
  destruct (Nat.eqb_spec i j) as [_ | Hne]; [reflexivity |].
  destruct (mov st pin_j) eqn:Ej; [| reflexivity].
  pose proof (@two_positions _ (mov st) (net_pins n) 0 i j pin_i pin_j
                             Hi Hj Hne Ei Ej). lia.
Qed.

End Degenerate.

(** When no pin of any net is on a fixed node, both right-hand sides are
    zero vectors: nothing anchors the design. *)
Theorem no_fixed_pin_gives_zero_rhs
        {num : Type} `{Number num} (st : Parser num) :
  Forall (fun n => Forall (fun p => PyDict.contains (pin_node p) (fixed_nodes st)
                                    = false) (net_pins n)) (nets st) ->
  snd (fst (build_quadratic_matrix st))
  = repeat (of_int 0) (PyDict.len (movable_nodes st))
  /\ snd (build_quadratic_matrix st)
     = repeat (of_int 0) (PyDict.len (movable_nodes st)).
Proof.
  intros Hall. unfold build_quadratic_matrix.
  set (zeros := repeat (of_int 0) (PyDict.len (movable_nodes st))).
  assert (Hgen : forall l coo b_x b_y,
             Forall (fun n => Forall (fun p => PyDict.contains (pin_node p)
                                                 (fixed_nodes st) = false)
                                     (net_pins n)) l ->
             snd (fst (fold_left (net_loop st) l (coo, b_x, b_y))) = b_x
             /\ snd (fold_left (net_loop st) l (coo, b_x, b_y)) = b_y).
  { induction l as [|m l IH]; intros coo b_x b_y Hl; [cbn; auto |].
    inversion Hl; subst. cbn [fold_left].
    destruct (net_loop_no_fixed st m coo b_x b_y H2) as [Hx Hy].
    destruct (net_loop st (coo, b_x, b_y) m) as [[coo' bx'] by'].
    cbn in Hx, Hy. subst. now apply IH. }
  destruct (Hgen (nets st) [] zeros zeros Hall) as [Hx Hy].
  destruct (fold_left (net_loop st) (nets st) _) as [[coo b_x] b_y].
  cbn in *. auto.
Qed.

Lemma no_fixed_pin_gives_zero_rhs_witness :
  Forall (fun n => Forall (fun p => PyDict.contains (pin_node p)
                                      (fixed_nodes Scenario.orphan) = false)
                          (net_pins n)) (nets Scenario.orphan)
  /\ snd (fst (build_quadratic_matrix Scenario.orphan)) = [0%Q; 0%Q]
  /\ triplets (fst (fst (build_quadratic_matrix Scenario.orphan))) <> [].
Proof.
  assert (Hall : Forall (fun n => Forall (fun p => PyDict.contains (pin_node p)
                                            (fixed_nodes Scenario.orphan) = false)
                                         (net_pins n)) (nets Scenario.orphan)).
  { vm_compute nets. repeat constructor. }
  split; [exact Hall |]. split.
  - exact (proj1 (@no_fixed_pin_gives_zero_rhs Q QNumber Scenario.orphan Hall)).
  - vm_compute. discriminate.
Defined.

(** When every net has at most one pin on a movable node, the matrix has
    no triplet at all: cells joined only to fixed nodes get an all-zero
    matrix, whatever the right-hand sides. *)
Theorem no_movable_pair_gives_empty_matrix
        {num : Type} `{Number num} (st : Parser num) :
  Forall (fun n => List.length (filter (mov st) (net_pins n)) <= 1) (nets st) ->
  triplets (fst (fst (build_quadratic_matrix st))) = [].
Proof.
  intros Hall. rewrite build_triplets.
  transitivity (flat_map (fun _ : net => @nil (nat * nat * num)) (nets st));
    [| apply flat_map_nil].
  apply flat_map_ext_in. intros n Hn. apply net_triplets_single.
  rewrite Forall_forall in Hall. now apply Hall.
Qed.

Lemma no_movable_pair_gives_empty_matrix_witness :
  Forall (fun n => List.length (filter (mov Scenario.two_pin) (net_pins n)) <= 1)
         (nets Scenario.two_pin)
  /\ triplets (fst (fst (build_quadratic_matrix Scenario.two_pin))) = []
  /\ PyDict.len (movable_nodes Scenario.two_pin) = 1.
Proof.
  assert (Hall : Forall (fun n => List.length (filter (mov Scenario.two_pin)
                                                      (net_pins n)) <= 1)
                        (nets Scenario.two_pin)).
  { vm_compute. repeat constructor. }
  split; [exact Hall |]. split; [| vm_compute; reflexivity].
  exact (@no_movable_pair_gives_empty_matrix Q QNumber Scenario.two_pin Hall).
Defined.

Lemma reachable_well_formed_witness :
  reachable Scenario.two_pin /\ well_formed Scenario.two_pin.
Proof.
  assert (Hr : reachable Scenario.two_pin).
  { unfold Scenario.two_pin, Scenario.parse.
    apply reach_set_core, reach_parse_pl, reach_parse_nets, reach_parse_nodes.
    apply reach_init. }
  split; [exact Hr | exact (reachable_well_formed Hr)].
Defined.

(** ** The solution copied into the nodes *)

Section Solution.
Context {num : Type} `{Number num}.

(** The effect of the loop on a list of positions and names whose nodes
    are all different. *)
Lemma update_positions_effect vx vy : forall l (st : Parser num),
  (forall i name, In (i, name) l ->
     exists a xi yi, PyDict.get name (movable_nodes st) = Some a
                     /\ nth_error vx i = Some xi /\ nth_error vy i = Some yi) ->
  NoDup (map (fun e => PyDict.get (snd e) (movable_nodes st)) l) ->
  exists st',
    update_positions l vx vy st = Ok st'
    /\ nodes st' = nodes st /\ fixed_nodes st' = fixed_nodes st
    /\ movable_nodes st' = movable_nodes st /\ nets st' = nets st
    /\ stdout st' = stdout st /\ disk st' = disk st
    /\ next_addr st' = next_addr st
    /\ (forall i name a xi yi,
          In (i, name) l -> PyDict.get name (movable_nodes st) = Some a ->
          nth_error vx i = Some xi -> nth_error vy i = Some yi ->
          store st' a = with_y yi (with_x xi (store st a)))
    /\ (forall a, (forall e, In e l ->
                     PyDict.get (snd e) (movable_nodes st) <> Some a) ->
                  store st' a = store st a).
Proof.
  induction l as [|[i name] l IH]; intros st Hall Hnd.
  - exists st. cbn. repeat split; try reflexivity. intros ? ? ? ? ? [].
  - destruct (Hall i name (or_introl eq_refl)) as (a & xi & yi & Hg & Hx & Hy).
    cbn [update_positions]. rewrite Hg, Hx, Hy.
    set (st2 := update_node a (with_y yi) (update_node a (with_x xi) st)).
    inversion Hnd as [| ? ? Hnotin Hnd']; subst. cbn [snd] in Hnotin.
    destruct (IH st2) as (st' & Hup & Hn & Hf & Hm & Hnets & Hs & Hd & Hnx
                          & Heff & Hframe).
    { intros j nm Hin. apply Hall. now right. }
    { exact Hnd'. }
    exists st'. split; [exact Hup |].
    repeat (split; [assumption |]).
    assert (Hst2 : store st2 a = with_y yi (with_x xi (store st a))).
    { unfold st2. cbn. unfold store_set. now rewrite !Nat.eqb_refl. }
    split.
    + intros j nm a' xj yj [Heq | Hin] Hg' Hx' Hy'.
      * inversion Heq; subst. rewrite Hg in Hg'. inversion Hg'; subst.
        rewrite Hx in Hx'. rewrite Hy in Hy'. inversion Hx'; inversion Hy'; subst.
        rewrite Hframe; [exact Hst2 |].
        intros e He Hge. apply Hnotin. rewrite Hg.
        change (PyDict.get (snd e) (movable_nodes st) = Some a') in Hge.
        rewrite <- Hge. now apply (in_map (fun e => PyDict.get (snd e)
                                                    (movable_nodes st))).
      * rewrite (Heff j nm a' xj yj Hin Hg' Hx' Hy').
        assert (Hne : a' <> a).
        { intros ->. apply Hnotin. rewrite Hg, <- Hg'.
          now apply (in_map (fun e => PyDict.get (snd e) (movable_nodes st))
                            l (j, nm)). }
        unfold st2. cbn. unfold store_set.
        destruct (Nat.eqb_spec a' a); [contradiction | reflexivity].
    + intros a' Hnone. rewrite Hframe.
      * assert (Hne : a' <> a).
        { intros ->. apply (Hnone (i, name) (or_introl eq_refl)). exact Hg. }
        unfold st2. cbn. unfold store_set.
        destruct (Nat.eqb_spec a' a); [contradiction | reflexivity].
      * intros e He. apply Hnone. now right.
Qed.

(** In a well-formed state the entries of a dictionary have different
    addresses, since each node carries its key as name. *)
Lemma dict_ok_values_nodup (st : Parser num) d :
  dict_ok st d -> NoDup (PyDict.values d).
Proof.
  intros [Hnd Hd]. unfold PyDict.values, PyDict.keys, PyDict.items in *.
  induction d as [|[k a] d IH]; [constructor |].
  cbn in *. inversion Hnd; subst. constructor.
  - intros Hin. apply in_map_iff in Hin. destruct Hin as ([k' a'] & Ha & Hin).
    cbn in Ha. subst a'.
    destruct (Hd k a (or_introl eq_refl)) as [_ Hk].
    destruct (Hd k' a (or_intror Hin)) as [_ Hk'].
    apply H2. rewrite <- Hk, Hk'. change k' with (fst (k', a)).
    now apply in_map.
  - apply IH; [exact H3 |]. intros k' a' Hin. apply Hd. now right.
Qed.

Lemma get_enumerated_keys (V : Type) (d : PyDict.t V) :
  NoDup (PyDict.keys d) ->
  map (fun e : nat * string => PyDict.get (snd e) d)
      (enumerate (PyDict.keys d))
  = map (fun e => Some (snd e)) (PyDict.items d).
Proof.
  intros Hnd.
  assert (Hgen : forall (l : list (string * V)) s,
             (forall k v, In (k, v) l -> PyDict.get k d = Some v) ->
             map (fun e : nat * string => PyDict.get (snd e) d)
                 (combine (seq s (List.length (map fst l))) (map fst l))
             = map (fun e => Some (snd e)) l).
  { induction l as [|[k v] l IH]; intros s Hl; [reflexivity |].
    cbn. rewrite (Hl k v (or_introl eq_refl)). f_equal.
    apply IH. intros k' v' Hin. apply Hl. now right. }
  apply (Hgen d 0). intros k v Hin. now apply in_get.
Qed.

End Solution.

Section SolveEffect.
Context {num : Type} `{Number num}.

Lemma enumerate_nth (A : Type) (l : list A) : forall s i x,
  nth_error l i = Some x ->
  In (s + i, x) (combine (seq s (List.length l)) l).
Proof.
  induction l as [|y l IH]; intros s i x Hi; [destruct i; discriminate |].
  destruct i as [|i]; cbn in *.
  - inversion Hi; subst. left. f_equal. lia.
  - right. replace (s + S i) with (S s + i) by lia. now apply IH.
Qed.

Lemma enumerate_bound (A : Type) (l : list A) i x :
  In (i, x) (enumerate l) -> i < List.length l /\ In x l.
Proof.
  intros Hin. split.
  - apply in_combine_l in Hin. apply in_seq in Hin. lia.
  - now apply in_combine_r in Hin.
Qed.

(** The loop stops with [IndexError] at the first position that one of
    the vectors lacks. *)
Lemma update_positions_short vx vy : forall l (st : Parser num),
  (forall i name, In (i, name) l ->
     PyDict.contains name (movable_nodes st) = true) ->
  (exists i name, In (i, name) l
                  /\ (nth_error vx i = None \/ nth_error vy i = None)) ->
  exists st', update_positions l vx vy st = Raised st' IndexError.
Proof.
  induction l as [|[i name] l IH]; intros st Hall (j & nm & Hin & Hshort);
    [destruct Hin |].
  cbn [update_positions].
  pose proof (Hall i name (or_introl eq_refl)) as Hc.
  apply contains_get in Hc. destruct Hc as [a ->].
  destruct (nth_error vx i) as [xi |] eqn:Ex; [| eauto].
  destruct (nth_error vy i) as [yi |] eqn:Ey; [| eauto].
  apply IH.
  - intros k nm' Hin'. cbn. apply (Hall k nm'). now right.
  - destruct Hin as [Heq | Hin]; [| eauto].
    inversion Heq; subst. destruct Hshort; congruence.
Qed.

Lemma nodup_map_some (A : Type) (l : list A) :
  NoDup l -> NoDup (map (@Some A) l).
Proof.
  induction 1 as [|x l Hx Hnd IH]; cbn; constructor; [| exact IH].
  intros Hin. apply in_map_iff in Hin. destruct Hin as (y & [= ->] & Hy).
  contradiction.
Qed.

End SolveEffect.

Lemma solve_effect
        {num : Type} `{Number num}
        (ext : Externals num) (st : Parser num) (vx vy : list num) :
  well_formed st ->
  spsolve ext (fst (fst (build_quadratic_matrix st)))
          (snd (fst (build_quadratic_matrix st))) = Some vx ->
  spsolve ext (fst (fst (build_quadratic_matrix st)))
          (snd (build_quadratic_matrix st)) = Some vy ->
  PyDict.len (movable_nodes st) <= List.length vx ->
  PyDict.len (movable_nodes st) <= List.length vy ->
  let st' := fst (solve_quadratic_placement ext st) in
  snd (solve_quadratic_placement ext st) = true
  /\ stdout st' = stdout st
  /\ nodes st' = nodes st /\ fixed_nodes st' = fixed_nodes st
  /\ movable_nodes st' = movable_nodes st /\ nets st' = nets st
  /\ (forall i name a,
        nth_error (PyDict.items (movable_nodes st)) i = Some (name, a) ->
        exists xi yi,
          nth_error vx i = Some xi /\ nth_error vy i = Some yi
          /\ store st' a = with_y yi (with_x xi (store st a)))
  /\ (forall a, ~ In a (PyDict.values (movable_nodes st)) ->
                store st' a = store st a).
Proof.
  intros Hwf Hsx Hsy Hlx Hly. cbn zeta.
  destruct Hwf as (_ & _ & Hmov & _ & _).
  pose proof (dict_ok_values_nodup Hmov) as Hvnd.
  destruct Hmov as [Hknd _].
  unfold solve_quadratic_placement.
  destruct (build_quadratic_matrix st) as [[A b_x] b_y]. cbn [fst snd] in *.
  rewrite Hsx, Hsy.
  destruct (@update_positions_effect _ vx vy
              (enumerate (PyDict.keys (movable_nodes st))) st)
    as (st' & Hup & Hn & Hf & Hm & Hnets & Hs & Hd & Hnx & Heff & Hframe).
  { intros i name Hin. apply enumerate_bound in Hin. destruct Hin as [Hi Hk].
    unfold PyDict.keys in Hi. rewrite length_map in Hi.
    apply in_keys_contains, contains_get in Hk. destruct Hk as [a Ha].
    unfold PyDict.len in *.
    destruct (nth_error vx i) as [xi |] eqn:Ex;
      [| apply nth_error_None in Ex; lia].
    destruct (nth_error vy i) as [yi |] eqn:Ey;
      [| apply nth_error_None in Ey; lia].
    exists a, xi, yi. auto. }
  { rewrite (get_enumerated_keys _ Hknd).
    unfold PyDict.values, PyDict.items in *.
    rewrite <- (map_map snd Some).
    now apply nodup_map_some. }
  rewrite Hup. cbn [fst snd].
  repeat (split; [first [reflexivity | assumption] |]).
  split.
  - intros i name a Hi.
    assert (Hin : In (name, a) (PyDict.items (movable_nodes st)))
      by (eapply nth_error_In; exact Hi).
    assert (Hg : PyDict.get name (movable_nodes st) = Some a)
      by now apply in_get.
    assert (Hk : nth_error (PyDict.keys (movable_nodes st)) i = Some name).
    { unfold PyDict.keys, PyDict.items in *. rewrite nth_error_map, Hi.
      reflexivity. }
    assert (Hlt : i < PyDict.len (movable_nodes st)).
    { unfold PyDict.len, PyDict.items in *. apply nth_error_Some. congruence. }
    destruct (nth_error vx i) as [xi |] eqn:Ex;
      [| apply nth_error_None in Ex; lia].
    destruct (nth_error vy i) as [yi |] eqn:Ey;
      [| apply nth_error_None in Ey; lia].
    exists xi, yi. repeat split.
    apply (Heff i name a xi yi); try assumption.
    apply (enumerate_nth _ 0) in Hk. exact Hk.
  - intros a Hnot. apply Hframe. intros [i name] Hin Hg. apply Hnot.
    cbn in Hg. apply get_in in Hg. unfold PyDict.values.
    change a with (snd (name, a)). now apply in_map.
Qed.

(** When the solver answers both systems with vectors that have an entry
    for every movable node, [solve_quadratic_placement] answers [True],
    prints nothing, and the node of the [i]-th entry of
    [self.movable_nodes] gets [x[i]] and [y[i]] as position while every
    other field and every other node stay as they were. *)
Theorem solve_copies_solution_in_row_order
        {num : Type} `{Number num}
        (ext : Externals num) (st : Parser num) (vx vy : list num) :
  well_formed st ->
  spsolve ext (fst (fst (build_quadratic_matrix st)))
          (snd (fst (build_quadratic_matrix st))) = Some vx ->
  spsolve ext (fst (fst (build_quadratic_matrix st)))
          (snd (build_quadratic_matrix st)) = Some vy ->
  PyDict.len (movable_nodes st) <= List.length vx ->
  PyDict.len (movable_nodes st) <= List.length vy ->
  let st' := fst (solve_quadratic_placement ext st) in
  snd (solve_quadratic_placement ext st) = true
  /\ stdout st' = stdout st
  /\ nodes st' = nodes st /\ fixed_nodes st' = fixed_nodes st
  /\ movable_nodes st' = movable_nodes st /\ nets st' = nets st
  /\ (forall i name a,
        nth_error (PyDict.items (movable_nodes st)) i = Some (name, a) ->
        exists xi yi,
          nth_error vx i = Some xi /\ nth_error vy i = Some yi
          /\ store st' a = with_y yi (with_x xi (store st a)))
  /\ (forall a, ~ In a (PyDict.values (movable_nodes st)) ->
                store st' a = store st a).
Proof. exact (@solve_effect num _ ext st vx vy). Qed.

Lemma solve_copies_solution_witness :
  let st := Scenario.two_pin in
  let ext := Scenario.solver_at 150 in
  well_formed st
  /\ spsolve ext (fst (fst (build_quadratic_matrix st)))
             (snd (fst (build_quadratic_matrix st))) = Some [150%Q]
  /\ PyDict.len (movable_nodes st) <= List.length [150%Q]
  /\ snd (solve_quadratic_placement ext st) = true
  /\ PyDict.items (movable_nodes st) = [("a", 0)]
  /\ node_x (store (fst (solve_quadratic_placement ext st)) 0) = 150%Q.
Proof.
  cbn zeta.
  pose proof two_pin_well_formed as Hwf.
  assert (Hsx : spsolve (Scenario.solver_at 150)
                        (fst (fst (build_quadratic_matrix Scenario.two_pin)))
                        (snd (fst (build_quadratic_matrix Scenario.two_pin)))
                = Some [150%Q]) by (vm_compute; reflexivity).
  assert (Hsy : spsolve (Scenario.solver_at 150)
                        (fst (fst (build_quadratic_matrix Scenario.two_pin)))
                        (snd (build_quadratic_matrix Scenario.two_pin))
                = Some [150%Q]) by (vm_compute; reflexivity).
  assert (Hl : PyDict.len (movable_nodes Scenario.two_pin)
               <= List.length [150%Q]) by (vm_compute; lia).
  destruct (@solve_copies_solution_in_row_order
              Q QNumber (Scenario.solver_at 150) Scenario.two_pin
              [150%Q] [150%Q] Hwf Hsx Hsy Hl Hl) as (Hok & _).
  split; [exact Hwf |]. split; [exact Hsx |]. split; [exact Hl |].
  split; [exact Hok |]. split; vm_compute; reflexivity.
Defined.

(** When the solver answers with a vector that is shorter than the
    number of movable nodes, the copy stops with [IndexError] and
    [solve_quadratic_placement] prints the error and answers [False]. *)
Theorem short_solution_is_a_failure
        {num : Type} `{Number num}
        (ext : Externals num) (st : Parser num) (vx vy : list num) :
  spsolve ext (fst (fst (build_quadratic_matrix st)))
          (snd (fst (build_quadratic_matrix st))) = Some vx ->
  spsolve ext (fst (fst (build_quadratic_matrix st)))
          (snd (build_quadratic_matrix st)) = Some vy ->
  List.length vx < PyDict.len (movable_nodes st)
  \/ List.length vy < PyDict.len (movable_nodes st) ->
  snd (solve_quadratic_placement ext st) = false
  /\ In (MsgExn "Error solving quadratic placement: " IndexError)
        (stdout (fst (solve_quadratic_placement ext st))).
Proof.
  intros Hsx Hsy Hshort. unfold solve_quadratic_placement.
  destruct (build_quadratic_matrix st) as [[A b_x] b_y]. cbn [fst snd] in *.
  rewrite Hsx, Hsy.
  destruct (@update_positions_short _ vx vy
              (enumerate (PyDict.keys (movable_nodes st))) st)
    as [st' Hup].
  { intros i name Hin. apply enumerate_bound in Hin.
    now apply in_keys_contains. }
  { set (k := Nat.min (List.length vx) (List.length vy)).
    assert (Hk : k < List.length (PyDict.keys (movable_nodes st))).
    { unfold PyDict.keys, PyDict.len in *. rewrite length_map. lia. }
    destruct (nth_error (PyDict.keys (movable_nodes st)) k) as [name |] eqn:En;
      [| apply nth_error_None in En; lia].
    exists k, name. split; [exact (enumerate_nth _ 0 k En) |].
    destruct (Nat.le_ge_cases (List.length vx) (List.length vy)).
    - left. apply nth_error_None. lia.
    - right. apply nth_error_None. lia. }
  rewrite Hup. cbn. split; [reflexivity |].
  apply in_or_app. right. now left.
Qed.

Lemma short_solution_witness :
  let st := Scenario.orphan in
  let ext : Externals Q :=
    mkExternals (fun _ _ => Some [1%Q]) (fun _ => true) "" in
  (List.length [1%Q] < PyDict.len (movable_nodes st)
   \/ List.length [1%Q] < PyDict.len (movable_nodes st))
  /\ snd (solve_quadratic_placement ext st) = false.
Proof.
  cbn zeta.
  assert (Hs : List.length [1%Q] < PyDict.len (movable_nodes Scenario.orphan)
               \/ List.length [1%Q] < PyDict.len (movable_nodes Scenario.orphan))
    by (left; vm_compute; lia).
  split; [exact Hs |].
  exact (proj1 (@short_solution_is_a_failure
                  Q QNumber
                  (mkExternals (fun _ _ => Some [1%Q]) (fun _ => true) "")
                  Scenario.orphan [1%Q] [1%Q] eq_refl eq_refl Hs)).
Defined.

(** ** What the clipper leaves alone *)

Section ClipperFrame.
Context {num : Type} `{Number num}.



(** A node inside the core is not moved. *)
Lemma clip_inside ll ur (n : node num) :
  ltb (node_x n) (fst ll) = false ->
  ltb (fst ur) (add (node_x n) (of_int (node_width n))) = false ->
  ltb (node_y n) (snd ll) = false ->
  ltb (snd ur) (add (node_y n) (of_int (node_height n))) = false ->
  clip ll ur n = n.
Proof.
  intros H1 H2 H3 H4. unfold clip, clip_x. rewrite H1, H2.
  unfold clip_y. now rewrite H3, H4.
Qed.


End ClipperFrame.


(** A placement that is already inside the core is left as it is: when
    no movable node is left of or below the core and none ends right of
    or above it, [legalize_placement] changes no node. *)
Theorem legalize_keeps_a_legal_placement
        {num : Type} `{Number num} (st : Parser num) :
  (forall name a, In (name, a) (PyDict.items (movable_nodes st)) ->
     let n := store st a in
     ltb (node_x n) (fst (core_lower_left st)) = false
     /\ ltb (fst (core_upper_right st)) (add (node_x n) (of_int (node_width n)))
        = false
     /\ ltb (node_y n) (snd (core_lower_left st)) = false
     /\ ltb (snd (core_upper_right st)) (add (node_y n) (of_int (node_height n)))
        = false) ->
  forall a, store (fst (legalize_placement st)) a = store st a.
Proof.
  intros Hin a. unfold legalize_placement. cbn [fst].
  rewrite legalize_loop_store.
  destruct (visits a (PyDict.items (movable_nodes st))) as [|k] eqn:Ev;
    [reflexivity |].
  assert (Ha : exists name, In (name, a) (PyDict.items (movable_nodes st))).
  { assert (Hi : In a (map snd (PyDict.items (movable_nodes st)))).
    { apply (count_occ_In Nat.eq_dec). unfold visits in Ev. lia. }
    apply in_map_iff in Hi. destruct Hi as ([nm a'] & Heq & Hi).
    cbn in Heq. subst. now exists nm. }
  destruct Ha as [name Ha]. destruct (Hin name a Ha) as (H1 & H2 & H3 & H4).
  assert (Hc : clip (core_lower_left st) (core_upper_right st) (store st a)
               = store st a) by now apply clip_inside.
  clear Ev. induction k; [exact Hc |].
  rewrite Nat.iter_succ. now rewrite IHk.
Qed.

Lemma legalize_keeps_a_legal_placement_witness :
  let st := fst (legalize_placement Scenario.placed_outside) in
  (forall name a, In (name, a) (PyDict.items (movable_nodes st)) ->
     let n := store st a in
     ltb (node_x n) (fst (core_lower_left st)) = false
     /\ ltb (fst (core_upper_right st)) (add (node_x n) (of_int (node_width n)))
        = false
     /\ ltb (node_y n) (snd (core_lower_left st)) = false
     /\ ltb (snd (core_upper_right st)) (add (node_y n) (of_int (node_height n)))
        = false)
  /\ store (fst (legalize_placement st)) 0 = store st 0.
Proof.
  cbn zeta.
  set (st := fst (legalize_placement Scenario.placed_outside)).
  assert (Hin : forall name a, In (name, a) (PyDict.items (movable_nodes st)) ->
             let n := store st a in
             ltb (node_x n) (fst (core_lower_left st)) = false
             /\ ltb (fst (core_upper_right st))
                    (add (node_x n) (of_int (node_width n))) = false
             /\ ltb (node_y n) (snd (core_lower_left st)) = false
             /\ ltb (snd (core_upper_right st))
                    (add (node_y n) (of_int (node_height n))) = false).
  { intros name a Hi. vm_compute in Hi. destruct Hi as [Heq | []].
    inversion Heq; subst. vm_compute. repeat split. }
  split; [exact Hin |].
  exact (@legalize_keeps_a_legal_placement Q QNumber st Hin 0).
Defined.

(** ** The whole run *)

Section WholeRun.
Context {num : Type} `{Number num}.




End WholeRun.



Section RunDisk.
Context {num : Type} `{Number num}.



End RunDisk.



(** ** The placement file, record by record *)

Section PlRecords.
Context {num : Type} `{Number num}.

Lemma pl_body_record l rest (st : Parser num) nm p1 p2 o :
  pl_record l = Some (nm, p1, p2, o) ->
  pl_body (l :: rest) st
  = match float_of_string p1 with
    | None => Raised st ValueError
    | Some vx =>
        match float_of_string p2 with
        | None => Raised st ValueError
        | Some vy => pl_body rest (place_node nm vx vy o st)
        end
    end.
Proof.
  unfold pl_record. cbn [pl_body].
  destruct (String.eqb (PyStr.strip l) "" || PyStr.startswith (PyStr.strip l) "#");
    [discriminate |].
  destruct (PyStr.split (PyStr.strip l)) as [|a [|b [|c [|d r]]]];
    try discriminate.
  now intros [= -> -> -> ->].
Qed.

Lemma pl_body_skip l rest (st : Parser num) :
  pl_record l = None -> pl_body (l :: rest) st = pl_body rest st.
Proof.
  unfold pl_record. cbn [pl_body].
  destruct (String.eqb (PyStr.strip l) "" || PyStr.startswith (PyStr.strip l) "#");
    [reflexivity |].
  destruct (PyStr.split (PyStr.strip l)) as [|a [|b [|c [|d r]]]];
    try reflexivity.
  discriminate.
Qed.

Lemma pl_body_app l1 l2 : forall st : Parser num,
  pl_body (l1 ++ l2) st
  = match pl_body l1 st with
    | Ok s => pl_body l2 s
    | Raised s e => Raised s e
    end.
Proof.
  induction l1 as [|l l1 IH]; intros st; [reflexivity |].
  rewrite <- app_comm_cons.
  destruct (pl_record l) as [[[[nm p1] p2] o] |] eqn:Er.
  - rewrite !(fun r s => @pl_body_record l r s nm p1 p2 o Er).
    destruct (float_of_string p1); [| reflexivity].
    destruct (float_of_string p2); [| reflexivity].
    apply IH.
  - rewrite !(fun r s => @pl_body_skip l r s Er). apply IH.
Qed.

(** A record for another name leaves the node alone. *)
Lemma place_node_other (st : Parser num) nm vx vy o name a :
  well_formed st -> PyDict.get name (nodes st) = Some a -> nm <> name ->
  store (place_node nm vx vy o st) a = store st a.
Proof.
  intros (Hn & _) Ha Hne. unfold place_node.
  destruct (PyDict.get nm (nodes st)) as [a' |] eqn:Ea'; [| reflexivity].
  assert (Hdiff : a <> a').
  { intros ->. destruct Hn as [_ Hn].
    pose proof (proj2 (Hn _ _ (get_in _ _ Ha))) as H1.
    pose proof (proj2 (Hn _ _ (get_in _ _ Ea'))) as H2. congruence. }
  assert (Hst : forall f g (s : Parser num),
             store (update_node a' f (update_node a' g s)) a = store s a
             /\ store (update_node a' g s) a = store s a).
  { intros f g s. cbn. unfold store_set.
    destruct (Nat.eqb_spec a a'); [contradiction | split; reflexivity]. }
  destruct (String.eqb o "F" || PyDict.contains nm (fixed_nodes _)).
  - cbn [store set_fixed_nodes]. apply Hst.
  - apply (Hst (fun n => n)).
Qed.

(** The node of the record gets its position and orientation. *)
Lemma place_node_same (st : Parser num) name vx vy o a :
  PyDict.get name (nodes st) = Some a ->
  node_x (store (place_node name vx vy o st) a) = vx
  /\ node_y (store (place_node name vx vy o st) a) = vy
  /\ node_orientation (store (place_node name vx vy o st) a) = Some o.
Proof.
  intros Ha. unfold place_node. rewrite Ha.
  destruct (String.eqb o "F" || PyDict.contains name (fixed_nodes _));
    cbn; unfold store_set; rewrite !Nat.eqb_refl; cbn; auto.
Qed.

Lemma place_node_nodes (st : Parser num) nm vx vy o :
  nodes (place_node nm vx vy o st) = nodes st.
Proof. exact (proj1 (place_node_frame nm vx vy o st)). Qed.

(** Lines that do not name a node leave it as it was. *)
Lemma pl_body_unnamed lines : forall (st st' : Parser num) name a,
  well_formed st -> PyDict.get name (nodes st) = Some a ->
  Forall (fun l => pl_record_name l <> Some name) lines ->
  pl_body lines st = Ok st' ->
  store st' a = store st a.
Proof.
  induction lines as [|l lines IH]; intros st st' name a Hwf Ha Hall Hb.
  - cbn in Hb. now inversion Hb.
  - inversion Hall as [| ? ? Hl Hrest]; subst.
    unfold pl_record_name in Hl.
    destruct (pl_record l) as [[[[nm p1] p2] o] |] eqn:Er.
    + rewrite (@pl_body_record l lines st nm p1 p2 o Er) in Hb.
      destruct (float_of_string p1) as [vx |]; [| discriminate].
      destruct (float_of_string p2) as [vy |]; [| discriminate].
      assert (Hne : nm <> name) by congruence.
      assert (Ha' : PyDict.get name (nodes (place_node nm vx vy o st)) = Some a)
        by now rewrite place_node_nodes.
      rewrite (IH _ _ name a (well_formed_place_node nm vx vy o Hwf)
                  Ha' Hrest Hb).
      exact (@place_node_other st nm vx vy o name a Hwf Ha Hne).
    + rewrite (@pl_body_skip l lines st Er) in Hb.
      exact (IH _ _ name a Hwf Ha Hrest Hb).
Qed.

End PlRecords.

(** The last record of a node decides.  When the records of a placement
    file can all be read, a node that the nodes file declared has, after
    [parse_pl], the position and the orientation field of the last
    record that names it, whatever earlier records said. *)
Theorem parse_pl_last_record_wins
        {num : Type} `{Number num}
        (banner : string) (before after : list string) (l : string)
        (st : Parser num) (name p1 p2 o : string) (a : addr) (x y : num) :
  well_formed st ->
  PyStr.startswith banner "UCLA pl" = true ->
  (exists st', pl_body (before ++ l :: after) st = Ok st') ->
  pl_record l = Some (name, p1, p2, o) ->
  float_of_string p1 = Some x -> float_of_string p2 = Some y ->
  PyDict.get name (nodes st) = Some a ->
  Forall (fun l' => pl_record_name l' <> Some name) after ->
  let st' := parse_pl (Some (banner :: before ++ l :: after)) st in
  node_x (store st' a) = x /\ node_y (store st' a) = y
  /\ node_orientation (store st' a) = Some o
  /\ stdout st' = stdout st.
Proof.
  intros Hwf Hban [st' Hb] Hrec Hx Hy Ha Hafter. cbn zeta.
  unfold parse_pl. cbn [pl_start]. rewrite Hban. cbn [skipn].
  rewrite Hb.
  pose proof Hb as Hb0.
  rewrite pl_body_app in Hb.
  destruct (pl_body before st) as [s1 | s1 e] eqn:E1; [| discriminate].
  pose proof (well_formed_pl_body before Hwf) as Hwf1.
  rewrite E1 in Hwf1. cbn in Hwf1.
  destruct (pl_body_frame _ _ E1) as (Hn1 & _).
  rewrite (@pl_body_record _ _ l after s1 name p1 p2 o Hrec), Hx, Hy in Hb.
  assert (Ha1 : PyDict.get name (nodes s1) = Some a) by now rewrite Hn1.
  assert (Ha2 : PyDict.get name (nodes (place_node name x y o s1)) = Some a)
    by now rewrite place_node_nodes.
  rewrite (@pl_body_unnamed _ _ after _ _ name a
             (well_formed_place_node name x y o Hwf1) Ha2 Hafter Hb).
  assert (Hps : node_x (store (place_node name x y o s1) a) = x
                /\ node_y (store (place_node name x y o s1) a) = y
                /\ node_orientation (store (place_node name x y o s1) a)
                   = Some o)
    by (apply place_node_same; exact Ha1).
  destruct Hps as (H1 & H2 & H3).
  repeat split; try assumption.
  now destruct (pl_body_frame _ _ Hb0) as (_ & _ & Hs & _).
Qed.

Lemma parse_pl_last_record_wins_witness :
  let st : Parser Q :=
    parse_nets (Some Scenario.nets_file)
               (parse_nodes (Some Scenario.nodes_file) init) in
  let st' := parse_pl (Some ["UCLA pl 1.0"; "a 1 2 : N"; "t 10 20 : N";
                             "a 7 8 S"; "# end"]) st in
  well_formed st
  /\ PyDict.get "a" (nodes st) = Some 0
  /\ (node_x (store st' 0%nat) == 7)%Q /\ (node_y (store st' 0%nat) == 8)%Q
  /\ node_orientation (store st' 0) = Some "S".
Proof.
  cbn zeta.
  set (st := parse_nets (Some Scenario.nets_file)
                        (parse_nodes (Some Scenario.nodes_file) (init (num := Q)))).
  assert (Hwf : well_formed st).
  { apply well_formed_parse_nets, well_formed_parse_nodes, well_formed_init. }
  assert (Hban : PyStr.startswith "UCLA pl 1.0" "UCLA pl" = true)
    by (vm_compute; reflexivity).
  assert (Hb : exists st', pl_body (["a 1 2 : N"; "t 10 20 : N"]
                                      ++ "a 7 8 S" :: ["# end"]) st = Ok st').
  { eexists. vm_compute. reflexivity. }
  assert (Hrec : pl_record "a 7 8 S" = Some ("a", "7", "8", "S"))
    by (vm_compute; reflexivity).
  assert (Hx : float_of_string "7" = Some 7%Q) by (vm_compute; reflexivity).
  assert (Hy : float_of_string "8" = Some 8%Q) by (vm_compute; reflexivity).
  assert (Ha : PyDict.get "a" (nodes st) = Some 0) by (vm_compute; reflexivity).
  assert (Hafter : Forall (fun l' => pl_record_name l' <> Some "a") ["# end"]).
  { constructor; [vm_compute; discriminate | constructor]. }
  destruct (@parse_pl_last_record_wins
              Q QNumber "UCLA pl 1.0" ["a 1 2 : N"; "t 10 20 : N"] ["# end"]
              "a 7 8 S" st "a" "7" "8" "S" 0 7%Q 8%Q
              Hwf Hban Hb Hrec Hx Hy Ha Hafter)
    as (H1 & H2 & H3 & _).
  cbn [app] in H1, H2, H3.
  split; [exact Hwf |]. split; [exact Ha |].
  split; [rewrite H1; reflexivity |]. split; [rewrite H2; reflexivity |].
  exact H3.
Defined.

(** A record whose coordinate is not a number ends the reading of the
    placement file: the records before it have been applied, the record
    itself and everything after it are dropped, and one message is
    printed. *)
Theorem parse_pl_stops_at_a_bad_number
        {num : Type} `{Number num}
        (banner : string) (before after : list string) (l : string)
        (st s1 : Parser num) (name p1 p2 o : string) :
  PyStr.startswith banner "UCLA pl" = true ->
  pl_body before st = Ok s1 ->
  pl_record l = Some (name, p1, p2, o) ->
  float_of_string p1 = None \/ float_of_string p2 = None ->
  parse_pl (Some (banner :: before ++ l :: after)) st
  = print (MsgExn "Error parsing .pl file: " ValueError) s1.
Proof.
  intros Hban Hb Hrec Hbad.
  unfold parse_pl. cbn [pl_start]. rewrite Hban. cbn [skipn].
  rewrite pl_body_app, Hb.
  rewrite (@pl_body_record _ _ l after s1 name p1 p2 o Hrec).
  destruct Hbad as [Hbad | Hbad].
  - now rewrite Hbad.
  - rewrite Hbad. now destruct (float_of_string p1).
Qed.

Lemma parse_pl_stops_at_a_bad_number_witness :
  let st : Parser Q :=
    parse_nets (Some Scenario.nets_file)
               (parse_nodes (Some Scenario.nodes_file) init) in
  let st' := parse_pl (Some ["UCLA pl 1.0"; "a 1 2 : N"; "t 1O 20 : N";
                             "a 7 8 : N"]) st in
  stdout st' = stdout st ++ [MsgExn "Error parsing .pl file: " ValueError]
  /\ (node_x (store st' 0%nat) == 1)%Q /\ (node_y (store st' 0%nat) == 2)%Q
  /\ (node_x (store st' 1%nat) == 0)%Q /\ (node_y (store st' 1%nat) == 0)%Q.
Proof.
  cbn zeta.
  set (st := parse_nets (Some Scenario.nets_file)
                        (parse_nodes (Some Scenario.nodes_file) (init (num := Q)))).
  assert (Hban : PyStr.startswith "UCLA pl 1.0" "UCLA pl" = true)
    by (vm_compute; reflexivity).
  assert (Hb : pl_body ["a 1 2 : N"] st = Ok (place_node "a" 1%Q 2%Q ":" st))
    by (vm_compute; reflexivity).
  assert (Hrec : pl_record "t 1O 20 : N" = Some ("t", "1O", "20", ":"))
    by (vm_compute; reflexivity).
  assert (Hbad : float_of_string "1O" = @None Q \/ float_of_string "20" = @None Q)
    by (left; vm_compute; reflexivity).
  pose proof (@parse_pl_stops_at_a_bad_number
                Q QNumber "UCLA pl 1.0" ["a 1 2 : N"] ["a 7 8 : N"]
                "t 1O 20 : N" st _ "t" "1O" "20" ":" Hban Hb Hrec Hbad) as Hp.
  cbn [app] in Hp. rewrite Hp.
  split; [vm_compute; reflexivity |].
  repeat split; vm_compute; reflexivity.
Defined.

Section PlFrame.
Context {num : Type} `{Number num}.

Lemma place_node_kept nm vx vy o (st : Parser num) :
  let st' := place_node nm vx vy o st in
  nets st' = nets st
  /\ core_lower_left st' = core_lower_left st
  /\ core_upper_right st' = core_upper_right st
  /\ disk st' = disk st
  /\ PyDict.keys (fixed_nodes st) = firstn (PyDict.len (fixed_nodes st))
                                           (PyDict.keys (fixed_nodes st'))
  /\ forall a, node_name (store st' a) = node_name (store st a)
               /\ node_width (store st' a) = node_width (store st a)
               /\ node_height (store st' a) = node_height (store st a)
               /\ node_area (store st' a) = node_area (store st a).
Proof.
  cbn zeta. unfold place_node.
  destruct (PyDict.get nm (nodes st)) as [a0 |].
  2:{ repeat split; try reflexivity.
      unfold PyDict.len, PyDict.keys.
      now rewrite <- (length_map fst), firstn_all. }
  cbn [update_node set_store fixed_nodes].
  destruct (String.eqb o "F" || PyDict.contains nm (fixed_nodes st)).
  - do 4 (split; [reflexivity |]). split.
    + cbn [fixed_nodes set_fixed_nodes]. rewrite keys_set.
      unfold PyDict.len, PyDict.keys. rewrite <- (length_map fst).
      destruct (PyDict.contains nm (fixed_nodes st)).
      * now rewrite firstn_all.
      * now rewrite firstn_app, firstn_all, Nat.sub_diag, app_nil_r.
    + intros a. cbn. unfold store_set.
      destruct (Nat.eqb_spec a a0) as [Heq | _];
        [rewrite Heq, ?Nat.eqb_refl |]; repeat split; reflexivity.
  - do 4 (split; [reflexivity |]). split.
    + unfold PyDict.len, PyDict.keys.
      now rewrite <- (length_map fst), firstn_all.
    + intros a. cbn. unfold store_set.
      destruct (Nat.eqb_spec a a0) as [Heq | _];
        [rewrite Heq, ?Nat.eqb_refl |]; repeat split; reflexivity.
Qed.

Lemma firstn_firstn_keys (V : Type) (d1 d2 d3 : PyDict.t V) :
  PyDict.keys d1 = firstn (PyDict.len d1) (PyDict.keys d2) ->
  PyDict.keys d2 = firstn (PyDict.len d2) (PyDict.keys d3) ->
  PyDict.keys d1 = firstn (PyDict.len d1) (PyDict.keys d3).
Proof.
  intros H1 H2. rewrite H1 at 1. rewrite H2, firstn_firstn.
  f_equal. apply Nat.min_l.
  unfold PyDict.len, PyDict.keys in *.
  rewrite <- (length_map fst d1), H1, length_firstn, length_map. lia.
Qed.

Lemma pl_body_kept lines : forall st : Parser num,
  let st' := state_of (pl_body lines st) in
  nodes st' = nodes st /\ movable_nodes st' = movable_nodes st
  /\ nets st' = nets st
  /\ core_lower_left st' = core_lower_left st
  /\ core_upper_right st' = core_upper_right st
  /\ disk st' = disk st
  /\ PyDict.keys (fixed_nodes st) = firstn (PyDict.len (fixed_nodes st))
                                           (PyDict.keys (fixed_nodes st'))
  /\ forall a, node_name (store st' a) = node_name (store st a)
               /\ node_width (store st' a) = node_width (store st a)
               /\ node_height (store st' a) = node_height (store st a)
               /\ node_area (store st' a) = node_area (store st a).
Proof.
  assert (Hrefl : forall st : Parser num,
             nodes st = nodes st /\ movable_nodes st = movable_nodes st
             /\ nets st = nets st
             /\ core_lower_left st = core_lower_left st
             /\ core_upper_right st = core_upper_right st
             /\ disk st = disk st
             /\ PyDict.keys (fixed_nodes st)
                = firstn (PyDict.len (fixed_nodes st))
                         (PyDict.keys (fixed_nodes st))
             /\ forall a, node_name (store st a) = node_name (store st a)
                          /\ node_width (store st a) = node_width (store st a)
                          /\ node_height (store st a) = node_height (store st a)
                          /\ node_area (store st a) = node_area (store st a)).
  { intros st. repeat split; try reflexivity.
    unfold PyDict.len, PyDict.keys.
    now rewrite <- (length_map fst), firstn_all. }
  induction lines as [|l lines IH]; intros st; cbn zeta.
  - apply Hrefl.
  - destruct (pl_record l) as [[[[nm p1] p2] o] |] eqn:Er.
    + rewrite (@pl_body_record _ _ l lines st nm p1 p2 o Er).
      destruct (float_of_string p1) as [vx |]; [| apply Hrefl].
      destruct (float_of_string p2) as [vy |]; [| apply Hrefl].
      specialize (IH (place_node nm vx vy o st)). cbn zeta in IH.
      destruct IH as (I1 & I2 & I3 & I4 & I5 & I6 & I7 & I8).
      destruct (place_node_frame nm vx vy o st) as (P1 & P2 & _).
      destruct (place_node_kept nm vx vy o st)
        as (P3 & P4 & P5 & P6 & P7 & P8).
      repeat split; try congruence.
      * exact (firstn_firstn_keys _ _ _ P7 I7).
      * rewrite (proj1 (I8 a)). apply P8.
      * rewrite (proj1 (proj2 (I8 a))). apply P8.
      * rewrite (proj1 (proj2 (proj2 (I8 a)))). apply P8.
      * rewrite (proj2 (proj2 (proj2 (I8 a)))). apply P8.
    + rewrite (@pl_body_skip _ _ l lines st Er). apply IH.
Qed.

End PlFrame.

Lemma parse_pl_kept
        {num : Type} `{Number num}
        (file : option (list string)) (st : Parser num) :
  let st' := parse_pl file st in
  nodes st' = nodes st /\ movable_nodes st' = movable_nodes st
  /\ nets st' = nets st
  /\ core_lower_left st' = core_lower_left st
  /\ core_upper_right st' = core_upper_right st
  /\ disk st' = disk st
  /\ PyDict.keys (fixed_nodes st) = firstn (PyDict.len (fixed_nodes st))
                                           (PyDict.keys (fixed_nodes st'))
  /\ forall a, node_name (store st' a) = node_name (store st a)
               /\ node_width (store st' a) = node_width (store st a)
               /\ node_height (store st' a) = node_height (store st a)
               /\ node_area (store st' a) = node_area (store st a).
Proof.
  cbn zeta. unfold parse_pl. destruct file as [lines |].
  - pose proof (pl_body_kept (skipn (pl_start lines 0) lines) st) as Hk.
    cbn zeta in Hk.
    destruct (pl_body (skipn (pl_start lines 0) lines) st) as [s1 | s1 e];
      exact Hk.
  - repeat split; try reflexivity.
    unfold PyDict.len, PyDict.keys.
    now rewrite <- (length_map fst), firstn_all.
Qed.

(** What [parse_pl] leaves alone, on every file, read or not.  It keeps
    [self.nodes], [self.movable_nodes], the nets, the core region and the
    files; it keeps the name, the width, the height and the area of
    every node; and the fixed nodes it started with stay the first
    entries of [self.fixed_nodes], in their order.  So a record can make
    a node fixed, and none can make it movable or resize it. *)
Theorem parse_pl_changes_placement_only
        {num : Type} `{Number num}
        (file : option (list string)) (st : Parser num) :
  let st' := parse_pl file st in
  nodes st' = nodes st /\ movable_nodes st' = movable_nodes st
  /\ nets st' = nets st
  /\ core_lower_left st' = core_lower_left st
  /\ core_upper_right st' = core_upper_right st
  /\ disk st' = disk st
  /\ PyDict.keys (fixed_nodes st) = firstn (PyDict.len (fixed_nodes st))
                                           (PyDict.keys (fixed_nodes st'))
  /\ forall a, node_name (store st' a) = node_name (store st a)
               /\ node_width (store st' a) = node_width (store st a)
               /\ node_height (store st' a) = node_height (store st a)
               /\ node_area (store st' a) = node_area (store st a).
Proof. exact (@parse_pl_kept num _ file st). Qed.

(** ** What reading the nets file adds *)

Section NetsAppend.
Context {num : Type} `{Number num}.

Lemma same_objects_refl (st : Parser num) : same_objects st st.
Proof. repeat split. Qed.

Lemma same_objects_trans (st1 st2 st3 : Parser num) :
  same_objects st1 st2 -> same_objects st2 st3 -> same_objects st1 st3.
Proof.
  unfold same_objects.
  intros (A1 & A2 & A3 & A4 & A5 & A6 & A7 & A8)
         (B1 & B2 & B3 & B4 & B5 & B6 & B7 & B8).
  repeat split; congruence.
Qed.

Lemma save_net_appends cur pins degs (st : Parser num) :
  exists added,
    nets (fst (save_net cur pins degs st)) = nets st ++ added
    /\ snd (save_net cur pins degs st) = degs ++ map net_degree added
    /\ same_objects st (fst (save_net cur pins degs st))
    /\ max_net_degree (fst (save_net cur pins degs st)) = max_net_degree st.
Proof.
  unfold save_net. destruct cur as [name |]; [destruct pins as [|p ps] |].
  - exists []. cbn. rewrite !app_nil_r. repeat split.
  - exists [mkNet name (p :: ps) (List.length (p :: ps))]. cbn. repeat split.
  - exists []. cbn. rewrite !app_nil_r. repeat split.
Qed.

Lemma nets_header_kept lines : forall st : Parser num,
  let st1 := state_of (nets_header lines st) in
  nets st1 = nets st /\ same_objects st st1
  /\ max_net_degree st1 = max_net_degree st.
Proof.
  induction lines as [|l lines IH]; intros st; cbn zeta; cbn [nets_header].
  - repeat split.
  - destruct (PyStr.startswith (PyStr.strip l) "NumNets").
    + destruct (header_int (PyStr.strip l)) as [e | v]; [repeat split |].
      exact (IH (set_num_nets v st)).
    + destruct (PyStr.startswith (PyStr.strip l) "NumPins").
      * destruct (header_int (PyStr.strip l)); repeat split.
      * apply IH.
Qed.

Lemma nets_body_appends lines : forall cur pins degs (st : Parser num),
  let r := state_of (nets_body lines cur pins degs st) in
  exists added,
    nets (fst r) = nets st ++ added
    /\ snd (snd r) = degs ++ map net_degree added
    /\ same_objects st (fst r)
    /\ max_net_degree (fst r) = max_net_degree st.
Proof.
  induction lines as [|l lines IH]; intros cur pins degs st; cbn zeta.
  - exists []. cbn. rewrite !app_nil_r. repeat split.
  - cbn [nets_body].
    destruct (String.eqb (PyStr.strip l) "" || PyStr.startswith (PyStr.strip l) "#");
      [apply IH |].
    destruct (PyStr.startswith (PyStr.strip l) "NumNets"
              || PyStr.startswith (PyStr.strip l) "NumPins"); [apply IH |].
    destruct (PyStr.startswith (PyStr.strip l) "NetDegree").
    + destruct (save_net_appends cur pins degs st)
        as (add1 & S1 & S2 & S3 & S4).
      destruct (save_net cur pins degs st) as [st1 degs1]. cbn [fst snd] in *.
      destruct (net_header (PyStr.strip l) st1) as [e | [d net_name]].
      * exists add1. cbn. auto.
      * destruct (IH (Some net_name) [] degs1 st1)
          as (add2 & T1 & T2 & T3 & T4).
        exists (add1 ++ add2).
        split; [rewrite T1, S1; now rewrite app_assoc |].
        split; [rewrite T2, S2, map_app; now rewrite app_assoc |].
        split; [exact (same_objects_trans S3 T3) |].
        now rewrite T4.
    + destruct (PyStr.split (PyStr.strip l)) as [|node_name more];
        [apply IH |].
      destruct (PyDict.contains node_name (nodes st)); apply IH.
Qed.

End NetsAppend.

Lemma parse_nets_appends
      {num : Type} `{Number num}
      (file : option (list string)) (st : Parser num) :
  exists added,
    nets (parse_nets file st) = nets st ++ added
    /\ same_objects st (parse_nets file st).
Proof.
  unfold parse_nets. destruct file as [lines |].
  2:{ exists []. rewrite app_nil_r. repeat split. }
  destruct (nets_header_kept lines st) as (N1 & N2 & _).
  destruct (nets_header lines st) as [st1 | st1 e]; cbn [state_of] in *.
  2:{ exists []. rewrite app_nil_r. split; [exact N1 | exact N2]. }
  destruct (nets_body_appends lines None [] [] st1)
    as (add & B1 & _ & B3 & _).
  destruct (nets_body lines None [] [] st1)
    as [[st2 [[cur' pins'] degs']] | [st2 x] e]; cbn [state_of fst snd] in *.
  - destruct (save_net_appends cur' pins' degs' st2)
      as (add' & S1 & _ & S3 & _).
    destruct (save_net cur' pins' degs' st2) as [st3 degs].
    cbn [fst snd] in *.
    exists (add ++ add').
    assert (Hst3 : nets st3 = nets st ++ add ++ add'
                   /\ same_objects st st3).
    { split; [rewrite S1, B1, N1; now rewrite app_assoc |].
      exact (same_objects_trans N2 (same_objects_trans B3 S3)). }
    destruct degs; exact Hst3.
  - exists add. split; [cbn; now rewrite B1, N1 |].
    exact (same_objects_trans N2 B3).
Qed.

(** What [parse_nets] leaves alone, on every file, read or not.  The
    nets that were stored stay, in their order, before the ones it
    adds; the node objects, the three dictionaries, the core region and
    the files are not touched. *)
Theorem parse_nets_only_appends
        {num : Type} `{Number num}
        (file : option (list string)) (st : Parser num) :
  let st' := parse_nets file st in
  nets st = firstn (List.length (nets st)) (nets st')
  /\ nodes st' = nodes st /\ fixed_nodes st' = fixed_nodes st
  /\ movable_nodes st' = movable_nodes st
  /\ store st' = store st /\ next_addr st' = next_addr st
  /\ core_lower_left st' = core_lower_left st
  /\ core_upper_right st' = core_upper_right st
  /\ disk st' = disk st.
Proof.
  cbn zeta.
  destruct (parse_nets_appends file st) as (added & Hn & Hs).
  split; [| exact Hs].
  rewrite Hn. now rewrite firstn_app, firstn_all, Nat.sub_diag, app_nil_r.
Qed.

(** The largest degree.  When the count lines and the [NetDegree] lines
    of a nets file can be read, [max_net_degree] is afterwards the
    largest degree among the nets that this call of [parse_nets] has
    stored; when the call has stored no net, [max_net_degree] keeps the
    value it had. *)
Theorem max_net_degree_is_of_the_added_nets
        {num : Type} `{Number num}
        (lines : list string) (st st1 : Parser num) :
  nets_header lines st = Ok st1 ->
  net_headers_ok lines ->
  let st' := parse_nets (Some lines) st in
  let added := skipn (List.length (nets st)) (nets st') in
  max_net_degree st'
  = match added with
    | [] => max_net_degree st
    | _ :: _ => fold_right Nat.max 0 (map net_degree added)
    end.
Proof.
  intros Hh Hok. cbn zeta. unfold parse_nets. rewrite Hh.
  pose proof (nets_header_kept lines st) as Hk. rewrite Hh in Hk.
  cbn zeta in Hk. cbn [state_of] in Hk. destruct Hk as (N1 & _ & N3).
  destruct (nets_body_blocks None [] [] st1 Hok)
    as (st2 & cur' & pins' & degs' & Hb & _).
  destruct (nets_body_appends lines None [] [] st1)
    as (add & B1 & B2 & _ & B4).
  rewrite Hb in B1, B2, B4 |- *. cbn [state_of fst snd] in *.
  destruct (save_net_appends cur' pins' degs' st2)
    as (add' & S1 & S2 & _ & S4).
  destruct (save_net cur' pins' degs' st2) as [st3 degs]. cbn [fst snd] in *.
  assert (Hnets : nets st3 = nets st ++ (add ++ add'))
    by (rewrite S1, B1, N1; now rewrite app_assoc).
  assert (Hdegs : degs = map net_degree (add ++ add'))
    by (rewrite S2, B2, map_app; reflexivity).
  assert (Hskip : forall s : Parser num,
             nets s = nets st3 ->
             skipn (List.length (nets st)) (nets s) = add ++ add').
  { intros s Hs. rewrite Hs, Hnets, skipn_app, skipn_all, Nat.sub_diag.
    reflexivity. }
  destruct degs as [|d degs].
  - rewrite (Hskip st3 eq_refl).
    destruct (add ++ add'); [congruence | discriminate].
  - rewrite (Hskip (set_max_net_degree _ st3) eq_refl).
    destruct (add ++ add') as [|n rest]; [discriminate |].
    cbn [max_net_degree set_max_net_degree]. now rewrite Hdegs.
Qed.

Lemma max_net_degree_is_of_the_added_nets_witness :
  let st : Parser Q := parse_nodes (Some Scenario.nodes_file) init in
  let st' := parse_nets (Some Scenario.nets_file) st in
  let st'' := parse_nets (Some ["NumNets : 1"; "NumPins : 1";
                                "NetDegree : 1 n1"; "  a I"]) st' in
  max_net_degree st' = 2 /\ max_net_degree st'' = 1
  /\ map net_degree (nets st'') = [2; 1].
Proof.
  cbn zeta.
  set (st := parse_nodes (Some Scenario.nodes_file) (init (num := Q))).
  set (st' := parse_nets (Some Scenario.nets_file) st).
  set (lines := ["NumNets : 1"; "NumPins : 1"; "NetDegree : 1 n1"; "  a I"]).
  assert (Hh : nets_header lines st'
               = Ok (set_num_pins 1 (set_num_nets 1 st')))
    by (vm_compute; reflexivity).
  assert (Hok : net_headers_ok lines).
  { unfold net_headers_ok.
    assert (Hb : net_blocks lines = [("NetDegree : 1 n1", ["a I"])])
      by (vm_compute; reflexivity).
    rewrite Hb. constructor; [| constructor].
    eexists. vm_compute. reflexivity. }
  pose proof (@max_net_degree_is_of_the_added_nets
                Q QNumber lines st' _ Hh Hok) as Hm.
  cbn zeta in Hm.
  assert (Hadd : map net_degree
                     (skipn (List.length (nets st'))
                            (nets (parse_nets (Some lines) st'))) = [1])
    by (vm_compute; reflexivity).
  split; [vm_compute; reflexivity |].
  split; [| vm_compute; reflexivity].
  rewrite Hm.
  destruct (skipn (List.length (nets st')) (nets (parse_nets (Some lines) st')))
    as [|n rest]; [discriminate |].
  rewrite Hadd. reflexivity.
Defined.

(** ** A nodes file without movable nodes *)

Section NoMovable.
Context {num : Type} `{Number num}.

Lemma declare_node_all_fixed (st : Parser num) name w h :
  (num_modules st - num_terminals st <= 0)%Z ->
  fixed_nodes st = nodes st ->
  (forall k a, In (k, a) (PyDict.items (nodes st)) ->
               a < next_addr st /\ node_is_fixed (store st a) = true) ->
  let st' := declare_node name w h st in
  num_modules st' = num_modules st /\ num_terminals st' = num_terminals st
  /\ movable_nodes st' = movable_nodes st
  /\ fixed_nodes st' = nodes st'
  /\ (forall k a, In (k, a) (PyDict.items (nodes st')) ->
                  a < next_addr st' /\ node_is_fixed (store st' a) = true).
Proof.
  intros Hc Hf Hall. cbn zeta. unfold declare_node.
  assert (Hge : (Z.of_nat (PyDict.len (nodes st))
                 >=? num_modules st - num_terminals st)%Z = true)
    by (apply Z.geb_le; lia).
  rewrite Hge. cbn. rewrite Hf.
  do 4 (split; [reflexivity |]).
  intros k a Hin. apply in_set in Hin. unfold store_set.
  destruct Hin as [[_ Heq] | Hin].
  - rewrite Heq, Nat.eqb_refl. split; [lia | reflexivity].
  - destruct (Hall _ _ Hin) as [Hlt Hfix].
    destruct (Nat.eqb_spec a (next_addr st)); [lia |].
    split; [lia | exact Hfix].
Qed.

Lemma nodes_body_all_fixed lines : forall node_start (st : Parser num),
  (num_modules st - num_terminals st <= 0)%Z ->
  fixed_nodes st = nodes st ->
  (forall k a, In (k, a) (PyDict.items (nodes st)) ->
               a < next_addr st /\ node_is_fixed (store st a) = true) ->
  let st' := state_of (nodes_body lines node_start st) in
  movable_nodes st' = movable_nodes st
  /\ fixed_nodes st' = nodes st'
  /\ (forall k a, In (k, a) (PyDict.items (nodes st')) ->
                  a < next_addr st' /\ node_is_fixed (store st' a) = true).
Proof.
  induction lines as [|l lines IH]; intros node_start st Hc Hf Hall;
    cbn zeta; cbn [nodes_body].
  - cbn. auto.
  - destruct (String.eqb (PyStr.strip l) "" || PyStr.startswith (PyStr.strip l) "#");
      [now apply IH |].
    destruct (PyStr.startswith (PyStr.strip l) "NumNodes"
              || PyStr.startswith (PyStr.strip l) "NumTerminals");
      [now apply IH |].
    destruct node_start; [| now apply IH].
    destruct (PyStr.split (PyStr.strip l)) as [|nm [|p1 [|p2 rest]]];
      try (now apply IH).
    destruct (PyStr.int p1) as [w |]; [| cbn; auto].
    destruct (PyStr.int p2) as [h |]; [| cbn; auto].
    destruct (@declare_node_all_fixed st nm w h Hc Hf Hall)
      as (D1 & D2 & D3 & D4 & D5).
    destruct (IH true (declare_node nm w h st)) as (I1 & I2 & I3);
      [rewrite D1, D2; exact Hc | exact D4 | exact D5 |].
    split; [now rewrite I1 | split; assumption].
Qed.

End NoMovable.

(** A nodes file whose counts leave no movable node.  When the count
    lines give [NumNodes - NumTerminals <= 0] (as they do when the
    [NumTerminals] line comes first: the reading of the counts stops
    there and [NumNodes] stays 0), [parse_nodes] makes every declared
    node a fixed node, whether or not a later record stops the
    reading: [self.movable_nodes] stays empty and [self.fixed_nodes]
    holds the same entries as [self.nodes]. *)
Theorem parse_nodes_without_movable_nodes
        {num : Type} `{Number num} (lines : list string) (st1 : Parser num) :
  nodes_header lines init = Ok st1 ->
  (num_modules st1 <= num_terminals st1)%Z ->
  let st' := parse_nodes (Some lines) init in
  movable_nodes st' = []
  /\ fixed_nodes st' = nodes st'
  /\ (forall k a, In (k, a) (PyDict.items (nodes st')) ->
                  node_is_fixed (store st' a) = true).
Proof.
  intros Hh Hle. cbn zeta. unfold parse_nodes. rewrite Hh.
  destruct (nodes_header_frame _ _ Hh) as (Hn & Hm & Hf & _).
  set (st2 := set_num_nodes (num_modules st1 - num_terminals st1) st1).
  destruct (@nodes_body_all_fixed _ _ lines false st2) as (B1 & B2 & B3).
  - cbn. lia.
  - cbn. now rewrite Hn, Hf.
  - cbn. rewrite Hn. cbn. intros k a [].
  - assert (Hgoal : movable_nodes (state_of (nodes_body lines false st2)) = []
                    /\ fixed_nodes (state_of (nodes_body lines false st2))
                       = nodes (state_of (nodes_body lines false st2))
                    /\ (forall k a,
                          In (k, a) (PyDict.items
                                       (nodes (state_of (nodes_body lines false st2)))) ->
                          node_is_fixed
                            (store (state_of (nodes_body lines false st2)) a)
                          = true)).
    { split; [rewrite B1; cbn; now rewrite Hm |].
      split; [exact B2 |]. intros k a Hin. now apply (B3 k a). }
    destruct (nodes_body lines false st2) as [st3 | st3 e]; exact Hgoal.
Qed.

Lemma parse_nodes_without_movable_nodes_witness :
  let st' : Parser Q := parse_nodes (Some Scenario.nodes_file_swapped) init in
  (num_modules st', num_terminals st') = (0%Z, 1%Z)
  /\ movable_nodes st' = []
  /\ PyDict.keys (fixed_nodes st') = ["a"; "t"]
  /\ fst (fst (build_quadratic_matrix st')) = mkSparse 0 [].
Proof.
  cbn zeta.
  assert (Hh : nodes_header Scenario.nodes_file_swapped init
               = Ok (set_num_terminals 1 (init (num := Q))))
    by (vm_compute; reflexivity).
  assert (Hle : (num_modules (set_num_terminals 1 (init (num := Q)))
                 <= num_terminals (set_num_terminals 1 (init (num := Q))))%Z)
    by (vm_compute; discriminate).
  destruct (@parse_nodes_without_movable_nodes
              Q QNumber Scenario.nodes_file_swapped _ Hh Hle) as (Hm & _).
  split; [vm_compute; reflexivity |]. split; [exact Hm |].
  split; vm_compute; reflexivity.
Defined.

(** ** The older parser: which entries are marked *)

Lemma read_nodes_unmarked ls : forall d d',
  (forall e, In e d -> Task2.is_terminal (snd e) = false) ->
  Task2.read_nodes ls d = Some d' ->
  forall e, In e d' -> Task2.is_terminal (snd e) = false.
Proof.
  induction ls as [|line ls IH]; intros d d' Hd Hr; cbn in Hr.
  - now inversion Hr; subst.
  - destruct (Task2.node_pattern line) as [[[name w] h] |];
      [| exact (IH _ _ Hd Hr)].
    destruct (PyStr.int w) as [wv |]; [| discriminate].
    destruct (PyStr.int h) as [hv |]; [| discriminate].
    refine (IH _ _ _ Hr).
    intros [k v] Hin. apply in_set in Hin.
    destruct Hin as [[_ Hv] | Hin]; [now rewrite Hv | exact (Hd _ Hin)].
Qed.

Lemma mark_terminals_nth d : forall limit c i name info,
  nth_error (Task2.mark_terminals limit c d) i = Some (name, info) ->
  exists info0,
    nth_error d i = Some (name, info0)
    /\ Task2.width info = Task2.width info0
    /\ Task2.height info = Task2.height info0
    /\ Task2.is_terminal info
       = ((c + Z.of_nat i <? limit)%Z || Task2.is_terminal info0).
Proof.
  induction d as [|[k v] d IH]; intros limit c i name info Hn.
  - destruct i; discriminate.
  - cbn [Task2.mark_terminals] in Hn.
    destruct (Z.ltb_spec c limit) as [Hlt | Hge].
    + destruct i as [|i]; cbn [nth_error] in Hn |- *.
      * inversion Hn; subst. exists v. cbn.
        replace (c + 0 <? limit)%Z with true
          by (symmetry; apply Z.ltb_lt; lia).
        auto.
      * destruct (IH _ _ _ _ _ Hn) as (info0 & H1 & H2 & H3 & H4).
        exists info0. repeat split; try assumption.
        rewrite H4. f_equal. f_equal. lia.
    + exists info. repeat split; try assumption.
      replace (c + Z.of_nat i <? limit)%Z with false
        by (symmetry; apply Z.ltb_ge; lia).
      reflexivity.
Qed.

(** The older parser, in general.  When [parse_nodes_file] returns, the
    entry at position [i] of [self.nodes_info] (the nodes in the order
    of their first declaration) is marked as terminal exactly when
    [i < NumTerminals]: the marked nodes are the first ones declared,
    whatever the file says about them. *)
Theorem older_parser_marks_by_position
        (lines : list string) (st : Task2.Parser)
        (i : nat) (name : string) (info : Task2.node_info) :
  Task2.parse_nodes_file lines Task2.init = Some st ->
  nth_error (PyDict.items (Task2.nodes_info st)) i = Some (name, info) ->
  Task2.is_terminal info = (Z.of_nat i <? Task2.terminal_nodes st)%Z.
Proof.
  unfold Task2.parse_nodes_file. intros Hp Hn.
  destruct (Task2.read_counts (Task2.data_lines lines) Task2.init)
    as [st1 |] eqn:Ec; [| discriminate].
  destruct (Task2.read_nodes (Task2.data_lines lines) (Task2.nodes_info st1))
    as [d |] eqn:Er; [| discriminate].
  inversion Hp; subst; clear Hp. cbn in Hn |- *.
  destruct (mark_terminals_nth _ _ _ _ Hn) as (info0 & H0 & _ & _ & H3).
  assert (Hgen : forall ls p p', Task2.read_counts ls p = Some p' ->
                                 Task2.nodes_info p' = Task2.nodes_info p).
  { induction ls as [|line ls IH]; intros p p' Hc; cbn in Hc.
    - now inversion Hc.
    - destruct (Task2.has_substring "NumNodes" line).
      + destruct (Task2.header_value "NumNodes" line); [| discriminate].
        now rewrite (IH _ _ Hc).
      + destruct (Task2.has_substring "NumTerminals" line).
        * destruct (Task2.header_value "NumTerminals" line); [| discriminate].
          now rewrite (IH _ _ Hc).
        * exact (IH _ _ Hc). }
  assert (Hinit : Task2.nodes_info st1 = []) by exact (Hgen _ _ _ Ec).
  rewrite Hinit in Er.
  assert (Hun : Task2.is_terminal info0 = false).
  { apply (@read_nodes_unmarked (Task2.data_lines lines) [] d
             (fun e Hin => match Hin with end) Er (name, info0)).
    exact (nth_error_In _ _ H0). }
  rewrite H3, Hun.
  replace (0 + Z.of_nat i)%Z with (Z.of_nat i) by lia. apply orb_false_r.
Qed.

Lemma older_parser_marks_by_position_witness :
  exists st info,
    Task2.parse_nodes_file Scenario.three_nodes_file Task2.init = Some st
    /\ Task2.terminal_nodes st = 1%Z
    /\ nth_error (PyDict.items (Task2.nodes_info st)) 2 = Some ("t", info)
    /\ Task2.is_terminal info = false.
Proof.
  set (info := Task2.mkInfo 1 1 false).
  set (st := Task2.mkParser 3 1 2
               [("a", Task2.mkInfo 4 2 true); ("b", Task2.mkInfo 6 2 false);
                ("t", info)]).
  assert (Hp : Task2.parse_nodes_file Scenario.three_nodes_file Task2.init
               = Some st) by (vm_compute; reflexivity).
  assert (Hn : nth_error (PyDict.items (Task2.nodes_info st)) 2
               = Some ("t", info)) by reflexivity.
  pose proof (@older_parser_marks_by_position
                Scenario.three_nodes_file st 2 "t" info Hp Hn) as Hm.
  exists st, info.
  split; [exact Hp |]. split; [reflexivity |]. split; [exact Hn |].
  rewrite Hm. reflexivity.
Defined.

(** ** The nodes out of bounds after the adjustment *)




(** ** The core region read from the rows file *)

Section SclCore.
Context {num : Type} `{Scl.RowNumber num}.

Lemma subrow_without_count l :
  Scl.count_after_colon l ->
  PyStr.startswith (PyStr.strip l) "SubrowOrigin" = true ->
  forall r, Scl.subrow (PyStr.strip l) <> inr (Some r).
Proof.
  intros Hc Hs r. specialize (Hc Hs). unfold Scl.subrow.
  destruct (PyStr.split_on ":" (PyStr.strip l)) as [|p0 [|p1 [|p2 ps]]];
    try discriminate.
  cbn [nth] in Hc.
  destruct (nth_error (PyStr.split (PyStr.strip p1)) 0); [| discriminate].
  destruct (PyStr.int s); [| discriminate].
  destruct (PyStr.split (PyStr.strip p2)) as [|f0 [|f1 fs]];
    cbn in Hc |- *; try discriminate. lia.
Qed.

Lemma row_block_min_x lines : forall info b (rows : Scl.Rows num),
  Forall Scl.count_after_colon lines ->
  Scl.min_x b = None ->
  Scl.min_x (fst (Scl.row_block lines info b rows)) = None.
Proof.
  induction lines as [|l lines IH]; intros info b rows Hall Hb;
    [exact Hb |].
  inversion Hall as [| ? ? Hl Hrest]; subst.
  cbn [Scl.row_block].
  destruct (PyStr.startswith (PyStr.strip l) "End"); [exact Hb |].
  destruct (PyStr.startswith (PyStr.strip l) "Coordinate").
  { destruct (header_int (PyStr.strip l)); now apply IH. }
  destruct (PyStr.startswith (PyStr.strip l) "Height").
  { destruct (header_int (PyStr.strip l)); now apply IH. }
  destruct (PyStr.startswith (PyStr.strip l) "Sitewidth").
  { destruct (Scl.colon_float (PyStr.strip l)); now apply IH. }
  destruct (PyStr.startswith (PyStr.strip l) "SubrowOrigin") eqn:Es;
    [| now apply IH].
  pose proof (subrow_without_count Hl Es) as Hno.
  destruct (Scl.subrow (PyStr.strip l)) as [e | [[x_origin num_sites] |]];
    [now apply IH | | now apply IH].
  exfalso. exact (Hno _ eq_refl).
Qed.

Lemma scl_lines_min_x lines : forall b (rows : Scl.Rows num) (st : Parser num),
  Forall Scl.count_after_colon lines ->
  Scl.min_x b = None ->
  Scl.min_x (fst (fst (Scl.scl_lines lines b rows st))) = None.
Proof.
  induction lines as [|l lines IH]; intros b rows st Hall Hb; [exact Hb |].
  inversion Hall as [| ? ? Hl Hrest]; subst.
  cbn [Scl.scl_lines].
  destruct (PyStr.startswith (PyStr.strip l) "NumRows").
  { destruct (header_int (PyStr.strip l)); now apply IH. }
  destruct (PyStr.startswith (PyStr.strip l) "CoreRow Horizontal");
    [| now apply IH].
  pose proof (@row_block_min_x lines (Scl.mkRowInfo None None) b rows
                               Hrest Hb) as Hr.
  destruct (Scl.row_block lines (Scl.mkRowInfo None None) b rows)
    as [b1 rows1].
  now apply IH.
Qed.

Lemma scl_lines_frame lines : forall b (rows : Scl.Rows num) (st : Parser num),
  let st' := snd (Scl.scl_lines lines b rows st) in
  nodes st' = nodes st /\ fixed_nodes st' = fixed_nodes st
  /\ movable_nodes st' = movable_nodes st /\ nets st' = nets st
  /\ store st' = store st /\ next_addr st' = next_addr st
  /\ disk st' = disk st.
Proof.
  induction lines as [|l lines IH]; intros b rows st; cbn zeta;
    [repeat split |].
  cbn [Scl.scl_lines].
  destruct (PyStr.startswith (PyStr.strip l) "NumRows").
  { destruct (header_int (PyStr.strip l)); [| apply IH].
    exact (IH b rows (print (Msg "Warning: Unable to parse row number") st)). }
  destruct (PyStr.startswith (PyStr.strip l) "CoreRow Horizontal");
    [| apply IH].
  destruct (Scl.row_block lines (Scl.mkRowInfo None None) b rows)
    as [b1 rows1].
  apply IH.
Qed.

End SclCore.

(** The core region of a rows file in the usual layout.  When no
    [SubrowOrigin] line has a second field after its second colon (the
    layout [SubrowOrigin : x NumSites : n] has one), [parse_scl] reads
    no row extent and sets the core region to the default, from
    [(0, 0)] to [(10000, 10000)], whatever rows the file describes. *)
Theorem usual_rows_file_gives_the_default_core
        {num : Type} `{Scl.RowNumber num}
        (lines : list string) (rows : Scl.Rows num) (st : Parser num) :
  Forall Scl.count_after_colon lines ->
  let st' := snd (Scl.parse_scl (Some lines) rows st) in
  core_lower_left st' = (of_int 0, of_int 0)
  /\ core_upper_right st' = (of_int 10000, of_int 10000).
Proof.
  intros Hall. cbn zeta. unfold Scl.parse_scl.
  pose proof (@scl_lines_min_x _ _ _ lines (Scl.mkBounds None None None None)
                               rows st Hall eq_refl) as Hm.
  destruct (Scl.scl_lines lines (Scl.mkBounds None None None None) rows st)
    as [[b rows1] st1].
  cbn [fst] in Hm. unfold Scl.core_of. rewrite Hm. cbn. split; reflexivity.
Qed.

Lemma usual_rows_file_gives_the_default_core_witness :
  let st' : Parser Q := snd (Scl.parse_scl (Some Scl.two_rows) Scl.init init) in
  Forall Scl.count_after_colon Scl.two_rows
  /\ core_lower_left st' = (0%Q, 0%Q)
  /\ core_upper_right st' = (10000%Q, 10000%Q)
  /\ core_upper_right
       (snd (Scl.parse_scl (Some Scl.two_rows_counted) Scl.init (init (num := Q))))
     = (117%Q, 41%Q).
Proof.
  cbn zeta.
  assert (Hall : Forall Scl.count_after_colon Scl.two_rows).
  { unfold Scl.two_rows.
    repeat (constructor; [intros _; vm_compute; lia |]). constructor. }
  destruct (@usual_rows_file_gives_the_default_core
              Q QNumber Scl.QRowNumber Scl.two_rows Scl.init init Hall)
    as [Hll Hur].
  split; [exact Hall |]. split; [exact Hll |]. split; [exact Hur |].
  vm_compute. reflexivity.
Defined.

Lemma parse_scl_frame
        {num : Type} `{Scl.RowNumber num}
        (file : option (list string)) (rows : Scl.Rows num) (st : Parser num) :
  let st' := snd (Scl.parse_scl file rows st) in
  nodes st' = nodes st /\ fixed_nodes st' = fixed_nodes st
  /\ movable_nodes st' = movable_nodes st /\ nets st' = nets st
  /\ store st' = store st /\ next_addr st' = next_addr st
  /\ disk st' = disk st.
Proof.
  cbn zeta. unfold Scl.parse_scl. destruct file as [lines |];
    [| repeat split].
  pose proof (scl_lines_frame lines (Scl.mkBounds None None None None) rows st)
    as Hf.
  cbn zeta in Hf.
  destruct (Scl.scl_lines lines (Scl.mkBounds None None None None) rows st)
    as [[b rows1] st1].
  destruct (Scl.core_of b) as [ll ur]. exact Hf.
Qed.

(** [parse_scl] decides the core region and nothing else of the
    netlist: on every file, read or not, the node objects, the three
    dictionaries, the nets and the files stay as they were. *)
Theorem parse_scl_keeps_the_netlist
        {num : Type} `{Scl.RowNumber num}
        (file : option (list string)) (rows : Scl.Rows num) (st : Parser num) :
  let st' := snd (Scl.parse_scl file rows st) in
  nodes st' = nodes st /\ fixed_nodes st' = fixed_nodes st
  /\ movable_nodes st' = movable_nodes st /\ nets st' = nets st
  /\ store st' = store st /\ next_addr st' = next_addr st
  /\ disk st' = disk st.
Proof. exact (@parse_scl_frame num _ _ file rows st). Qed.

(** ** Nets without declared nodes *)

Lemma nets_body_without_nodes
      {num : Type} `{Number num} lines : forall cur degs (st : Parser num),
  nodes st = [] ->
  let r := state_of (nets_body lines cur [] degs st) in
  nets (fst r) = nets st /\ snd r = (fst (fst (snd r)), [], degs).
Proof.
  induction lines as [|l lines IH]; intros cur degs st Hn; cbn zeta.
  - cbn. auto.
  - cbn [nets_body].
    destruct (String.eqb (PyStr.strip l) "" || PyStr.startswith (PyStr.strip l) "#");
      [now apply IH |].
    destruct (PyStr.startswith (PyStr.strip l) "NumNets"
              || PyStr.startswith (PyStr.strip l) "NumPins"); [now apply IH |].
    destruct (PyStr.startswith (PyStr.strip l) "NetDegree").
    + assert (Hs : save_net cur [] degs st = (st, degs))
        by (unfold save_net; now destruct cur).
      rewrite Hs.
      destruct (net_header (PyStr.strip l) st) as [e | [d net_name]];
        [cbn; auto | now apply IH].
    + destruct (PyStr.split (PyStr.strip l)) as [|node_name more];
        [now apply IH |].
      rewrite Hn. cbn [PyDict.contains PyDict.get]. now apply IH.
Qed.

(** Without declared nodes no net is stored.  When [self.nodes] is empty
    (no nodes file, or one that could not be read), [parse_nets] stores
    no net, whatever the nets file holds: every pin is dropped as a pin
    on an unknown node and a net without pin is not kept. *)
Theorem parse_nets_without_nodes_stores_nothing
        {num : Type} `{Number num}
        (file : option (list string)) (st : Parser num) :
  nodes st = [] ->
  nets (parse_nets file st) = nets st
  /\ max_net_degree (parse_nets file st) = max_net_degree st.
Proof.
  intros Hn. unfold parse_nets. destruct file as [lines |]; [| now split].
  destruct (nets_header_kept lines st) as (N1 & N2 & N3).
  destruct (nets_header lines st) as [st1 | st1 e]; cbn [state_of] in *;
    [| now split].
  assert (Hn1 : nodes st1 = []) by (destruct N2 as (N2 & _); congruence).
  destruct (nets_body_without_nodes lines None [] st1 Hn1) as (B1 & B2).
  destruct (nets_body_appends lines None [] [] st1) as (add & _ & _ & _ & M).
  destruct (nets_body lines None [] [] st1)
    as [[st2 [[cur' pins'] degs']] | [st2 x] e]; cbn [state_of fst snd] in *.
  - inversion B2; subst.
    assert (Hs : save_net cur' [] [] st2 = (st2, []))
      by (unfold save_net; now destruct cur').
    rewrite Hs. split; congruence.
  - split; cbn; congruence.
Qed.

Lemma parse_nets_without_nodes_witness :
  let st : Parser Q := parse_nodes None init in
  nodes st = []
  /\ stdout st = [MsgExn "Error parsing .nodes file: " FileNotFoundError]
  /\ nets (parse_nets (Some Scenario.nets_file) st) = []
  /\ stdout (parse_nets (Some Scenario.nets_file) st) = stdout st.
Proof.
  cbn zeta.
  assert (Hn : nodes (parse_nodes None (init (num := Q))) = []) by reflexivity.
  destruct (@parse_nets_without_nodes_stores_nothing
              Q QNumber (Some Scenario.nets_file) _ Hn) as [Hnets _].
  split; [exact Hn |]. split; [reflexivity |].
  split; [exact Hnets | vm_compute; reflexivity].
Defined.

(** ** From the design directory to the placement file *)

Section WholeProgram.
Context {num : Type} `{Scl.RowNumber num}.

Lemma nodes_header_disk lines : forall st : Parser num,
  disk (state_of (nodes_header lines st)) = disk st.
Proof.
  induction lines as [|l lines IH]; intros st; cbn; [reflexivity |].
  destruct (PyStr.startswith (PyStr.strip l) "NumNodes").
  - destruct (header_int (PyStr.strip l)); [reflexivity |].
    exact (IH (set_num_modules z st)).
  - destruct (PyStr.startswith (PyStr.strip l) "NumTerminals").
    + destruct (header_int (PyStr.strip l)); reflexivity.
    + apply IH.
Qed.

Lemma nodes_body_disk lines : forall node_start (st : Parser num),
  disk (state_of (nodes_body lines node_start st)) = disk st.
Proof.
  induction lines as [|l lines IH]; intros node_start st; cbn [nodes_body];
    [reflexivity |].
  destruct (String.eqb (PyStr.strip l) "" || PyStr.startswith (PyStr.strip l) "#");
    [apply IH |].
  destruct (PyStr.startswith (PyStr.strip l) "NumNodes"
            || PyStr.startswith (PyStr.strip l) "NumTerminals"); [apply IH |].
  destruct node_start; [| apply IH].
  destruct (PyStr.split (PyStr.strip l)) as [|nm [|p1 [|p2 rest]]];
    try apply IH.
  destruct (PyStr.int p1) as [w |]; [| reflexivity].
  destruct (PyStr.int p2) as [h |]; [| reflexivity].
  rewrite IH. unfold declare_node. cbn zeta.
  destruct (Z.of_nat (PyDict.len (nodes st))
            >=? num_modules st - num_terminals st)%Z; reflexivity.
Qed.

Lemma parse_nodes_disk file (st : Parser num) :
  disk (parse_nodes file st) = disk st.
Proof.
  unfold parse_nodes. destruct file as [lines |]; [| reflexivity].
  pose proof (nodes_header_disk lines st) as Hh.
  destruct (nodes_header lines st) as [st1 | st1 e]; cbn [state_of] in Hh;
    [| exact Hh].
  pose proof (nodes_body_disk lines false
                (set_num_nodes (num_modules st1 - num_terminals st1) st1))
    as Hb.
  destruct (nodes_body lines false _) as [st3 | st3 e]; cbn [state_of] in Hb;
    cbn; now rewrite Hb.
Qed.

Lemma parse_aux_frame fs p (st : Parser num) :
  well_formed st ->
  well_formed (snd (Files.parse_aux fs p st))
  /\ disk (snd (Files.parse_aux fs p st)) = disk st.
Proof.
  intros Hwf. unfold Files.parse_aux.
  destruct (fs (Files.aux_file p)) as [lines |]; [| split; [exact Hwf | reflexivity]].
  destruct (Task2.has_substring "RowBasedPlacement" (PyStr.strip (hd "" lines)));
    [| split; [exact Hwf | reflexivity]].
  destruct (PyStr.split_on ":" (PyStr.strip (hd "" lines))) as [|x [|names r]];
    try (split; [exact Hwf | reflexivity]).
  destruct (PyStr.split (PyStr.strip names)) as [|f0 [|f1 [|f2 [|f3 [|f4 r']]]]];
    split; first [exact Hwf | reflexivity].
Qed.

Lemma parse_all_frame fs p rows (st : Parser num) :
  well_formed st ->
  well_formed (snd (Files.parse_all fs p rows st))
  /\ disk (snd (Files.parse_all fs p rows st)) = disk st.
Proof.
  intros Hwf. unfold Files.parse_all.
  destruct (parse_aux_frame fs p Hwf) as [Hwf1 Hd1].
  destruct (Files.parse_aux fs p st) as [p1 st1]. cbn [snd] in Hwf1, Hd1.
  set (st2 := parse_nodes (fs (Files.nodes_file p1)) st1).
  set (st3 := parse_nets (fs (Files.nets_file p1)) st2).
  assert (Hwf3 : well_formed st3)
    by (apply well_formed_parse_nets, well_formed_parse_nodes, Hwf1).
  assert (Hd3 : disk st3 = disk st).
  { destruct (parse_nets_appends (fs (Files.nets_file p1)) st2)
      as (added & _ & Hs).
    destruct Hs as (_ & _ & _ & _ & _ & _ & _ & Hd).
    unfold st3. rewrite Hd. unfold st2. now rewrite parse_nodes_disk. }
  destruct (@parse_scl_frame _ _ _ (fs (Files.scl_file p1)) rows st3)
    as (S1 & S2 & S3 & S4 & S5 & S6 & S7).
  destruct (Scl.parse_scl (fs (Files.scl_file p1)) rows st3) as [rows1 st4].
  cbn [snd] in *.
  assert (Hwf4 : well_formed st4).
  { apply (well_formed_kept (st := st3)); try assumption.
    split; [rewrite S6; lia | intros a _; now rewrite S5]. }
  split; [now apply well_formed_parse_pl |].
  destruct (parse_pl_kept (fs (Files.pl_file p1)) st4)
    as (_ & _ & _ & _ & _ & Hd & _).
  rewrite Hd, S7. exact Hd3.
Qed.

End WholeProgram.

(** The state that [parse_all] leaves is well formed, whatever the
    design directory holds and whichever files are missing or cannot be
    read: the dictionaries have distinct keys and refer to nodes that
    carry their name, every movable or fixed name is declared, and every
    stored net has at least one pin, all on declared nodes.  These are
    the conditions under which the solver's answer is copied node by
    node. *)
Theorem parse_all_gives_a_well_formed_netlist
        {num : Type} `{Scl.RowNumber num}
        (fs : Files.file_system) (directory : string) :
  well_formed
    (snd (Files.parse_all fs (Files.init_paths directory) Scl.init
                          (init (num := num)))).
Proof. apply parse_all_frame. apply well_formed_init. Qed.


(** ** Reading back a written line *)

Section Tokens.

Lemma token_cons c s :
  is_token (String c s) = true ->
  PyStr.is_space c = false /\ (s = "" \/ is_token s = true).
Proof.
  unfold is_token. cbn. intros Ht. apply andb_prop in Ht.
  destruct Ht as [Hc Hs]. apply negb_true_iff in Hc. split; [exact Hc |].
  destruct s as [|c' s']; [now left | right]. cbn in Hs |- *. exact Hs.
Qed.

Lemma lstrip_token t s :
  is_token t = true -> PyStr.lstrip (t ++ s)%string = (t ++ s)%string.
Proof.
  destruct t as [|c t]; [discriminate |]. intros Ht.
  destruct (token_cons _ _ Ht) as [Hc _]. cbn. now rewrite Hc.
Qed.

Lemma rstrip_app a : forall b b',
  PyStr.rstrip b = b' -> b' <> "" ->
  PyStr.rstrip (a ++ b)%string = (a ++ b')%string.
Proof.
  induction a as [|c a IH]; intros b b' Hb Hne; [exact Hb |].
  cbn. rewrite (IH b b' Hb Hne).
  destruct (a ++ b')%string eqn:E; [| reflexivity].
  destruct a; cbn in E; [contradiction | discriminate].
Qed.

Lemma rstrip_token_nl t :
  is_token t = true -> PyStr.rstrip (t ++ nl)%string = t.
Proof.
  induction t as [|c t IH]; [discriminate |]. intros Ht.
  destruct (token_cons _ _ Ht) as [Hc [-> | Ht']].
  - cbn. now rewrite Hc.
  - cbn [append PyStr.rstrip]. rewrite (IH Ht').
    destruct t; [discriminate | reflexivity].
Qed.

Lemma split_ws_token t : forall s cur,
  forallb (fun c => negb (PyStr.is_space c)) (list_ascii_of_string t) = true ->
  PyStr.split_ws (t ++ s)%string cur
  = PyStr.split_ws s (rev (list_ascii_of_string t) ++ cur).
Proof.
  induction t as [|c t IH]; intros s cur Ht; [reflexivity |].
  cbn in Ht. apply andb_prop in Ht. destruct Ht as [Hc Ht].
  apply negb_true_iff in Hc.
  cbn [append PyStr.split_ws list_ascii_of_string rev]. rewrite Hc.
  rewrite (IH s (c :: cur) Ht). now rewrite <- app_assoc.
Qed.

Lemma token_chars t :
  is_token t = true ->
  forallb (fun c => negb (PyStr.is_space c)) (list_ascii_of_string t) = true
  /\ list_ascii_of_string t <> [].
Proof.
  unfold is_token. intros Ht. apply andb_prop in Ht. destruct Ht as [Hn Hc].
  split; [exact Hc |]. destruct t; [discriminate | cbn; discriminate].
Qed.

(** A token followed by a blank is the first field. *)
Lemma split_ws_field t c s :
  is_token t = true -> PyStr.is_space c = true ->
  PyStr.split_ws (t ++ String c s)%string [] = t :: PyStr.split_ws s [].
Proof.
  intros Ht Hc. destruct (token_chars _ Ht) as [Hch Hne].
  rewrite (split_ws_token t (String c s) [] Hch). rewrite app_nil_r.
  cbn [PyStr.split_ws]. rewrite Hc.
  destruct (rev (list_ascii_of_string t)) eqn:E.
  - apply (f_equal (@rev ascii)) in E. rewrite rev_involutive in E.
    cbn in E. contradiction.
  - rewrite <- E, rev_involutive, string_of_list_ascii_of_string. reflexivity.
Qed.

Lemma split_ws_last t :
  is_token t = true -> PyStr.split_ws t [] = [t].
Proof.
  intros Ht. destruct (token_chars _ Ht) as [Hch Hne].
  pose proof (split_ws_token t "" [] Hch) as Hs.
  rewrite app_nil_r in Hs.
  replace (t ++ "")%string with t in Hs
    by (clear; induction t; cbn; [reflexivity | now rewrite <- IHt]).
  rewrite Hs. cbn [PyStr.split_ws].
  destruct (rev (list_ascii_of_string t)) eqn:E.
  - apply (f_equal (@rev ascii)) in E. rewrite rev_involutive in E.
    cbn in E. contradiction.
  - rewrite <- E, rev_involutive, string_of_list_ascii_of_string. reflexivity.
Qed.

End Tokens.

Lemma written_line_record
      {num : Type} `{Number num}
      (name : string) (n : node num) (o : string) :
  is_token name = true -> PyStr.startswith name "#" = false ->
  is_token (format_6f (node_x n)) = true ->
  is_token (format_6f (node_y n)) = true ->
  is_token o = true ->
  pl_record (pl_line name n o)
  = Some (name, format_6f (node_x n), format_6f (node_y n), ":").
Proof.
  intros Hn Hh Hx Hy Ho. unfold pl_record, pl_line.
  set (fx := format_6f (node_x n)) in *.
  set (fy := format_6f (node_y n)) in *.
  assert (Hstrip : PyStr.strip (name ++ tab ++ fx ++ tab ++ fy ++ tab ++ ": " ++ o ++ nl)%string
                   = (name ++ tab ++ fx ++ tab ++ fy ++ tab ++ ": " ++ o)%string).
  { unfold PyStr.strip. rewrite (lstrip_token _ _ Hn).
    assert (Hne : forall a b : string, b <> "" -> (a ++ b)%string <> "").
    { intros a b Hb Hab. destruct a; cbn in Hab; [contradiction | discriminate]. }
    assert (Ho' : o <> "") by (destruct o; [discriminate | discriminate]).
    repeat (apply rstrip_app; [| repeat apply Hne; try exact Ho'; try discriminate]).
    now apply rstrip_token_nl. }
  rewrite Hstrip.
  assert (Hfirst : ((name ++ tab ++ fx ++ tab ++ fy ++ tab ++ ": " ++ o =? "")%string
                    || PyStr.startswith
                         (name ++ tab ++ fx ++ tab ++ fy ++ tab ++ ": " ++ o)%string
                         "#") = false).
  { destruct name as [|c name']; [discriminate |].
    unfold PyStr.startswith in *.
    cbn [append String.eqb orb String.prefix] in Hh |- *.
    destruct (ascii_dec "#" c); [| reflexivity].
    destruct name'; cbn in Hh; discriminate. }
  rewrite Hfirst. unfold PyStr.split, tab.
  assert (Htab : PyStr.is_space (ascii_of_nat 9) = true) by reflexivity.
  assert (Hsp : PyStr.is_space " " = true) by reflexivity.
  cbn [append].
  rewrite (split_ws_field name _ _ Hn Htab).
  rewrite (split_ws_field fx _ _ Hx Htab).
  rewrite (split_ws_field fy _ _ Hy Htab).
  change (String ":" (String " " o)) with (":" ++ String " " o)%string.
  rewrite (split_ws_field ":" _ _ eq_refl Hsp).
  reflexivity.
Qed.


(** A line that [write_placement_result] has written for a node is read
    back by [parse_pl] as a record of that node with the two coordinates
    as they were printed and with [:] as orientation: the [F] or [N] that
    the writer puts after the colon is the fifth field, which the reader
    never looks at.  So reading the line sets the position and never
    adds a fixed node. *)
Theorem written_line_is_read_back_without_its_flag
        {num : Type} `{Number num}
        (name : string) (n : node num) (o : string) (x y : num)
        (s : Parser num) :
  is_token name = true -> PyStr.startswith name "#" = false ->
  is_token (format_6f (node_x n)) = true ->
  is_token (format_6f (node_y n)) = true ->
  is_token o = true ->
  float_of_string (format_6f (node_x n)) = Some x ->
  float_of_string (format_6f (node_y n)) = Some y ->
  let s' := parse_pl (Some [("UCLA pl 1.0" ++ nl)%string; pl_line name n o]) s in
  s' = place_node name x y ":" s
  /\ PyDict.keys (fixed_nodes s') = PyDict.keys (fixed_nodes s).
Proof.
  intros Hn Hh Hx Hy Ho Hfx Hfy. cbn zeta.
  assert (Hp : parse_pl (Some [("UCLA pl 1.0" ++ nl)%string; pl_line name n o]) s
               = place_node name x y ":" s).
  { unfold parse_pl. cbn [pl_start append]. cbn [PyStr.startswith String.prefix].
    change (skipn 1 [String "U" (String "C" (String "L" (String "A"
              (String " " (String "p" (String "l" (String " " (String "1"
              (String "." (String "0" nl))))))))));
                     pl_line name n o])
      with [pl_line name n o].
    rewrite (@pl_body_record _ _ (pl_line name n o) [] s name
               (format_6f (node_x n)) (format_6f (node_y n)) ":"
               (written_line_record name n o Hn Hh Hx Hy Ho)).
    now rewrite Hfx, Hfy. }
  split; [exact Hp |]. rewrite Hp. unfold place_node.
  destruct (PyDict.get name (nodes s)) as [a |]; [| reflexivity].
  assert (Hf : String.eqb ":" "F" = false) by reflexivity.
  rewrite Hf. cbn [update_node set_store fixed_nodes orb].
  destruct (PyDict.contains name (fixed_nodes s)) eqn:Ec; [| reflexivity].
  cbn [fixed_nodes set_fixed_nodes]. now rewrite keys_set, Ec.
Qed.

Lemma written_line_is_read_back_witness :
  let n : node Q := mkNode "t" 1 1 10%Q 20%Q true 1 (Some "N") in
  let s := Scenario.two_pin in
  let s' := parse_pl (Some [("UCLA pl 1.0" ++ nl)%string; pl_line "t" n "F"]) s in
  pl_line "t" n "F"
  = ("t" ++ tab ++ "10.000000" ++ tab ++ "20.000000" ++ tab ++ ": F" ++ nl)%string
  /\ node_orientation (store s' 1) = Some ":"
  /\ PyDict.keys (fixed_nodes s') = PyDict.keys (fixed_nodes s).
Proof.
  cbn zeta.
  set (n := mkNode "t" 1 1 10%Q 20%Q true 1 (Some "N")).
  set (x := match float_of_string (format_6f (node_x n)) with
            | Some v => v
            | None => 0%Q
            end).
  set (y := match float_of_string (format_6f (node_y n)) with
            | Some v => v
            | None => 0%Q
            end).
  assert (Hn : is_token "t" = true) by reflexivity.
  assert (Hh : PyStr.startswith "t" "#" = false) by reflexivity.
  assert (Hx : is_token (format_6f (node_x n)) = true)
    by (vm_compute; reflexivity).
  assert (Hy : is_token (format_6f (node_y n)) = true)
    by (vm_compute; reflexivity).
  assert (Ho : is_token "F" = true) by reflexivity.
  assert (Hfx : float_of_string (format_6f (node_x n)) = Some x)
    by (vm_compute; reflexivity).
  assert (Hfy : float_of_string (format_6f (node_y n)) = Some y)
    by (vm_compute; reflexivity).
  destruct (@written_line_is_read_back_without_its_flag
              Q QNumber "t" n "F" x y Scenario.two_pin Hn Hh Hx Hy Ho Hfx Hfy)
    as [Hp Hk].
  split; [vm_compute; reflexivity |]. split; [| exact Hk].
  rewrite Hp. vm_compute. reflexivity.
Defined.
